(** * react-server-cli: compileClient.js

    A shallow embedding of [packages/react-server-cli/src/compileClient.js]:
    the manifest extractor [statsToManifest], the entrypoint derivation and
    option handling of the default export, and the routes-file synthesizer
    [writeWebpackCompatibleRoutesFile], followed by the properties of these
    functions. *)

From Stdlib Require Import ZArith Lia List.
From Stdlib Require Import Ascii String.
From stdpp Require Import base option list strings pretty gmap fin_maps.

Local Open Scope string_scope.
Local Set Warnings "-register-all".

(** ** JavaScript values *)

Module Js.

(** The fragment of the JavaScript value universe that flows through the
    module.  An object is the list of its own enumerable properties in
    enumeration order (the order of [Object.keys] and [JSON.stringify]); an
    [Error] object carries its message and the stack captured at creation. *)
Inductive value : Type :=
| VUndefined
| VNull
| VBool (b : bool)
| VNum (n : Z)
| VStr (s : string)
| VArr (elems : list value)
| VObj (props : list (string * value))
| VError (message stack : string).

(** ToBoolean. *)
Definition truthy (v : value) : bool :=
  match v with
  | VUndefined | VNull => false
  | VBool b => b
  | VNum n => negb (n =? 0)%Z
  | VStr s => negb (String.eqb s EmptyString)
  | VArr _ | VObj _ | VError _ _ => true
  end.

Definition nullish (v : value) : bool :=
  match v with
  | VUndefined | VNull => true
  | _ => false
  end.

(** [v === undefined], [v === null], [v === n] for a number literal [n]. *)
Definition is_undefined (v : value) : bool :=
  match v with VUndefined => true | _ => false end.

Definition is_null (v : value) : bool :=
  match v with VNull => true | _ => false end.

Definition strict_eq_num (v : value) (n : Z) : bool :=
  match v with VNum m => (m =? n)%Z | _ => false end.

(** [v === {}]: the object literal on the right creates a new object, and
    strict equality on objects is identity, so no value is equal to it. *)
Definition strict_eq_fresh_object (v : value) : bool := false.

(** [s] has a suffix equal to [suf]: the search a regular expression of the
    shape [/suf$/] performs, trying every start position. *)
Fixpoint ends_with (suf s : string) : bool :=
  String.eqb s suf ||
  match s with
  | EmptyString => false
  | String _ s' => ends_with suf s'
  end.

(** [/^pre/.test(s)]. *)
Definition starts_with (pre s : string) : bool := String.prefix pre s.

(** *** Characters named by their code *)

Definition dquote : string := String "034"%char EmptyString.
Definition backslash : string := String "092"%char EmptyString.
Definition nl : string := String "010"%char EmptyString.
Definition tab : string := String "009"%char EmptyString.

Fixpoint tabs (n : nat) : string :=
  match n with
  | O => EmptyString
  | S n' => tab ++ tabs n'
  end.

(** *** JSON.stringify *)

Definition hex_digit (n : N) : string :=
  String (ascii_of_N (if (n <? 10)%N then 48 + n else 87 + n)) EmptyString.

(** QuoteJSONString on one code unit. *)
Definition json_escape (c : ascii) : string :=
  let n := N_of_ascii c in
  if (n =? 34)%N then backslash ++ dquote
  else if (n =? 92)%N then backslash ++ backslash
  else if (n =? 8)%N then backslash ++ "b"
  else if (n =? 12)%N then backslash ++ "f"
  else if (n =? 10)%N then backslash ++ "n"
  else if (n =? 13)%N then backslash ++ "r"
  else if (n =? 9)%N then backslash ++ "t"
  else if (n <? 32)%N then
    backslash ++ "u00" ++ hex_digit (n / 16) ++ hex_digit (n mod 16)
  else String c EmptyString.

Fixpoint json_escape_all (s : string) : string :=
  match s with
  | EmptyString => EmptyString
  | String c s' => json_escape c ++ json_escape_all s'
  end.

Definition json_quote (s : string) : string :=
  dquote ++ json_escape_all s ++ dquote.

(** [JSON.stringify(v)]; [None] is the result [undefined].  In an array an
    element without a JSON form prints as [null]; in an object such a
    property is left out; an [Error] has no enumerable property. *)
Fixpoint JSON_stringify (v : value) : option string :=
  match v with
  | VUndefined => None
  | VNull => Some "null"
  | VBool b => Some (if b then "true" else "false")
  | VNum n => Some (pretty n)
  | VStr s => Some (json_quote s)
  | VArr elems =>
      Some ("[" ++
            String.concat ","
              (List.map (fun e => default "null" (JSON_stringify e)) elems) ++
            "]")
  | VObj props =>
      Some ("{" ++
            String.concat ","
              (omap (fun kv : string * value =>
                       match kv with
                       | (k, x) =>
                           match JSON_stringify x with
                           | Some t => Some (json_quote k ++ ":" ++ t)
                           | None => None
                           end
                       end) props) ++
            "}")
  | VError _ _ => Some "{}"
  end.

(** A [${...}] substitution of a template literal applied to the result of
    [JSON.stringify]: ToString of [undefined] is the word itself. *)
Definition template_subst (o : option string) : string :=
  default "undefined" o.

(** [a || b] on optional strings ([None] is [undefined]): the left operand
    when it is truthy, the right one otherwise. *)
Definition truthy_str (o : option string) : bool :=
  match o with
  | Some s => truthy (VStr s)
  | None => false
  end.

Definition js_or (a b : option string) : option string :=
  if truthy_str a then a else b.

End Js.

Import Js.

(** ** Effects: state and exceptions *)

(** How the evaluation of a piece of code ends: normally with a value, or
    abruptly with a thrown value. *)
Inductive completion (A : Type) : Type :=
| Normal (a : A)
| Throw (e : value).

Arguments Normal {A} a.
Arguments Throw {A} e.

(** A computation over a state of type [S] that may throw.  The state reached
    when the exception is thrown is kept. *)
Definition Eff (S A : Type) : Type := S -> completion A * S.

Definition ret {S A : Type} (a : A) : Eff S A := fun s => (Normal a, s).

Definition bind {S A B : Type} (m : Eff S A) (k : A -> Eff S B) : Eff S B :=
  fun s =>
    match m s with
    | (Normal a, s') => k a s'
    | (Throw e, s') => (Throw e, s')
    end.

Definition throw {S A : Type} (e : value) : Eff S A := fun s => (Throw e, s).

(** [try { body } catch (e) { handler e }] *)
Definition try_catch {S A : Type} (body : Eff S A) (handler : value -> Eff S A)
  : Eff S A :=
  fun s =>
    match body s with
    | (Normal a, s') => (Normal a, s')
    | (Throw e, s') => handler e s'
    end.

Definition modify {S : Type} (f : S -> S) : Eff S unit :=
  fun s => (Normal tt, f s).

Definition lift {S A : Type} (c : completion A) : Eff S A := fun s => (c, s).

Notation "'let*' x ':=' m 'in' k" := (bind m (fun x => k))
  (at level 10, x name, m at level 100, k at level 200).

(** A loop [for (x of xs) acc = body(acc, x)] that stops at the first throw. *)
Fixpoint for_each {S A B : Type} (body : B -> A -> Eff S B) (xs : list A) (acc : B)
  : Eff S B :=
  match xs with
  | [] => ret acc
  | x :: xs' => let* acc' := body acc x in for_each body xs' acc'
  end.

(** ** The compilation result handed over by the bundler *)

(** A chunk id is a number or a string; used as a property key it is
    converted with ToString. *)
Inductive ChunkId : Type :=
| IdNum (n : N)
| IdStr (s : string).

Definition property_key (i : ChunkId) : string :=
  match i with
  | IdNum n => pretty n
  | IdStr s => s
  end.

(** [name] is [None] when the chunk's name is [undefined] or [null]. *)
Record Chunk : Type := mkChunk {
  chunk_id : ChunkId;
  chunk_name : option string;
  chunk_files : list string;
}.

Record Stats : Type := mkStats {
  stats_chunks : list Chunk;
  stats_hash : string;
}.

(** The manifest object: three lookup objects and the build hash.  A lookup
    object is keyed by property name; a property may hold [undefined]. *)
Record Manifest : Type := mkManifest {
  jsChunksByName : gmap string value;
  jsChunksById : gmap string value;
  cssChunksByName : gmap string value;
  manifest_hash : string;
}.

(** The three objects [statsToManifest] fills while it walks the chunks. *)
Record Tables : Type := mkTables {
  t_jsByName : gmap string value;
  t_jsById : gmap string value;
  t_cssByName : gmap string value;
}.

(** [files[i]]: reading past the end of an array gives [undefined]. *)
Definition file_at (files : list string) (i : nat) : value :=
  match files !! i with
  | Some f => VStr f
  | None => VUndefined
  end.

(** [/\.css$/.test(f)] *)
Definition is_css (f : string) : bool := ends_with ".css" f.

(** The inner loop of [statsToManifest]:
    [for (let i = 1; i < files.length; i++) if (css) { record; break }].
    [rest] is the part of the array from index [i] on. *)
Fixpoint css_scan (rest : list string) : option string :=
  match rest with
  | [] => None
  | f :: rest' => if is_css f then Some f else css_scan rest'
  end.

(** [if (chunk.name)]: the name when it is truthy. *)
Definition truthy_name (c : Chunk) : option string :=
  match chunk_name c with
  | Some n => if truthy (VStr n) then Some n else None
  | None => None
  end.

(** One iteration of [for (const chunk of stats.compilation.chunks)]. *)
Definition manifest_step (acc : Tables) (c : Chunk) : Tables :=
  let acc1 :=
    match truthy_name c with
    | Some n =>
        mkTables
          (<[n := file_at (chunk_files c) 0]> (t_jsByName acc))
          (t_jsById acc)
          (match css_scan (drop 1 (chunk_files c)) with
           | Some f => <[n := VStr f]> (t_cssByName acc)
           | None => t_cssByName acc
           end)
    | None => acc
    end in
  mkTables
    (t_jsByName acc1)
    (<[property_key (chunk_id c) := file_at (chunk_files c) 0]> (t_jsById acc1))
    (t_cssByName acc1).

Definition manifest_tables (chunks : list Chunk) : Tables :=
  fold_left manifest_step chunks (mkTables ∅ ∅ ∅).

Definition statsToManifest (stats : Stats) : Manifest :=
  let t := manifest_tables (stats_chunks stats) in
  mkManifest (t_jsByName t) (t_jsById t) (t_cssByName t) (stats_hash stats).

(** ** The Node environment and the external collaborators *)

(** The second argument of [getWebpackConfig]. *)
Record WpAffectingOpts : Type := mkWpAffectingOpts {
  wp_isServer : bool;
  wp_outputDir : string;
  wp_entrypoints : gmap string (list string);
  wp_outputUrl : string;
  wp_hot : bool;
  wp_minify : bool;
  wp_longTermCaching : bool;
  wp_stats : bool;
}.

(** What the module takes from Node and from its dependencies.  None of it
    is code of this file; every function below takes the environment as an
    argument. *)
Record NodeEnv : Type := mkNodeEnv {
  (** [process.cwd()] *)
  cwd : string;
  (** [path.resolve(from, to)] *)
  path_resolve : string -> string -> string;
  (** [path.relative(from, to)] *)
  path_relative : string -> string -> string;
  (** [require.resolve(request)]; throws when the module is not found *)
  require_resolve : string -> completion string;
  (** the stack an [Error] created with this message captures *)
  error_stack : string -> string;
  (** message and stack of the [TypeError] the engine raises when property
      [k] is read from [v], which is [undefined] or [null]; the wording is
      the engine's *)
  type_error_text : value -> string -> string * string;
  (** webpack configuration objects and compilers *)
  config : Type;
  compiler : Type;
  (** [require(path.join(__dirname, "webpack/webpack.config.fn.js"))] *)
  base_config : WpAffectingOpts -> config;
  (** [require(userWebpackConfigPath).default] *)
  require_default : string -> completion (config -> config);
  (** [webpack(clientConfig)] *)
  webpack : config -> compiler;
}.

(** The files and directories this module creates. *)
Record FS : Type := mkFS {
  fs_dirs : gset string;
  fs_files : gmap string string;
}.

(** [mkdirp.sync(dir)] on its successful path.  Of the directories the
    call makes the named one is recorded (missing parents are made too and
    not recorded); a call that throws, as when the path names a file, is not
    followed. *)
Definition mkdirp_sync (dir : string) : Eff FS unit :=
  modify (fun fs => mkFS ({[ dir ]} ∪ fs_dirs fs) (fs_files fs)).

(** [fs.writeFileSync(file, content)] on its successful path; a write that
    throws, as into a directory that is not there, is not followed. *)
Definition writeFileSync (file content : string) : Eff FS unit :=
  modify (fun fs => mkFS (fs_dirs fs) (<[file := content]> (fs_files fs))).

(** ** Route tables and options *)

(** [route.page]: a module name, or an object from format names to module
    names. *)
Inductive PageRef : Type :=
| PageStr (module : string)
| PageObj (formats : list (string * string)).

Record Route : Type := mkRoute {
  route_path : value;
  route_method : value;
  route_page : PageRef;
}.

(** [routes.routes] is given by its properties in [Object.keys] order;
    [routes.middleware] is [None] when the property is missing. *)
Record Routes : Type := mkRoutes {
  routes_middleware : option (list string);
  routes_routes : list (string * Route);
}.

(** The argument of the default export; [None] is a missing property. *)
Record Opts : Type := mkOpts {
  opt_routes : Routes;
  opt_webpackConfig : option string;
  opt_webpack_config : option string;
  opt_workingDir : option string;
  opt_routesDir : option string;
  opt_outputDir : option string;
  opt_outputUrl : option string;
  opt_hot : option bool;
  opt_minify : option bool;
  opt_stats : option bool;
  opt_longTermCaching : option bool;
  opt_logLevel : value;
  opt_timingLogLevel : value;
  opt_gaugeLogLevel : value;
}.

Definition normalizeRoutesPage (page : PageRef) : list (string * string) :=
  match page with
  | PageStr module => [("default", module)]
  | PageObj formats => formats
  end.

(** What the generated module runs in: the lines sent to [console.error],
    next to whatever state the page modules and the callback keep. *)
Record Runtime (U : Type) : Type := mkRuntime {
  console_errors : list (list value);
  user_state : U;
}.

Arguments mkRuntime {U} _ _.
Arguments console_errors {U} _.
Arguments user_state {U} _.

Definition console_error {U : Type} (args : list value) : Eff (Runtime U) unit :=
  modify (fun w => mkRuntime (console_errors w ++ [args])%list (user_state w)).

Section WithEnv.

Context (env : NodeEnv).

(** [new Error(message)] and the [TypeError] of a property read on
    [undefined] or [null]. *)
Definition new_Error (message : string) : value :=
  VError message (error_stack env message).

Definition type_error (v : value) (prop : string) : value :=
  VError (fst (type_error_text env v prop)) (snd (type_error_text env v prop)).

Fixpoint own_property (props : list (string * value)) (k : string) : value :=
  match props with
  | [] => VUndefined
  | (k', x) :: props' => if String.eqb k' k then x else own_property props' k
  end.

(** [v.k] on a value that is neither [undefined] nor [null], for the
    property names this module reads. *)
Definition read_prop (v : value) (k : string) : value :=
  match v with
  | VUndefined | VNull | VBool _ | VNum _ => VUndefined
  | VStr s =>
      if String.eqb k "length" then VNum (Z.of_nat (String.length s))
      else VUndefined
  | VArr elems =>
      if String.eqb k "length" then VNum (Z.of_nat (List.length elems))
      else VUndefined
  | VObj props => own_property props k
  | VError message stack =>
      if String.eqb k "message" then VStr message
      else if String.eqb k "stack" then VStr stack
      else VUndefined
  end.

(** [v.k]: a [TypeError] on [undefined] and [null]. *)
Definition get_prop {S : Type} (v : value) (k : string) : Eff S value :=
  if nullish v then throw (type_error v k) else ret (read_prop v k).

(** ** writeClientBootstrapFile *)

Definition bootstrap_content (opts : Opts) : string :=
  nl ++ tabs 2 ++ "if (typeof window !== " ++ dquote ++ "undefined" ++ dquote ++ ") {" ++
  nl ++ tabs 3 ++ "window.__setReactServerBase = function(path) {" ++
  nl ++ tabs 4 ++ "// according to http://webpack.github.io/docs/configuration.html#output-publicpath" ++
  nl ++ tabs 4 ++ "// we should never set __webpack_public_path__ when hot module replacement is on." ++
  nl ++ tabs 4 ++ "if (!module.hot) {" ++
  nl ++ tabs 5 ++ "__webpack_public_path__ = path;" ++
  nl ++ tabs 4 ++ "}" ++
  nl ++ tabs 4 ++ "window.__reactServerBase = path;" ++
  nl ++ tabs 3 ++ "}" ++
  nl ++ tabs 2 ++ "}" ++
  nl ++ tabs 2 ++ "var reactServer = require(" ++ dquote ++ "react-server" ++ dquote ++ ");" ++
  nl ++ tabs 2 ++ "window.rfBootstrap = function() {" ++
  nl ++ tabs 3 ++ "reactServer.logging.setLevel('main',  " ++
    template_subst (JSON_stringify (opt_logLevel opts)) ++ ");" ++
  nl ++ tabs 3 ++ "reactServer.logging.setLevel('time',  " ++
    template_subst (JSON_stringify (opt_timingLogLevel opts)) ++ ");" ++
  nl ++ tabs 3 ++ "reactServer.logging.setLevel('gauge', " ++
    template_subst (JSON_stringify (opt_gaugeLogLevel opts)) ++ ");" ++
  nl ++ tabs 3 ++ "new reactServer.ClientController({routes: require(" ++
    dquote ++ "./routes_client" ++ dquote ++ ")}).init();" ++
  nl ++ tabs 2 ++ "}".

Definition writeClientBootstrapFile (outputDir : string) (opts : Opts)
  : Eff FS string :=
  let outputFile := outputDir ++ "/entry.js" in
  let* _ := writeFileSync outputFile (bootstrap_content opts) in
  ret outputFile.

(** ** writeWebpackCompatibleRoutesFile *)

(** [JSON.stringify(path.relative(workingDirAbsolute,
    path.resolve(routesDir, module)))] inside a template literal. *)
Definition relative_path_json (routesDir workingDirAbsolute module : string)
  : string :=
  template_subst
    (JSON_stringify
       (VStr (path_relative env workingDirAbsolute
                (path_resolve env routesDir module)))).

Definition middleware_entry (routesDir workingDirAbsolute : string)
    (middlewareRelativePath : string) : string :=
  "unwrapEs6Module(require(" ++
  relative_path_json routesDir workingDirAbsolute middlewareRelativePath ++
  "))".

(** The first [routesOutput.push]. *)
Definition routes_head (manifest : value) (coreMiddleware : string)
    (staticUrl : value) (existingMiddleware : list string) : string :=
  nl ++ "var manifest = " ++
    (if truthy manifest then template_subst (JSON_stringify manifest)
     else "undefined") ++ ";" ++
  nl ++ "function unwrapEs6Module(module) { return module.__esModule ? module.default : module }" ++
  nl ++ "var coreJsMiddleware = require(" ++ coreMiddleware ++ ").coreJsMiddleware;" ++
  nl ++ "var coreCssMiddleware = require(" ++ coreMiddleware ++ ").coreCssMiddleware;" ++
  nl ++ "module.exports = {" ++
  nl ++ tabs 1 ++ "middleware:[" ++
  nl ++ tabs 2 ++ "coreJsMiddleware(" ++
    template_subst (JSON_stringify staticUrl) ++ ", manifest)," ++
  nl ++ tabs 2 ++ "coreCssMiddleware(" ++
    template_subst (JSON_stringify staticUrl) ++ ", manifest)," ++
  nl ++ tabs 2 ++ String.concat "," existingMiddleware ++
  nl ++ tabs 1 ++ "]," ++
  nl ++ tabs 1 ++ "routes:{".

(** The check on [route.method]:
    [method === undefined || method === null || method === {} ||
     method.length === 0], with the operands evaluated left to right until
    one holds. *)
Definition method_is_empty {S : Type} (method : value) : Eff S bool :=
  if is_undefined method then ret true
  else if is_null method then ret true
  else if strict_eq_fresh_object method then ret true
  else let* len := get_prop method "length" in ret (strict_eq_num len 0).

Definition normalize_method {S : Type} (method : value) : Eff S value :=
  let* empty := method_is_empty method in
  ret (if empty then VUndefined else method).

Definition route_open (routeName : string) (path method : value) : string :=
  nl ++ tabs 2 ++ routeName ++ ": {" ++
  nl ++ tabs 3 ++ "path: " ++ template_subst (JSON_stringify path) ++ "," ++
  nl ++ tabs 3 ++ "method: " ++ template_subst (JSON_stringify method) ++ ",".

Definition page_open : string :=
  nl ++ tabs 3 ++ "page: {".

Definition loader_open (format : string) : string :=
  nl ++ tabs 4 ++ format ++ ": function() {" ++
  nl ++ tabs 5 ++ "return {" ++
  nl ++ tabs 6 ++ "done: function(cb) {".

Definition loader_client (relativePathToPage : string) : string :=
  nl ++ tabs 7 ++ "require.ensure(" ++ relativePathToPage ++ ", function() {" ++
  nl ++ tabs 8 ++ "cb(unwrapEs6Module(require(" ++ relativePathToPage ++ ")));" ++
  nl ++ tabs 7 ++ "});".

Definition loader_server (relativePathToPage : string) : string :=
  nl ++ tabs 7 ++ "try {" ++
  nl ++ tabs 8 ++ "cb(unwrapEs6Module(require(" ++ relativePathToPage ++ ")));" ++
  nl ++ tabs 7 ++ "} catch (e) {" ++
  nl ++ tabs 8 ++ "console.error('Failed to load page at " ++
    relativePathToPage ++ "', e.stack);" ++
  nl ++ tabs 7 ++ "}".

Definition loader_close : string :=
  nl ++ tabs 6 ++ "}" ++
  nl ++ tabs 5 ++ "};" ++
  nl ++ tabs 4 ++ "},".

Definition route_close : string :=
  nl ++ tabs 3 ++ "}," ++
  nl ++ tabs 2 ++ "},".

Definition routes_tail : string :=
  nl ++ tabs 1 ++ "}" ++
  nl ++ "};".

(** The body of [for (let format of Object.keys(formats))]: three pushes. *)
Definition format_output (routesDir workingDirAbsolute : string)
    (isClient : bool) (routesOutput : list string) (fm : string * string)
  : list string :=
  let format := fst fm in
  let formatModule := snd fm in
  let relativePathToPage :=
    relative_path_json routesDir workingDirAbsolute formatModule in
  (routesOutput ++
   [ loader_open format;
     if isClient then loader_client relativePathToPage
     else loader_server relativePathToPage;
     loader_close ])%list.

(** The body of [for (let routeName of Object.keys(routes.routes))]. *)
Definition route_output {S : Type} (routesDir workingDirAbsolute : string)
    (isClient : bool) (routesOutput : list string) (nr : string * Route)
  : Eff S (list string) :=
  let routeName := fst nr in
  let route := snd nr in
  let* method := normalize_method (route_method route) in
  let routesOutput :=
    (routesOutput ++ [route_open routeName (route_path route) method])%list in
  let formats := normalizeRoutesPage (route_page route) in
  let routesOutput := (routesOutput ++ [page_open])%list in
  let routesOutput :=
    fold_left (format_output routesDir workingDirAbsolute isClient)
      formats routesOutput in
  ret (routesOutput ++ [route_close])%list.

Definition routes_file_path (workingDirAbsolute : string) (isClient : bool)
  : string :=
  workingDirAbsolute ++ "/routes_" ++
  (if isClient then "client" else "server") ++ ".js".

(** The text [routesOutput.join("")] that ends up in the file. *)
Definition routes_content {S : Type} (routes : Routes)
    (routesDir workingDirAbsolute : string) (staticUrl : value)
    (isClient : bool) (manifest : value) : Eff S string :=
  let* coreResolved := lift (require_resolve env "react-server-core-middleware") in
  let coreMiddleware := template_subst (JSON_stringify (VStr coreResolved)) in
  let existingMiddleware :=
    match routes_middleware routes with
    | Some ms => List.map (middleware_entry routesDir workingDirAbsolute) ms
    | None => []
    end in
  let routesOutput :=
    [routes_head manifest coreMiddleware staticUrl existingMiddleware] in
  let* routesOutput :=
    for_each (route_output routesDir workingDirAbsolute isClient)
      (routes_routes routes) routesOutput in
  let routesOutput := (routesOutput ++ [routes_tail])%list in
  ret (String.concat EmptyString routesOutput).

Definition writeWebpackCompatibleRoutesFile (routes : Routes)
    (routesDir workingDirAbsolute : string) (staticUrl : value)
    (isClient : bool) (manifest : value) : Eff FS string :=
  let* routesContent :=
    routes_content routes routesDir workingDirAbsolute staticUrl isClient
      manifest in
  let routesFilePath := routes_file_path workingDirAbsolute isClient in
  let* _ := writeFileSync routesFilePath routesContent in
  ret routesFilePath.

(** *** The text in closed form *)

(** The outcome of the check on [route.method], without the evaluation
    order. *)
Definition method_empty (method : value) : bool :=
  nullish method || strict_eq_num (read_prop method "length") 0.

Definition format_lines (routesDir workingDirAbsolute : string)
    (isClient : bool) (fm : string * string) : list string :=
  let relativePathToPage :=
    relative_path_json routesDir workingDirAbsolute (snd fm) in
  [ loader_open (fst fm);
    if isClient then loader_client relativePathToPage
    else loader_server relativePathToPage;
    loader_close ].

Definition route_lines (routesDir workingDirAbsolute : string)
    (isClient : bool) (nr : string * Route) : list string :=
  ([ route_open (fst nr) (route_path (snd nr))
       (if method_empty (route_method (snd nr)) then VUndefined
        else route_method (snd nr));
     page_open ] ++
   flat_map (format_lines routesDir workingDirAbsolute isClient)
     (normalizeRoutesPage (route_page (snd nr))) ++
   [ route_close ])%list.

(** The content of the routes file once the core middleware is resolved to
    [coreResolved]. *)
Definition routes_text (coreResolved : string) (routes : Routes)
    (routesDir workingDirAbsolute : string) (staticUrl : value)
    (isClient : bool) (manifest : value) : string :=
  String.concat EmptyString
    ([ routes_head manifest
         (template_subst (JSON_stringify (VStr coreResolved))) staticUrl
         (match routes_middleware routes with
          | Some ms => List.map (middleware_entry routesDir workingDirAbsolute) ms
          | None => []
          end) ] ++
     flat_map (route_lines routesDir workingDirAbsolute isClient)
       (routes_routes routes) ++
     [ routes_tail ])%list.

(** ** The default export *)

(** The key under which a (route, format) pair is entered:
    [routeName + (format !== "default" ? "-" + format : "")]. *)
Definition entry_name (routeName format : string) : string :=
  routeName ++
  (if negb (String.eqb format "default") then "-" ++ format else EmptyString).

(** No character of [s] is a dash. *)
Fixpoint no_dash (s : string) : bool :=
  match s with
  | EmptyString => true
  | String c s' => negb (Ascii.eqb c "-"%char) && no_dash s'
  end.

(** [webpackDevServerClientUrl]: a protocol-relative [outputUrl] gets
    [http:] in front. *)
Definition webpackDevServerClientUrl (outputUrl : string) : string :=
  if starts_with "//" outputUrl then "http:" ++ outputUrl else outputUrl.

Definition entrypointBase {S : Type} (hot : bool) (outputUrl : string)
  : Eff S (list string) :=
  if hot then
    let* client := lift (require_resolve env "webpack-dev-server/client") in
    let* onlyDevServer := lift (require_resolve env "webpack/hot/only-dev-server") in
    ret [client ++ "?" ++ webpackDevServerClientUrl outputUrl; onlyDevServer]
  else ret [].

(** The body of [for (let format of Object.keys(formats))]. *)
Definition format_entry {S : Type} (routesDirAbsolute : string)
    (base : list string) (bootstrapFile routeName : string)
    (entrypoints : gmap string (list string)) (fm : string * string)
  : Eff S (gmap string (list string)) :=
  let* absolutePathToPage :=
    lift (require_resolve env (path_resolve env routesDirAbsolute (snd fm))) in
  ret (<[entry_name routeName (fst fm) :=
           (base ++ [bootstrapFile; absolutePathToPage])%list]> entrypoints).

(** The body of [for (let routeName of Object.keys(routes.routes))]. *)
Definition route_entries {S : Type} (routesDirAbsolute : string)
    (base : list string) (bootstrapFile : string)
    (entrypoints : gmap string (list string)) (nr : string * Route)
  : Eff S (gmap string (list string)) :=
  for_each (format_entry routesDirAbsolute base bootstrapFile (fst nr))
    (normalizeRoutesPage (route_page (snd nr))) entrypoints.

Definition derive_entrypoints {S : Type} (routes : Routes)
    (routesDirAbsolute : string) (base : list string) (bootstrapFile : string)
  : Eff S (gmap string (list string)) :=
  for_each (route_entries routesDirAbsolute base bootstrapFile)
    (routes_routes routes) ∅.

(** The (route, format, module) triples in the order the two loops visit
    them, and the entry each one stands for once its page is resolved. *)
Definition route_format_pairs (routes : Routes)
  : list (string * string * string) :=
  flat_map
    (fun nr : string * Route =>
       List.map (fun fm : string * string => (fst nr, fst fm, snd fm))
         (normalizeRoutesPage (route_page (snd nr))))
    (routes_routes routes).

Definition pair_entry_name (t : string * string * string) : string :=
  entry_name (fst (fst t)) (snd (fst t)).

Definition entry_of (routesDirAbsolute : string) (base : list string)
    (bootstrapFile : string) (t : string * string * string)
  : option (string * list string) :=
  match require_resolve env (path_resolve env routesDirAbsolute (snd t)) with
  | Normal absolutePathToPage =>
      Some (pair_entry_name t,
            (base ++ [bootstrapFile; absolutePathToPage])%list)
  | Throw _ => None
  end.

Definition hot_and_caching_message : string :=
  "Hot reload cannot be used with long-term caching. Please disable either long-term caching or hot reload.".

(** The default export up to the call of [getWebpackConfig]: the result is
    the pair of arguments of that call. *)
Definition prepareClientBuild (opts : Opts)
  : Eff FS (option string * WpAffectingOpts) :=
  let routes := opt_routes opts in
  let webpackConfig := opt_webpackConfig opts in
  let workingDir := default "./__clientTemp" (opt_workingDir opts) in
  let routesDir := default "." (opt_routesDir opts) in
  let outputDir := default (workingDir ++ "/build") (opt_outputDir opts) in
  let outputUrl := default "/static/" (opt_outputUrl opts) in
  let hot := default true (opt_hot opts) in
  let minify := default false (opt_minify opts) in
  let stats := default false (opt_stats opts) in
  let longTermCaching := default false (opt_longTermCaching opts) in
  if longTermCaching && hot then throw (new_Error hot_and_caching_message)
  else
    let workingDirAbsolute := path_resolve env (cwd env) workingDir in
    let* _ := mkdirp_sync workingDirAbsolute in
    let outputDirAbsolute := path_resolve env (cwd env) outputDir in
    let* _ := mkdirp_sync outputDirAbsolute in
    let routesDirAbsolute := path_resolve env (cwd env) routesDir in
    let* bootstrapFile := writeClientBootstrapFile workingDirAbsolute opts in
    let* base := entrypointBase hot outputUrl in
    let* entrypoints :=
      derive_entrypoints routes routesDirAbsolute base bootstrapFile in
    let* _ :=
      writeWebpackCompatibleRoutesFile routes routesDir workingDirAbsolute
        VNull true VUndefined in
    let userWebpackConfigOpt := js_or webpackConfig (opt_webpack_config opts) in
    ret (userWebpackConfigOpt,
         mkWpAffectingOpts false outputDirAbsolute entrypoints outputUrl hot
           minify longTermCaching stats).

Definition getWebpackConfig {S : Type} (userWebpackConfigOpt : option string)
    (wpAffectingOpts : WpAffectingOpts) : Eff S (config env) :=
  let* extend :=
    match userWebpackConfigOpt with
    | Some userPath =>
        if truthy (VStr userPath) then
          let userWebpackConfigPath := path_resolve env (cwd env) userPath in
          lift (require_default env userWebpackConfigPath)
        else ret (fun data => data)
    | None => ret (fun data => data)
    end in
  let baseConfig := base_config env wpAffectingOpts in
  ret (extend baseConfig).

(** The default export; the result is the [compiler] member of the object
    it returns.  (The [serverRoutes] promise is settled by the bundler's
    [done] event, after this function has returned.) *)
Definition compileClient (opts : Opts) : Eff FS (compiler env) :=
  let* args := prepareClientBuild opts in
  let* clientConfig := getWebpackConfig (fst args) (snd args) in
  ret (webpack env clientConfig).

(** ** The loader the server variant of the routes file contains *)

(** [function unwrapEs6Module(module)
      { return module.__esModule ? module.default : module }] *)
Definition unwrapEs6Module {S : Type} (module : value) : Eff S value :=
  let* flag := get_prop module "__esModule" in
  if truthy flag then get_prop module "default" else ret module.

(** *** Reading the loader back from the emitted text *)

(** The generated file is source text; what its loader does is decided by
    how that text reads.  The two places where the page path was spliced in
    are string literals, read by the rules of the language: a literal ends
    at its quote, a backslash starts an escape, and a line break inside a
    literal is an error. *)

Fixpoint strip_prefix (pre s : string) : option string :=
  match pre with
  | EmptyString => Some s
  | String a pre' =>
      match s with
      | String b s' => if Ascii.eqb a b then strip_prefix pre' s' else None
      | EmptyString => None
      end
  end.

(** The character a single-character escape stands for. *)
Definition simple_escape (d : ascii) : option ascii :=
  if Ascii.eqb d "034" then Some "034"%char
  else if Ascii.eqb d "039" then Some "039"%char
  else if Ascii.eqb d "092" then Some "092"%char
  else if Ascii.eqb d "b" then Some "008"%char
  else if Ascii.eqb d "f" then Some "012"%char
  else if Ascii.eqb d "n" then Some "010"%char
  else if Ascii.eqb d "r" then Some "013"%char
  else if Ascii.eqb d "t" then Some "009"%char
  else if Ascii.eqb d "v" then Some "011"%char
  else None.

Definition hex_value (c : ascii) : option N :=
  let n := N_of_ascii c in
  if (48 <=? n)%N && (n <=? 57)%N then Some (n - 48)%N
  else if (97 <=? n)%N && (n <=? 102)%N then Some (n - 87)%N
  else if (65 <=? n)%N && (n <=? 70)%N then Some (n - 55)%N
  else None.

(** The character [\uh1h2h3h4] stands for, when it is one of the first 128
    (no other code is written by [JSON.stringify] as an escape). *)
Definition unicode_escape (h1 h2 h3 h4 : ascii) : option ascii :=
  match hex_value h1, hex_value h2, hex_value h3, hex_value h4 with
  | Some 0%N, Some 0%N, Some a, Some b =>
      if (16 * a + b <? 128)%N then Some (ascii_of_N (16 * a + b)) else None
  | _, _, _, _ => None
  end.

Definition push (c : ascii) (r : option (string * string))
  : option (string * string) :=
  match r with
  | Some (v, rest) => Some (String c v, rest)
  | None => None
  end.

Definition has_prefix (pre s : string) : bool :=
  match strip_prefix pre s with
  | Some _ => true
  | None => false
  end.

(** The line terminators of the language: LF, CR, and the separators U+2028
    and U+2029, which a string holds as three bytes each. *)
Definition cr : string := String "013"%char EmptyString.
Definition line_separator : string :=
  String "226"%char (String "128"%char (String "168"%char EmptyString)).
Definition paragraph_separator : string :=
  String "226"%char (String "128"%char (String "169"%char EmptyString)).

Definition line_terminator_at (s : string) : bool :=
  has_prefix nl s || has_prefix cr s ||
  has_prefix line_separator s || has_prefix paragraph_separator s.

(** The value of a string literal and the text after its closing quote;
    [s] starts right after the opening quote [q].  [None]: the text ends or
    has a line terminator before the closing quote, or it has an escape
    outside the ones above, which are the ones [JSON.stringify] writes; the
    other escapes of the language are left out.  Later editions of the
    language admit the two separators in a literal; the properties below
    are stated for texts without them and hold either way. *)
Fixpoint string_literal (q : ascii) (s : string) : option (string * string) :=
  match s with
  | EmptyString => None
  | String c s1 =>
      if Ascii.eqb c q then Some (EmptyString, s1)
      else if line_terminator_at s then None
      else if Ascii.eqb c "092" then
        match s1 with
        | EmptyString => None
        | String d s2 =>
            match simple_escape d with
            | Some x => push x (string_literal q s2)
            | None =>
                if Ascii.eqb d "u" then
                  match s2 with
                  | String h1 (String h2 (String h3 (String h4 s3))) =>
                      match unicode_escape h1 h2 h3 h4 with
                      | Some x => push x (string_literal q s3)
                      | None => None
                      end
                  | _ => None
                  end
                else None
            end
        end
      else push c (string_literal q s1)
  end.

(** The loader statement of the server variant, read back:
    [try { cb(unwrapEs6Module(require("P"))); }
     catch (e) { console.error('M', e.stack); }]
    gives the values of the two literals, the required path [P] and the
    message [M]; any other text gives [None]. *)
Definition parse_server_loader (text : string) : option (string * string) :=
  match strip_prefix
          (nl ++ tabs 7 ++ "try {" ++
           nl ++ tabs 8 ++ "cb(unwrapEs6Module(require(" ++ dquote) text with
  | None => None
  | Some s1 =>
      match string_literal "034" s1 with
      | None => None
      | Some (required, s2) =>
          match strip_prefix
                  (")));" ++
                   nl ++ tabs 7 ++ "} catch (e) {" ++
                   nl ++ tabs 8 ++ "console.error('") s2 with
          | None => None
          | Some s3 =>
              match string_literal "039" s3 with
              | None => None
              | Some (message, s4) =>
                  match strip_prefix ("," ++ " e.stack);" ++ nl ++ tabs 7 ++ "}") s4 with
                  | Some EmptyString => Some (required, message)
                  | _ => None
                  end
              end
          end
      end
  end.

(** What the statement read back does when [done(cb)] is called; [require]
    is the module system's. *)
Definition run_server_loader {U : Type} (program : string * string)
    (require : string -> Eff (Runtime U) value)
    (cb : value -> Eff (Runtime U) value) : Eff (Runtime U) value :=
  let* _ :=
    try_catch
      (let* module := require (fst program) in
       let* page := unwrapEs6Module module in
       let* _ := cb page in
       ret tt)
      (fun e =>
         let* stack := get_prop e "stack" in
         console_error [VStr (snd program); stack]) in
  ret VUndefined.

(** The [done] of the loader whose body is [text], as a function of
    [require] and of the callback; [None] when the text is not of the shape
    above, as when an apostrophe in the page path ends the literal of the
    message early. *)
Definition server_done {U : Type} (text : string)
  : option ((string -> Eff (Runtime U) value) ->
            (value -> Eff (Runtime U) value) -> Eff (Runtime U) value) :=
  match parse_server_loader text with
  | Some program => Some (run_server_loader program)
  | None => None
  end.

(** The message a loader logs for a page path: the words and the path
    between double quotes. *)
Definition failure_message (relativePath : string) : string :=
  "Failed to load page at " ++ dquote ++ relativePath ++ dquote.

(** A path can be spliced into the loader between quotes of either kind:
    it holds no apostrophe (which [JSON.stringify] leaves as it is, and
    which ends the single-quoted literal of the message) and neither of the
    two separators (which [JSON.stringify] leaves as they are, too). *)
Fixpoint literal_safe (s : string) : bool :=
  match s with
  | EmptyString => true
  | String c s' =>
      negb (Ascii.eqb c "039") &&
      negb (has_prefix line_separator s) &&
      negb (has_prefix paragraph_separator s) &&
      literal_safe s'
  end.

(** [s] holds an apostrophe. *)
Fixpoint has_apostrophe (s : string) : bool :=
  match s with
  | EmptyString => false
  | String c s' => Ascii.eqb c "039" || has_apostrophe s'
  end.

(** [pre] in front of the value of a literal. *)
Definition prepend (pre : string) (r : option (string * string))
  : option (string * string) :=
  match r with
  | Some (v, rest) => Some (pre ++ v, rest)
  | None => None
  end.

(** Bytes above 127, of which the two separators are made. *)
Definition is_high (c : ascii) : bool :=
  match c with
  | Ascii _ _ _ _ _ _ _ b7 => b7
  end.

Definition head_is_low (s : string) : bool :=
  match s with
  | EmptyString => true
  | String c _ => negb (is_high c)
  end.

Fixpoint all_high (s : string) : bool :=
  match s with
  | EmptyString => true
  | String c s' => is_high c && all_high s'
  end.

End WithEnv.

(** ** Objects with their properties in order *)

(** The manifest is serialized, so the order of the properties of its three
    objects shows.  An object lists its array-index keys first, in ascending
    numeric order, then its other string keys in the order they were
    created. *)

Definition digit_value (c : ascii) : option N :=
  let n := N_of_ascii c in
  if (48 <=? n)%N && (n <=? 57)%N then Some (n - 48)%N else None.

Fixpoint parse_digits (s : string) (acc : N) : option N :=
  match s with
  | EmptyString => Some acc
  | String c s' =>
      match digit_value c with
      | Some d => parse_digits s' (10 * acc + d)%N
      | None => None
      end
  end.

(** The number a key stands for when the key is an array index: the
    canonical decimal form of an integer below 2^32 - 1. *)
Definition array_index (k : string) : option N :=
  match k with
  | EmptyString => None
  | String _ _ =>
      match parse_digits k 0 with
      | Some n =>
          if String.eqb (pretty n) k && (n <? 4294967295)%N then Some n
          else None
      | None => None
      end
  end.

(** [None] when the object has no own property [k]. *)
Fixpoint obj_lookup (props : list (string * value)) (k : string) : option value :=
  match props with
  | [] => None
  | (k', x) :: props' => if String.eqb k' k then Some x else obj_lookup props' k
  end.

Fixpoint obj_replace (props : list (string * value)) (k : string) (v : value)
  : list (string * value) :=
  match props with
  | [] => []
  | (k', x) :: props' =>
      if String.eqb k' k then (k', v) :: props'
      else (k', x) :: obj_replace props' k v
  end.

(** A new array-index key goes before the first key that is a larger index
    or no index at all. *)
Fixpoint obj_insert_index (props : list (string * value)) (n : N) (k : string)
    (v : value) : list (string * value) :=
  match props with
  | [] => [(k, v)]
  | (k', x) :: props' =>
      match array_index k' with
      | Some n' =>
          if (n <? n')%N then (k, v) :: props
          else (k', x) :: obj_insert_index props' n k v
      | None => (k, v) :: props
      end
  end.

(** [obj[k] = v]: an existing property keeps its place. *)
Definition obj_set (props : list (string * value)) (k : string) (v : value)
  : list (string * value) :=
  match obj_lookup props k with
  | Some _ => obj_replace props k v
  | None =>
      match array_index k with
      | Some n => obj_insert_index props n k v
      | None => (props ++ [(k, v)])%list
      end
  end.

(** ** The manifest as the object that is serialized *)

Record ObjTables : Type := mkObjTables {
  o_jsByName : list (string * value);
  o_jsById : list (string * value);
  o_cssByName : list (string * value);
}.

(** One iteration of [for (const chunk of stats.compilation.chunks)], on
    objects that remember the order of their properties. *)
Definition manifest_object_step (acc : ObjTables) (c : Chunk) : ObjTables :=
  let acc1 :=
    match truthy_name c with
    | Some n =>
        mkObjTables
          (obj_set (o_jsByName acc) n (file_at (chunk_files c) 0))
          (o_jsById acc)
          (match css_scan (drop 1 (chunk_files c)) with
           | Some f => obj_set (o_cssByName acc) n (VStr f)
           | None => o_cssByName acc
           end)
    | None => acc
    end in
  mkObjTables
    (o_jsByName acc1)
    (obj_set (o_jsById acc1) (property_key (chunk_id c))
       (file_at (chunk_files c) 0))
    (o_cssByName acc1).

Definition manifest_objects (chunks : list Chunk) : ObjTables :=
  fold_left manifest_object_step chunks (mkObjTables [] [] []).

(** The value [statsToManifest] returns, as [JSON.stringify] sees it: the
    object literal [{jsChunksByName, jsChunksById, cssChunksByName, hash}]. *)
Definition manifest_object (stats : Stats) : value :=
  let t := manifest_objects (stats_chunks stats) in
  VObj [ ("jsChunksByName", VObj (o_jsByName t));
         ("jsChunksById", VObj (o_jsById t));
         ("cssChunksByName", VObj (o_cssByName t));
         ("hash", VStr (stats_hash stats)) ].

(** ** The handler of the bundler's [done] event *)

(** What the handler takes from outside besides the Node environment:
    [path.join] and the hot-reload coordinator of
    [./serverSideHotModuleReload], which is free to use the file system and
    to throw. *)
Record BuildEnv : Type := mkBuildEnv {
  path_join : string -> string -> string;
  serverSideHotModuleReload : Stats -> Eff FS unit;
}.

Section DoneEvent.

Context (env : NodeEnv) (benv : BuildEnv).

(** [fs.unlinkSync(file)]: removing a file that is not there throws. *)
Definition unlinkSync (file : string) : Eff FS unit :=
  fun fs =>
    match fs_files fs !! file with
    | Some _ => (Normal tt, mkFS (fs_dirs fs) (delete file (fs_files fs)))
    | None =>
        (Throw (new_Error env
                  ("ENOENT: no such file or directory, unlink '" ++ file ++ "'")),
         fs)
    end.

(** The function given to [compiler.plugin("done", ...)], with the
    variables it closes over computed from the options as the default export
    computes them.  A normal result is the path passed to [resolve]; a throw
    leaves the promise unsettled. *)
Definition on_done (opts : Opts) (stats : Stats) : Eff FS string :=
  let routes := opt_routes opts in
  let workingDir := default "./__clientTemp" (opt_workingDir opts) in
  let routesDir := default "." (opt_routesDir opts) in
  let outputDir := default (workingDir ++ "/build") (opt_outputDir opts) in
  let outputUrl := default "/static/" (opt_outputUrl opts) in
  let hot := default true (opt_hot opts) in
  let workingDirAbsolute := path_resolve env (cwd env) workingDir in
  let manifest := manifest_object stats in
  let* _ :=
    writeFileSync (path_join benv outputDir "manifest.json")
      (template_subst (JSON_stringify manifest)) in
  let* _ :=
    if negb hot then unlinkSync (path_join benv outputDir "chunk-manifest.json")
    else ret tt in
  let* routesFilePath :=
    writeWebpackCompatibleRoutesFile env routes routesDir workingDirAbsolute
      (VStr outputUrl) false manifest in
  let* _ := if hot then serverSideHotModuleReload benv stats else ret tt in
  ret routesFilePath.

End DoneEvent.

(** ** States the set-up phase passes through *)

Section SetupStates.

Context (env : NodeEnv).

Definition working_dir_absolute (opts : Opts) : string :=
  path_resolve env (cwd env) (default "./__clientTemp" (opt_workingDir opts)).

Definition output_dir_absolute (opts : Opts) : string :=
  path_resolve env (cwd env)
    (default (default "./__clientTemp" (opt_workingDir opts) ++ "/build")
       (opt_outputDir opts)).

(** The file system once both directories are made and the bootstrap file
    is written. *)
Definition after_bootstrap (opts : Opts) (fs : FS) : FS :=
  mkFS ({[ output_dir_absolute opts ]} ∪ ({[ working_dir_absolute opts ]} ∪ fs_dirs fs))
       (<[(working_dir_absolute opts ++ "/entry.js")%string :=
            bootstrap_content opts]> (fs_files fs)).

(** The client routes file the set-up writes, given the resolved core
    middleware. *)
Definition client_routes_text (core : string) (opts : Opts) : string :=
  routes_text env core (opt_routes opts) (default "." (opt_routesDir opts))
    (working_dir_absolute opts) VNull true VUndefined.

End SetupStates.

(** ** What the [done] handler reads and writes *)

Section DoneStates.

Context (env : NodeEnv) (benv : BuildEnv).

Definition output_dir (opts : Opts) : string :=
  default (default "./__clientTemp" (opt_workingDir opts) ++ "/build")
    (opt_outputDir opts).

Definition manifest_json_path (opts : Opts) : string :=
  path_join benv (output_dir opts) "manifest.json".

Definition chunk_manifest_path (opts : Opts) : string :=
  path_join benv (output_dir opts) "chunk-manifest.json".

(** The text written to [manifest.json]. *)
Definition manifest_json (stats : Stats) : string :=
  template_subst (JSON_stringify (manifest_object stats)).

(** The server routes file the handler writes, given the resolved core
    middleware. *)
Definition server_routes_text (core : string) (opts : Opts) (stats : Stats)
  : string :=
  routes_text env core (opt_routes opts) (default "." (opt_routesDir opts))
    (working_dir_absolute env opts)
    (VStr (default "/static/" (opt_outputUrl opts))) false
    (manifest_object stats).

(** The file system once [manifest.json] is written. *)
Definition after_manifest (opts : Opts) (stats : Stats) (fs : FS) : FS :=
  mkFS (fs_dirs fs) (<[manifest_json_path opts := manifest_json stats]> (fs_files fs)).

End DoneStates.

(** A coordinator that leaves a file behind, and one that fails. *)
Definition demo_benv : BuildEnv :=
  mkBuildEnv (fun dir file => dir ++ "/" ++ file)
    (fun stats => writeFileSync "/hmr.log" (stats_hash stats)).

Definition failing_benv : BuildEnv :=
  mkBuildEnv (fun dir file => dir ++ "/" ++ file)
    (fun stats => throw (VStr "hmr failed")).

(** The output directory as the bundler leaves it in a build without hot
    reload. *)
Definition built_fs : FS :=
  mkFS ∅ {[ "./__clientTemp/build/chunk-manifest.json" := "{}" ]}.

(** The wording of one engine for the [TypeError] of a property read on
    [undefined] or [null]. *)
Definition demo_type_error_text (v : value) (prop : string) : string * string :=
  let message :=
    "Cannot read property '" ++ prop ++ "' of " ++
    (if is_null v then "null" else "undefined") in
  (message, "TypeError: " ++ message).

(** An environment in which one page is missing. *)
Definition missing_about_env : NodeEnv :=
  mkNodeEnv "/app"
    (fun from to => from ++ "/" ++ to)
    (fun from to => to)
    (fun request =>
       if String.eqb request "/app/./pages/about.js"
       then Throw (VError "Cannot find module" "Error: Cannot find module")
       else Normal ("/node_modules/" ++ request))
    (fun message => "Error: " ++ message)
    demo_type_error_text
    WpAffectingOpts WpAffectingOpts
    (fun wp => wp)
    (fun _ => Throw (VStr "bad config"))
    (fun cfg => cfg).

(** A callback that throws, and a module whose exports are [null]. *)
Definition throwing_cb (page : value) : Eff (Runtime nat) value :=
  throw (VError "render failed" "Error: render failed").

Definition es_module (page : value) : value :=
  VObj [ ("__esModule", VBool true); ("default", page) ].

(** * Properties *)

(** ** A concrete environment and concrete inputs *)

Definition demo_env : NodeEnv :=
  mkNodeEnv "/app"
    (fun from to => from ++ "/" ++ to)
    (fun from to => to)
    (fun request => Normal ("/node_modules/" ++ request))
    (fun message => "Error: " ++ message)
    demo_type_error_text
    WpAffectingOpts WpAffectingOpts
    (fun wp => wp)
    (fun _ => Normal (fun data => data))
    (fun cfg => cfg).

Definition empty_fs : FS := mkFS ∅ ∅.

Definition plain_route (page : PageRef) : Route :=
  mkRoute (VStr "/") VUndefined page.

Definition opts_of (routes : Routes) (hot : bool) (outputUrl : option string)
  : Opts :=
  mkOpts routes None None None None None outputUrl (Some hot) None None None
    VUndefined VUndefined VUndefined.

(** Two routes, the second with two formats. *)
Definition demo_routes : Routes :=
  mkRoutes None
    [ ("Home", plain_route (PageStr "pages/home.js"));
      ("About", plain_route (PageObj [ ("default", "pages/about.js");
                                       ("mobile", "pages/about-mobile.js") ])) ].

(** A route named [a-b] next to a format [b] of a route named [a]. *)
Definition colliding_routes : Routes :=
  mkRoutes None
    [ ("a-b", plain_route (PageStr "p.js"));
      ("a", plain_route (PageObj [ ("b", "q.js") ])) ].

Definition caching_and_hot_opts : Opts :=
  mkOpts demo_routes None None None None None None (Some true) None None
    (Some true) VUndefined VUndefined VUndefined.

Definition legacy_only_opts : Opts :=
  mkOpts demo_routes None (Some "legacy.config.js") None None None None
    (Some false) None None None VUndefined VUndefined VUndefined.

Definition both_config_opts : Opts :=
  mkOpts demo_routes (Some "webpack.config.js") (Some "legacy.config.js")
    None None None None (Some false) None None None
    VUndefined VUndefined VUndefined.

(** [webpackConfig] given as the empty string, next to the legacy key. *)
Definition empty_config_opts : Opts :=
  mkOpts demo_routes (Some EmptyString) (Some "legacy.config.js")
    None None None None (Some false) None None None
    VUndefined VUndefined VUndefined.

(** An environment in which a configuration says which module made it: the
    base configuration is tagged [base], and the [default] export of the
    module at [path] puts [path] in its place. *)
Definition tagging_env : NodeEnv :=
  mkNodeEnv "/app"
    (fun from to => from ++ "/" ++ to)
    (fun from to => to)
    (fun request => Normal ("/node_modules/" ++ request))
    (fun message => "Error: " ++ message)
    demo_type_error_text
    (string * WpAffectingOpts) (string * WpAffectingOpts)
    (fun wp => ("base", wp))
    (fun path => Normal (fun data => (path, snd data)))
    (fun cfg => cfg).

(** A callback that counts its calls in the state. *)
Definition counting_cb (page : value) : Eff (Runtime nat) value :=
  fun w => (Normal VUndefined, mkRuntime (console_errors w) (S (user_state w))).


Definition home_stats : Stats :=
  mkStats [ mkChunk (IdNum 1) (Some "home") ["home.js"; "home.css"];
            mkChunk (IdNum 2) None ["vendor.js"] ] "abc".

Definition hot_update_stats : Stats :=
  mkStats [ mkChunk (IdNum 0) (Some "x")
              ["x.js"; "x.abc123.hot-update.js"; "x.css"] ] "h".

Definition empty_files_stats : Stats :=
  mkStats [ mkChunk (IdNum 1) (Some "a") [] ] "h".

(** [entrypoints[k] = v] for each entry of a list, in order. *)
Definition assign_all (entries : list (string * list string))
    (E0 : gmap string (list string)) : gmap string (list string) :=
  fold_left (fun E kv => <[fst kv := snd kv]> E) entries E0.

Local Open Scope list_scope.

(** ** The manifest extractor *)

Section ManifestFacts.

Implicit Types (acc : Tables) (c : Chunk) (chunks : list Chunk).

Lemma step_jsById acc c :
  t_jsById (manifest_step acc c) =
  <[property_key (chunk_id c) := file_at (chunk_files c) 0]> (t_jsById acc).
Proof. unfold manifest_step. destruct (truthy_name c); reflexivity. Qed.

Lemma step_jsByName_named acc c n :
  truthy_name c = Some n ->
  t_jsByName (manifest_step acc c) =
  <[n := file_at (chunk_files c) 0]> (t_jsByName acc).
Proof. intros Hn. unfold manifest_step. rewrite Hn. reflexivity. Qed.

Lemma step_jsByName_other acc c n :
  truthy_name c ≠ Some n ->
  t_jsByName (manifest_step acc c) !! n = t_jsByName acc !! n.
Proof.
  intros Hn. unfold manifest_step.
  destruct (truthy_name c) as [m|] eqn:E; simpl; [|reflexivity].
  apply lookup_insert_ne. congruence.
Qed.

Lemma step_css_named acc c n :
  truthy_name c = Some n ->
  t_cssByName (manifest_step acc c) !! n =
  match css_scan (drop 1 (chunk_files c)) with
  | Some f => Some (VStr f)
  | None => t_cssByName acc !! n
  end.
Proof.
  intros Hn. unfold manifest_step. rewrite Hn. simpl.
  destruct (css_scan _); [apply lookup_insert_eq | reflexivity].
Qed.

Lemma step_css_other acc c n :
  truthy_name c ≠ Some n ->
  t_cssByName (manifest_step acc c) !! n = t_cssByName acc !! n.
Proof.
  intros Hn. unfold manifest_step.
  destruct (truthy_name c) as [m|] eqn:E; simpl; [|reflexivity].
  destruct (css_scan _); [|reflexivity].
  apply lookup_insert_ne. congruence.
Qed.

(** Chunks that use other keys leave a key alone. *)
Lemma fold_jsById_other chunks acc k :
  (forall c, c ∈ chunks -> property_key (chunk_id c) ≠ k) ->
  t_jsById (fold_left manifest_step chunks acc) !! k = t_jsById acc !! k.
Proof.
  revert acc. induction chunks as [|c chunks IH]; intros acc H; [reflexivity|].
  simpl. rewrite IH.
  - rewrite step_jsById. apply lookup_insert_ne. apply H. left.
  - intros c' Hc'. apply H. right. exact Hc'.
Qed.

Lemma fold_jsByName_other chunks acc n :
  (forall c, c ∈ chunks -> truthy_name c ≠ Some n) ->
  t_jsByName (fold_left manifest_step chunks acc) !! n = t_jsByName acc !! n.
Proof.
  revert acc. induction chunks as [|c chunks IH]; intros acc H; [reflexivity|].
  simpl. rewrite IH.
  - apply step_jsByName_other. apply H. left.
  - intros c' Hc'. apply H. right. exact Hc'.
Qed.

Lemma fold_css_other chunks acc n :
  (forall c, c ∈ chunks -> truthy_name c ≠ Some n) ->
  t_cssByName (fold_left manifest_step chunks acc) !! n = t_cssByName acc !! n.
Proof.
  revert acc. induction chunks as [|c chunks IH]; intros acc H; [reflexivity|].
  simpl. rewrite IH.
  - apply step_css_other. apply H. left.
  - intros c' Hc'. apply H. right. exact Hc'.
Qed.

(** A list cut at one of its positions. *)
Lemma split_at chunks i c :
  chunks !! i = Some c ->
  chunks = take i chunks ++ c :: drop (S i) chunks.
Proof. intros H. symmetry. apply take_drop_middle. exact H. Qed.

Lemma in_later chunks i c' :
  c' ∈ drop (S i) chunks -> exists j, i < j /\ chunks !! j = Some c'.
Proof.
  intros [k Hk]%list_elem_of_lookup. rewrite lookup_drop in Hk.
  exists (S i + k). split; [lia | exact Hk].
Qed.

Lemma in_earlier chunks i c' :
  c' ∈ take i chunks -> exists j, j < i /\ chunks !! j = Some c'.
Proof.
  intros [k Hk]%list_elem_of_lookup.
  destruct (decide (k < i)) as [Hlt|Hge].
  - rewrite lookup_take_lt in Hk by exact Hlt. eauto.
  - rewrite lookup_take_ge in Hk by lia. discriminate.
Qed.

(** The last chunk that writes a key decides its value. *)
Lemma jsById_last_write chunks i c :
  chunks !! i = Some c ->
  (forall j c', i < j -> chunks !! j = Some c' ->
                property_key (chunk_id c') ≠ property_key (chunk_id c)) ->
  t_jsById (manifest_tables chunks) !! property_key (chunk_id c) =
  Some (file_at (chunk_files c) 0).
Proof.
  intros Hi Hlast. unfold manifest_tables.
  rewrite (split_at _ _ _ Hi), fold_left_app. simpl.
  rewrite fold_jsById_other.
  - rewrite step_jsById. apply lookup_insert_eq.
  - intros c' (j & Hj & Hc')%in_later. eauto.
Qed.

Lemma jsByName_last_write chunks i c n :
  chunks !! i = Some c ->
  truthy_name c = Some n ->
  (forall j c', i < j -> chunks !! j = Some c' -> truthy_name c' ≠ Some n) ->
  t_jsByName (manifest_tables chunks) !! n = Some (file_at (chunk_files c) 0).
Proof.
  intros Hi Hn Hlast. unfold manifest_tables.
  rewrite (split_at _ _ _ Hi), fold_left_app. simpl.
  rewrite fold_jsByName_other.
  - rewrite (step_jsByName_named _ _ _ Hn). apply lookup_insert_eq.
  - intros c' (j & Hj & Hc')%in_later. eauto.
Qed.

(** The CSS entry of a name, when one chunk only carries the name. *)
Lemma css_single_write chunks i c n :
  chunks !! i = Some c ->
  truthy_name c = Some n ->
  (forall j c', j ≠ i -> chunks !! j = Some c' -> truthy_name c' ≠ Some n) ->
  t_cssByName (manifest_tables chunks) !! n =
  VStr <$> css_scan (drop 1 (chunk_files c)).
Proof.
  intros Hi Hn Huniq. unfold manifest_tables.
  rewrite (split_at _ _ _ Hi), fold_left_app. simpl.
  rewrite fold_css_other.
  - rewrite (step_css_named _ _ _ Hn).
    destruct (css_scan _); [reflexivity|]. simpl.
    rewrite fold_css_other; [apply lookup_empty|].
    intros c' (j & Hj & Hc')%in_earlier. apply (Huniq j); [lia | exact Hc'].
  - intros c' (j & Hj & Hc')%in_later. apply (Huniq j); [lia | exact Hc'].
Qed.

(** With later chunks of other names only, a CSS match of this chunk is the
    entry. *)
Lemma css_last_write chunks i c n f :
  chunks !! i = Some c ->
  truthy_name c = Some n ->
  (forall j c', i < j -> chunks !! j = Some c' -> truthy_name c' ≠ Some n) ->
  css_scan (drop 1 (chunk_files c)) = Some f ->
  t_cssByName (manifest_tables chunks) !! n = Some (VStr f).
Proof.
  intros Hi Hn Hlast Hf. unfold manifest_tables.
  rewrite (split_at _ _ _ Hi), fold_left_app. simpl.
  rewrite fold_css_other.
  - rewrite (step_css_named _ _ _ Hn), Hf. reflexivity.
  - intros c' (j & Hj & Hc')%in_later. eauto.
Qed.

End ManifestFacts.

(** *** The CSS pattern and the scan *)

Lemma ends_with_spec suf s :
  ends_with suf s = true <-> exists p, s = (p ++ suf)%string.
Proof.
  induction s as [|a s IH]; cbn [ends_with].
  - rewrite orb_false_r, String.eqb_eq. split.
    + intros <-. exists EmptyString. reflexivity.
    + intros [p Hp]. destruct p; [exact Hp | discriminate].
  - rewrite orb_true_iff, String.eqb_eq, IH. split.
    + intros [<- | [p ->]].
      * exists EmptyString. reflexivity.
      * exists (String a p). reflexivity.
    + intros [p Hp]. destruct p as [|b p]; simpl in Hp.
      * left. exact Hp.
      * right. exists p. injection Hp as _ Hs. exact Hs.
Qed.

(** X23.  [is_css] is the test "the name ends in .css". *)
Lemma is_css_spec f :
  is_css f = true <-> exists p, f = (p ++ ".css")%string.
Proof. apply ends_with_spec. Qed.

Lemma css_scan_first (l : list string) k f :
  l !! k = Some f ->
  is_css f = true ->
  (forall j g, j < k -> l !! j = Some g -> is_css g = false) ->
  css_scan l = Some f.
Proof.
  revert k. induction l as [|x l IH]; intros k Hk Hf Hbefore; [discriminate|].
  destruct k as [|k]; simpl in *.
  - injection Hk as ->. rewrite Hf. reflexivity.
  - rewrite (Hbefore 0 x) by (lia || reflexivity).
    apply (IH k); [exact Hk | exact Hf |].
    intros j g Hj Hg. apply (Hbefore (S j)); [lia | exact Hg].
Qed.

Lemma css_scan_none (l : list string) :
  (forall k f, l !! k = Some f -> is_css f = false) ->
  css_scan l = None.
Proof.
  induction l as [|x l IH]; intros H; [reflexivity|]. simpl.
  rewrite (H 0 x) by reflexivity. apply IH.
  intros k f Hk. apply (H (S k)). exact Hk.
Qed.

Lemma css_scan_some_is_css (l : list string) f :
  css_scan l = Some f -> f ∈ l /\ is_css f = true.
Proof.
  induction l as [|x l IH]; simpl; [discriminate|].
  destruct (is_css x) eqn:E.
  - intros [= <-]. split; [left | exact E].
  - intros [H1 H2]%IH. split; [right; exact H1 | exact H2].
Qed.

(** ** Claims on the manifest *)

(** C1.  [statsToManifest] records [files[0]] under the name of every named
    chunk and under the id of every chunk (when several chunks write one
    key, the last of them decides, as with any assignment), and the result
    carries the hash of the compilation.  On the chunks
    [{id:1, name:"home", files:["home.js","home.css"]}] and
    [{id:2, files:["vendor.js"]}] with hash ["abc"] the result is the
    manifest of the specification. *)
Theorem statsToManifest_records (stats : Stats) :
  let m := statsToManifest stats in
  (forall i c n,
     stats_chunks stats !! i = Some c ->
     truthy_name c = Some n ->
     (forall j c', i < j -> stats_chunks stats !! j = Some c' ->
                   truthy_name c' ≠ Some n) ->
     jsChunksByName m !! n = Some (file_at (chunk_files c) 0)) /\
  (forall i c,
     stats_chunks stats !! i = Some c ->
     (forall j c', i < j -> stats_chunks stats !! j = Some c' ->
                   property_key (chunk_id c') ≠ property_key (chunk_id c)) ->
     jsChunksById m !! property_key (chunk_id c) =
     Some (file_at (chunk_files c) 0)) /\
  manifest_hash m = stats_hash stats /\
  statsToManifest home_stats =
    mkManifest {[ "home" := VStr "home.js" ]}
               (<[ "1" := VStr "home.js" ]> {[ "2" := VStr "vendor.js" ]})
               {[ "home" := VStr "home.css" ]}
               "abc".
Proof.
  cbv zeta. split; [|split; [|split]].
  - intros i c n Hi Hn Hlast. apply (jsByName_last_write _ i); assumption.
  - intros i c Hi Hlast. apply (jsById_last_write _ i); assumption.
  - reflexivity.
  - vm_compute. reflexivity.
Qed.

Lemma statsToManifest_records_witness :
  jsChunksByName (statsToManifest home_stats) !! "home" = Some (VStr "home.js") /\
  jsChunksById (statsToManifest home_stats) !! "2" = Some (VStr "vendor.js").
Proof.
  destruct (statsToManifest_records home_stats) as (Hname & Hid & _).
  split.
  - apply (Hname 0 (mkChunk (IdNum 1) (Some "home") ["home.js"; "home.css"]));
      [reflexivity | reflexivity |].
    intros [|[|j]] c' Hj Hc'; [lia | | discriminate].
    injection Hc' as <-. discriminate.
  - apply (Hid 1 (mkChunk (IdNum 2) None ["vendor.js"])); [reflexivity|].
    intros [|[|j]] c' Hj Hc'; [lia | lia | discriminate].
Defined.

(** C2.  For a named chunk, [cssChunksByName[name]] is the first file at an
    index >= 1 whose name ends in [.css]: files before it that do not match
    are passed over and nothing after it is looked at; index 0 is never
    looked at.  When no file at an index >= 1 matches (and no other chunk
    carries the name) there is no entry for the name.  The chunk
    [{name:"x", files:["x.js","x.abc123.hot-update.js","x.css"]}] gives
    [cssChunksByName.x = "x.css"]. *)
Theorem cssChunksByName_first_match (stats : Stats) i c n :
  stats_chunks stats !! i = Some c ->
  truthy_name c = Some n ->
  let css := cssChunksByName (statsToManifest stats) in
  (forall k f,
     1 <= k ->
     chunk_files c !! k = Some f ->
     is_css f = true ->
     (forall j g, 1 <= j < k -> chunk_files c !! j = Some g -> is_css g = false) ->
     (forall j c', i < j -> stats_chunks stats !! j = Some c' ->
                   truthy_name c' ≠ Some n) ->
     css !! n = Some (VStr f)) /\
  ((forall k f, 1 <= k -> chunk_files c !! k = Some f -> is_css f = false) ->
   (forall j c', j ≠ i -> stats_chunks stats !! j = Some c' ->
                 truthy_name c' ≠ Some n) ->
   css !! n = None) /\
  cssChunksByName (statsToManifest hot_update_stats) !! "x" = Some (VStr "x.css").
Proof.
  intros Hi Hn. cbv zeta. unfold statsToManifest at 1 2. cbn [cssChunksByName].
  split; [|split].
  - intros k f Hk Hf Hcss Hbefore Hlast.
    apply (css_last_write _ i c); try assumption.
    destruct k as [|k]; [lia|].
    apply (css_scan_first _ k).
    + rewrite lookup_drop. exact Hf.
    + exact Hcss.
    + intros j g Hj Hg. rewrite lookup_drop in Hg.
      apply (Hbefore (1 + j)); [lia | exact Hg].
  - intros Hnone Huniq.
    rewrite (css_single_write _ i c n Hi Hn Huniq).
    rewrite css_scan_none; [reflexivity|].
    intros k f Hk. rewrite lookup_drop in Hk.
    apply (Hnone (1 + k)); [lia | exact Hk].
  - vm_compute. reflexivity.
Qed.

Lemma cssChunksByName_first_match_witness :
  cssChunksByName (statsToManifest home_stats) !! "home" = Some (VStr "home.css").
Proof.
  destruct (cssChunksByName_first_match home_stats 0
              (mkChunk (IdNum 1) (Some "home") ["home.js"; "home.css"]) "home")
    as (Hfirst & _); [reflexivity | reflexivity |].
  apply (Hfirst 1 "home.css"); [lia | reflexivity | reflexivity | |].
  - intros j g Hj. lia.
  - intros [|[|j]] c' Hj Hc'; [lia | | discriminate].
    injection Hc' as <-. discriminate.
Defined.

(** C5, as the code has it.  A chunk with an empty [files] array is not
    skipped: [files[0]] is [undefined] and that is what is recorded under
    the chunk's id and, for a named chunk, under its name; the chunk adds
    nothing to [cssChunksByName]. *)
Theorem empty_files_chunk_recorded (stats : Stats) i c :
  stats_chunks stats !! i = Some c ->
  chunk_files c = [] ->
  let m := statsToManifest stats in
  ((forall j c', i < j -> stats_chunks stats !! j = Some c' ->
                 property_key (chunk_id c') ≠ property_key (chunk_id c)) ->
   jsChunksById m !! property_key (chunk_id c) = Some VUndefined) /\
  (forall n,
     truthy_name c = Some n ->
     (forall j c', i < j -> stats_chunks stats !! j = Some c' ->
                   truthy_name c' ≠ Some n) ->
     jsChunksByName m !! n = Some VUndefined) /\
  (forall n,
     truthy_name c = Some n ->
     (forall j c', j ≠ i -> stats_chunks stats !! j = Some c' ->
                   truthy_name c' ≠ Some n) ->
     cssChunksByName m !! n = None).
Proof.
  intros Hi Hfiles. cbv zeta. unfold statsToManifest.
  cbn [cssChunksByName jsChunksByName jsChunksById].
  split; [|split].
  - intros Hlast. rewrite (jsById_last_write _ i c Hi Hlast), Hfiles. reflexivity.
  - intros n Hn Hlast.
    rewrite (jsByName_last_write _ i c n Hi Hn Hlast), Hfiles. reflexivity.
  - intros n Hn Huniq.
    rewrite (css_single_write _ i c n Hi Hn Huniq), Hfiles. reflexivity.
Qed.

Lemma empty_files_chunk_recorded_witness :
  jsChunksById (statsToManifest empty_files_stats) !! "1" = Some VUndefined.
Proof.
  destruct (empty_files_chunk_recorded empty_files_stats 0
              (mkChunk (IdNum 1) (Some "a") [])) as (Hid & _);
    [reflexivity | reflexivity |].
  apply Hid. intros [|j] c' Hj Hc'; [lia | discriminate].
Defined.

(** C5 as claimed fails: the chunk [{id:1, name:"a", files:[]}] leaves an
    entry under its id and one under its name. *)
Lemma empty_files_chunk_not_skipped :
  jsChunksById (statsToManifest empty_files_stats) !! "1" = Some VUndefined /\
  jsChunksByName (statsToManifest empty_files_stats) !! "a" = Some VUndefined /\
  ~ (jsChunksById (statsToManifest empty_files_stats) !! "1" = None /\
     jsChunksByName (statsToManifest empty_files_stats) !! "a" = None).
Proof.
  split; [|split].
  - vm_compute. reflexivity.
  - vm_compute. reflexivity.
  - intros [H _]. vm_compute in H. discriminate.
Qed.

(** ** Reasoning about computations *)

Section EffFacts.

Context {S A B : Type}.

Lemma bind_normal_inv (m : Eff S A) (k : A -> Eff S B) s b s' :
  bind m k s = (Normal b, s') ->
  exists a s1, m s = (Normal a, s1) /\ k a s1 = (Normal b, s').
Proof.
  unfold bind. destruct (m s) as [[a|e] s1]; intros H.
  - exists a, s1. split; [reflexivity | exact H].
  - discriminate.
Qed.

Lemma bind_normal (m : Eff S A) (k : A -> Eff S B) s a s1 :
  m s = (Normal a, s1) -> bind m k s = k a s1.
Proof. unfold bind. intros ->. reflexivity. Qed.

Lemma bind_throw (m : Eff S A) (k : A -> Eff S B) s e s1 :
  m s = (Throw e, s1) -> bind m k s = (Throw e, s1).
Proof. unfold bind. intros ->. reflexivity. Qed.

Lemma lift_normal_inv (c : completion A) (s s' : S) a :
  lift c s = (Normal a, s') -> c = Normal a /\ s' = s.
Proof. unfold lift. intros [= -> ->]. split; reflexivity. Qed.

End EffFacts.

(** Splits a hypothesis saying that a sequence of two steps returned
    normally into one hypothesis per step. *)
Ltac split_bind H a s Ha :=
  apply bind_normal_inv in H as (a & s & Ha & H).

(** ** The entrypoint derivation *)

Section EntrypointFacts.

Context (env : NodeEnv).
Context (dir : string) (base : list string) (boot : string).

Implicit Types (E : gmap string (list string)).

Lemma format_entry_inv {S : Type} R E E' fm (s s' : S) :
  format_entry env dir base boot R E fm s = (Normal E', s') ->
  s' = s /\
  exists kv, entry_of env dir base boot (R, fst fm, snd fm) = Some kv /\
             E' = <[fst kv := snd kv]> E.
Proof.
  unfold format_entry. intros (p & s1 & Hp & Hret)%bind_normal_inv.
  apply lift_normal_inv in Hp as [Hp ->].
  injection Hret as <- <-. split; [reflexivity|].
  unfold entry_of. simpl. rewrite Hp. eexists. split; reflexivity.
Qed.

Lemma route_entries_inv {S : Type} fms R E E' (s s' : S) :
  for_each (format_entry env dir base boot R) fms E s = (Normal E', s') ->
  s' = s /\
  exists entries,
    Forall2 (fun t kv => entry_of env dir base boot t = Some kv)
      (List.map (fun fm : string * string => (R, fst fm, snd fm)) fms) entries /\
    E' = assign_all entries E.
Proof.
  revert E s. induction fms as [|fm fms IH]; intros E s; simpl.
  - intros [= <- <-]. split; [reflexivity|]. exists []. split; [constructor | reflexivity].
  - intros (E1 & s1 & Hstep & Hrest)%bind_normal_inv.
    apply format_entry_inv in Hstep as (-> & kv & Hkv & ->).
    apply IH in Hrest as (-> & entries & Hall & ->).
    split; [reflexivity|]. exists (kv :: entries).
    split; [constructor; assumption | reflexivity].
Qed.

Lemma derive_entrypoints_inv {S : Type} rs E E' (s s' : S) :
  for_each (route_entries env dir base boot) rs E s = (Normal E', s') ->
  s' = s /\
  exists entries,
    Forall2 (fun t kv => entry_of env dir base boot t = Some kv)
      (route_format_pairs (mkRoutes None rs)) entries /\
    E' = assign_all entries E.
Proof.
  revert E s. induction rs as [|nr rs IH]; intros E s; simpl.
  - intros [= <- <-]. split; [reflexivity|]. exists []. split; [constructor | reflexivity].
  - intros (E1 & s1 & Hstep & Hrest)%bind_normal_inv.
    apply route_entries_inv in Hstep as (-> & es1 & Hall1 & ->).
    apply IH in Hrest as (-> & es2 & Hall2 & ->).
    split; [reflexivity|]. exists (es1 ++ es2). split.
    + unfold route_format_pairs. simpl. apply Forall2_app; assumption.
    + unfold assign_all. rewrite fold_left_app. reflexivity.
Qed.

Lemma entry_of_name t kv :
  entry_of env dir base boot t = Some kv -> fst kv = pair_entry_name t.
Proof.
  unfold entry_of. destruct (require_resolve env _); [|discriminate].
  intros [= <-]. reflexivity.
Qed.

Lemma entries_names pairs entries :
  Forall2 (fun t kv => entry_of env dir base boot t = Some kv) pairs entries ->
  entries.*1 = List.map pair_entry_name pairs.
Proof.
  induction 1 as [|t kv pairs entries Hkv _ IH]; [reflexivity|].
  simpl. rewrite (entry_of_name _ _ Hkv), <- IH. reflexivity.
Qed.

(** Assignments to distinct keys build the map of the list. *)
Lemma assign_all_distinct entries :
  NoDup entries.*1 -> assign_all entries ∅ = list_to_map entries.
Proof.
  induction entries as [|[k v] entries IH] using rev_ind; intros Hnd.
  - reflexivity.
  - unfold assign_all in *. rewrite fold_left_app. simpl.
    rewrite fmap_app in Hnd. apply NoDup_app in Hnd as (Hnd & Hfresh & _).
    rewrite IH by exact Hnd. symmetry. apply list_to_map_snoc.
    intros Hin. apply (Hfresh k Hin). simpl. left.
Qed.

(** Whatever the keys, every entry of the result comes from the list. *)
Lemma assign_all_sound entries E0 k v :
  assign_all entries E0 !! k = Some v ->
  (k, v) ∈ entries \/ E0 !! k = Some v.
Proof.
  revert E0. induction entries as [|[k' v'] entries IH]; intros E0; simpl.
  - intros H. right. exact H.
  - intros [Hin | Hprev]%IH.
    + left. right. exact Hin.
    + simpl in Hprev. destruct (decide (k' = k)) as [->|Hne].
      * rewrite lookup_insert_eq in Hprev. injection Hprev as ->. left. left.
      * rewrite lookup_insert_ne in Hprev by exact Hne. right. exact Hprev.
Qed.

(** Every assigned key is a key of the result. *)
Lemma assign_all_complete entries E0 k v :
  (k, v) ∈ entries -> is_Some (assign_all entries E0 !! k).
Proof.
  revert E0. induction entries as [|[k' v'] entries IH] using rev_ind;
    intros E0 Hin.
  - inversion Hin.
  - unfold assign_all in *. rewrite fold_left_app. simpl.
    destruct (decide (k' = k)) as [->|Hne].
    + rewrite lookup_insert_eq. eauto.
    + rewrite lookup_insert_ne by exact Hne. apply IH.
      apply elem_of_app in Hin as [Hin | Hin]; [exact Hin|].
      apply list_elem_of_singleton in Hin. congruence.
Qed.

End EntrypointFacts.

(** ** The default export *)

Section CompileFacts.

Context (env : NodeEnv).

Lemma entrypointBase_inv {S : Type} hot url base (s s' : S) :
  entrypointBase env hot url s = (Normal base, s') ->
  s' = s /\
  if hot then
    exists client onlyDev,
      require_resolve env "webpack-dev-server/client" = Normal client /\
      require_resolve env "webpack/hot/only-dev-server" = Normal onlyDev /\
      base = [(client ++ "?" ++ webpackDevServerClientUrl url)%string; onlyDev]
  else base = [].
Proof.
  unfold entrypointBase. destruct hot.
  - intros (client & s1 & Hc & Hrest)%bind_normal_inv.
    apply lift_normal_inv in Hc as [Hc ->].
    apply bind_normal_inv in Hrest as (onlyDev & s2 & Hd & Hret).
    apply lift_normal_inv in Hd as [Hd ->].
    injection Hret as <- <-. split; [reflexivity|].
    exists client, onlyDev. repeat split; assumption.
  - intros [= <- <-]. split; reflexivity.
Qed.

(** What a normal return of the set-up phase tells. *)
Lemma prepareClientBuild_inv opts fs u wp fs' :
  prepareClientBuild env opts fs = (Normal (u, wp), fs') ->
  let hot := default true (opt_hot opts) in
  let outputUrl := default "/static/" (opt_outputUrl opts) in
  let workingDir := default "./__clientTemp" (opt_workingDir opts) in
  let workingDirAbsolute := path_resolve env (cwd env) workingDir in
  let routesDirAbsolute :=
    path_resolve env (cwd env) (default "." (opt_routesDir opts)) in
  default false (opt_longTermCaching opts) && hot = false /\
  u = js_or (opt_webpackConfig opts) (opt_webpack_config opts) /\
  wp_hot wp = hot /\
  wp_outputUrl wp = outputUrl /\
  exists base entries,
    (forall s : FS, entrypointBase env hot outputUrl s = (Normal base, s)) /\
    Forall2 (fun t kv =>
               entry_of env routesDirAbsolute base
                 (workingDirAbsolute ++ "/entry.js")%string t = Some kv)
      (route_format_pairs (opt_routes opts)) entries /\
    wp_entrypoints wp = assign_all entries ∅.
Proof.
  unfold prepareClientBuild. cbv zeta.
  destruct (default false (opt_longTermCaching opts) && default true (opt_hot opts))
    eqn:Hguard; [discriminate|].
  intros H.
  split_bind H u1 s1 Hmk1. split_bind H u2 s2 Hmk2.
  split_bind H boot s3 Hboot. split_bind H base s4 Hbase.
  split_bind H E s5 HE. split_bind H file s6 Hfile.
  injection H as <- <- <-.
  unfold writeClientBootstrapFile in Hboot.
  split_bind Hboot u3 s3' Hwrite.
  injection Hboot as <- <-.
  pose proof (entrypointBase_inv _ _ _ _ _ Hbase) as [-> Hshape].
  unfold derive_entrypoints in HE.
  apply derive_entrypoints_inv in HE as (-> & entries & Hall & ->).
  repeat split; try reflexivity.
  exists base, entries. split; [|split].
  - intros s. unfold entrypointBase in *.
    destruct (default true (opt_hot opts)); [|rewrite Hshape; reflexivity].
    destruct Hshape as (client & onlyDev & Hc & Hd & ->).
    unfold bind, lift. rewrite Hc, Hd. reflexivity.
  - destruct (opt_routes opts) as [mw rs]. exact Hall.
  - reflexivity.
Qed.

Lemma entries_origin (P : string * string * string -> string * list string -> Prop)
    pairs entries kv :
  Forall2 P pairs entries -> kv ∈ entries -> exists t, t ∈ pairs /\ P t kv.
Proof.
  intros Hall [i Hi]%list_elem_of_lookup.
  destruct (Forall2_lookup_r _ _ _ _ _ Hall Hi) as (t & Ht & HP).
  exists t. split; [|exact HP]. apply list_elem_of_lookup. eauto.
Qed.

Lemma entries_image (P : string * string * string -> string * list string -> Prop)
    pairs entries t :
  Forall2 P pairs entries -> t ∈ pairs -> exists kv, kv ∈ entries /\ P t kv.
Proof.
  intros Hall [i Hi]%list_elem_of_lookup.
  destruct (Forall2_lookup_l _ _ _ _ _ Hall Hi) as (kv & Hkv & HP).
  exists kv. split; [|exact HP]. apply list_elem_of_lookup. eauto.
Qed.

End CompileFacts.

(** ** Claims on the default export *)

Lemma append_empty_r (s : string) : (s ++ EmptyString)%string = s.
Proof.
  induction s as [|a s IH]; [reflexivity|].
  change (String a (s ++ EmptyString)%string = String a s).
  rewrite IH. reflexivity.
Qed.

(** C3, as the code has it.  When no two (route, format) pairs compose the
    same entry name, the entrypoints object has exactly one entry per pair:
    as many entries as pairs, the keys are the composed names, and the entry
    of a pair is the transport-client modules (in hot mode only), then the
    bootstrap file, then the resolved page module.  The name is the route
    name for the format [default] and [routeName-format] otherwise. *)
Theorem entrypoints_one_per_pair (env : NodeEnv) opts fs u wp fs' :
  prepareClientBuild env opts fs = (Normal (u, wp), fs') ->
  let pairs := route_format_pairs (opt_routes opts) in
  NoDup (List.map pair_entry_name pairs) ->
  let hot := default true (opt_hot opts) in
  let outputUrl := default "/static/" (opt_outputUrl opts) in
  let workingDirAbsolute :=
    path_resolve env (cwd env) (default "./__clientTemp" (opt_workingDir opts)) in
  let routesDirAbsolute :=
    path_resolve env (cwd env) (default "." (opt_routesDir opts)) in
  let bootstrapFile := (workingDirAbsolute ++ "/entry.js")%string in
  exists base,
    (if hot then
       exists client onlyDev,
         require_resolve env "webpack-dev-server/client" = Normal client /\
         require_resolve env "webpack/hot/only-dev-server" = Normal onlyDev /\
         base = [(client ++ "?" ++ webpackDevServerClientUrl outputUrl)%string;
                 onlyDev]
     else base = []) /\
    size (wp_entrypoints wp) = length pairs /\
    (forall name,
       is_Some (wp_entrypoints wp !! name) <->
       exists t, t ∈ pairs /\ name = pair_entry_name t) /\
    (forall R f m,
       (R, f, m) ∈ pairs ->
       exists page,
         require_resolve env (path_resolve env routesDirAbsolute m) = Normal page /\
         wp_entrypoints wp !! entry_name R f =
         Some (base ++ [bootstrapFile; page])) /\
    (forall R, entry_name R "default" = R) /\
    (forall R f, f ≠ "default" -> entry_name R f = (R ++ "-" ++ f)%string).
Proof.
  intros Hrun pairs Hnd.
  destruct (prepareClientBuild_inv env _ _ _ _ _ Hrun)
    as (_ & _ & _ & _ & base & entries & Hbase & Hall & HE).
  cbv zeta. exists base.
  assert (Hkeys : entries.*1 = List.map pair_entry_name pairs)
    by (eapply entries_names; exact Hall).
  assert (Hnd' : NoDup entries.*1) by (rewrite Hkeys; exact Hnd).
  rewrite HE, (assign_all_distinct _ Hnd').
  split; [|split; [|split; [|split; [|split]]]].
  - apply (entrypointBase_inv env _ _ _ fs fs (Hbase fs)).
  - rewrite (map_size_list_to_map _ Hnd').
    apply Forall2_length in Hall. symmetry. exact Hall.
  - intros name. split.
    + intros [v Hv]. apply elem_of_list_to_map_2 in Hv.
      destruct (entries_origin _ _ _ _ Hall Hv) as (t & Ht & Hkv).
      exists t. split; [exact Ht|]. apply entry_of_name in Hkv. exact Hkv.
    + intros (t & Ht & ->).
      destruct (entries_image _ _ _ _ Hall Ht) as ([k v] & Hin & Hkv).
      exists v. apply elem_of_list_to_map_1; [exact Hnd'|].
      apply entry_of_name in Hkv as Hk. simpl in Hk. rewrite <- Hk. exact Hin.
  - intros R f m Ht.
    destruct (entries_image _ _ _ _ Hall Ht) as ([k v] & Hin & Hkv).
    unfold entry_of in Hkv. simpl in Hkv.
    destruct (require_resolve env _) as [page|] eqn:Hpage; [|discriminate].
    injection Hkv as <- <-. exists page. split; [reflexivity|].
    apply elem_of_list_to_map_1; [exact Hnd' | exact Hin].
  - intros R. unfold entry_name. simpl. apply append_empty_r.
  - intros R f Hf. unfold entry_name.
    destruct (String.eqb_spec f "default") as [->|_]; [contradiction | reflexivity].
Qed.

Lemma entrypoints_one_per_pair_witness :
  exists u wp fs',
    prepareClientBuild demo_env (opts_of demo_routes false None) empty_fs =
      (Normal (u, wp), fs') /\
    size (wp_entrypoints wp) = 3 /\
    wp_entrypoints wp !! "About-mobile" =
      Some ["/app/./__clientTemp/entry.js";
            "/node_modules//app/./pages/about-mobile.js"].
Proof.
  destruct (prepareClientBuild demo_env (opts_of demo_routes false None) empty_fs)
    as [[[u wp]|e] fs'] eqn:Hrun.
  - exists u, wp, fs'. split; [reflexivity|].
    destruct (entrypoints_one_per_pair demo_env _ _ _ _ _ Hrun)
      as (base & Hbase & Hsize & _ & Hentry & _).
    + apply (bool_decide_unpack _). vm_compute. reflexivity.
    + split; [exact Hsize|].
      destruct (Hentry "About" "mobile" "pages/about-mobile.js")
        as (page & Hpage & Hlookup).
      * apply (bool_decide_unpack _). vm_compute. reflexivity.
      * simpl in Hbase. subst base. injection Hpage as <-. exact Hlookup.
  - vm_compute in Hrun. discriminate.
Defined.

(** C3 as claimed fails on a route named [a-b] beside the format [b] of a
    route named [a]: both pairs compose the name [a-b], the second
    assignment replaces the first, and two pairs leave one entry. *)
Lemma entrypoints_collide :
  exists u wp fs',
    prepareClientBuild demo_env (opts_of colliding_routes false None) empty_fs =
      (Normal (u, wp), fs') /\
    length (route_format_pairs colliding_routes) = 2 /\
    size (wp_entrypoints wp) = 1 /\
    wp_entrypoints wp !! "a-b" =
      Some ["/app/./__clientTemp/entry.js"; "/node_modules//app/./q.js"].
Proof.
  destruct (prepareClientBuild demo_env (opts_of colliding_routes false None) empty_fs)
    as [[[u wp]|e] fs'] eqn:Hrun.
  - exists u, wp, fs'. split; [reflexivity|].
    vm_compute in Hrun. injection Hrun as <- <- <-.
    split; [reflexivity|]. split; vm_compute; reflexivity.
  - vm_compute in Hrun. discriminate.
Qed.

(** C6.  With [longTermCaching] true and [hot] true (given, or left to its
    default), the default export throws the configuration error and the
    file system is as it was: no directory was made and no file written. *)
Theorem hot_with_long_term_caching_throws (env : NodeEnv) opts fs :
  default true (opt_hot opts) = true ->
  opt_longTermCaching opts = Some true ->
  compileClient env opts fs =
    (Throw (new_Error env hot_and_caching_message), fs) /\
  prepareClientBuild env opts fs =
    (Throw (new_Error env hot_and_caching_message), fs).
Proof.
  intros Hhot Hcache.
  assert (Hprep : prepareClientBuild env opts fs =
                  (Throw (new_Error env hot_and_caching_message), fs)).
  { unfold prepareClientBuild. cbv zeta. rewrite Hhot, Hcache. reflexivity. }
  split; [|exact Hprep].
  unfold compileClient. apply bind_throw. exact Hprep.
Qed.

Lemma hot_with_long_term_caching_throws_witness :
  compileClient demo_env caching_and_hot_opts empty_fs =
    (Throw (VError hot_and_caching_message
              ("Error: " ++ hot_and_caching_message)%string), empty_fs).
Proof.
  exact (proj1 (hot_with_long_term_caching_throws demo_env caching_and_hot_opts
                  empty_fs eq_refl eq_refl)).
Defined.

(** C9.  Once the set-up has returned, what the default export does with
    the two option keys: with [webpackConfig] absent it loads the module
    the legacy key ['webpack-config'] names (resolved against the working
    directory of the process) and hands the base configuration to its
    [default] export, or takes the base configuration as it is when the
    legacy key is absent or empty, too; an empty [webpackConfig] falls back
    to the legacy key in the same way; a non-empty [webpackConfig] is the
    module loaded, whatever the legacy key holds.  An exception of the
    module loaded leaves the default export. *)
Theorem legacy_webpack_config_fallback (env : NodeEnv) opts fs u wp fs' :
  let plain : completion (compiler env) * FS :=
    (Normal (webpack env (base_config env wp)), fs') in
  let load (p : string) : completion (compiler env) * FS :=
    match require_default env (path_resolve env (cwd env) p) with
    | Normal extend => (Normal (webpack env (extend (base_config env wp))), fs')
    | Throw e => (Throw e, fs')
    end in
  let legacy : completion (compiler env) * FS :=
    match opt_webpack_config opts with
    | Some l => if String.eqb l EmptyString then plain else load l
    | None => plain
    end in
  prepareClientBuild env opts fs = (Normal (u, wp), fs') ->
  (opt_webpackConfig opts = None ->
   u = opt_webpack_config opts /\ compileClient env opts fs = legacy) /\
  (opt_webpackConfig opts = Some EmptyString ->
   u = opt_webpack_config opts /\ compileClient env opts fs = legacy) /\
  (forall w, opt_webpackConfig opts = Some w -> w ≠ EmptyString ->
   u = Some w /\ compileClient env opts fs = load w).
Proof.
  cbv zeta. intros Hrun.
  destruct (prepareClientBuild_inv env _ _ _ _ _ Hrun) as (_ & Hu & _).
  unfold compileClient. rewrite (bind_normal _ _ _ _ _ Hrun). cbn [fst snd].
  assert (Hlegacy :
    bind (getWebpackConfig env (opt_webpack_config opts) wp)
      (fun clientConfig => ret (webpack env clientConfig)) fs' =
    match opt_webpack_config opts with
    | Some l =>
        if String.eqb l EmptyString
        then (Normal (webpack env (base_config env wp)), fs')
        else
          match require_default env (path_resolve env (cwd env) l) with
          | Normal extend =>
              (Normal (webpack env (extend (base_config env wp))), fs')
          | Throw e => (Throw e, fs')
          end
    | None => (Normal (webpack env (base_config env wp)), fs')
    end).
  { unfold getWebpackConfig. destruct (opt_webpack_config opts) as [l|];
      [|reflexivity].
    cbn [truthy]. destruct (String.eqb l EmptyString); [reflexivity|].
    cbn [negb]. unfold bind, lift.
    destruct (require_default env _); reflexivity. }
  split; [|split].
  - intros Hw. rewrite Hw in Hu. unfold js_or in Hu. cbn [truthy_str] in Hu.
    subst u. split; [reflexivity | exact Hlegacy].
  - intros Hw. rewrite Hw in Hu. unfold js_or in Hu.
    cbn [truthy_str truthy String.eqb negb] in Hu.
    subst u. split; [reflexivity | exact Hlegacy].
  - intros w Hw Hne. rewrite Hw in Hu. unfold js_or in Hu.
    cbn [truthy_str truthy] in Hu.
    destruct (String.eqb_spec w EmptyString) as [Heq|_]; [contradiction|].
    cbn [negb] in Hu. subst u. split; [reflexivity|].
    unfold getWebpackConfig. cbn [truthy].
    destruct (String.eqb_spec w EmptyString) as [Heq|_]; [contradiction|].
    cbn [negb]. unfold bind, lift.
    destruct (require_default env _); reflexivity.
Qed.

Lemma legacy_webpack_config_fallback_witness :
  (exists wp fs',
     compileClient tagging_env legacy_only_opts empty_fs =
       (Normal ("/app/legacy.config.js", wp), fs')) /\
  (exists wp fs',
     compileClient tagging_env both_config_opts empty_fs =
       (Normal ("/app/webpack.config.js", wp), fs')) /\
  (exists wp fs',
     compileClient tagging_env empty_config_opts empty_fs =
       (Normal ("/app/legacy.config.js", wp), fs')).
Proof.
  split; [|split].
  - destruct (prepareClientBuild tagging_env legacy_only_opts empty_fs)
      as [[[u wp]|e] fs'] eqn:Hrun.
    + exists wp, fs'.
      destruct (legacy_webpack_config_fallback tagging_env _ _ _ _ _ Hrun)
        as (Habsent & _).
      exact (proj2 (Habsent eq_refl)).
    + vm_compute in Hrun. discriminate.
  - destruct (prepareClientBuild tagging_env both_config_opts empty_fs)
      as [[[u wp]|e] fs'] eqn:Hrun.
    + exists wp, fs'.
      destruct (legacy_webpack_config_fallback tagging_env _ _ _ _ _ Hrun)
        as (_ & _ & Hboth).
      refine (proj2 (Hboth "webpack.config.js" eq_refl _)). discriminate.
    + vm_compute in Hrun. discriminate.
  - destruct (prepareClientBuild tagging_env empty_config_opts empty_fs)
      as [[[u wp]|e] fs'] eqn:Hrun.
    + exists wp, fs'.
      destruct (legacy_webpack_config_fallback tagging_env _ _ _ _ _ Hrun)
        as (_ & Hempty & _).
      exact (proj2 (Hempty eq_refl)).
    + vm_compute in Hrun. discriminate.
Defined.

(** C10.  In hot mode the first module of every entrypoint is the
    webpack-dev-server client with a query string: [http:] followed by
    [outputUrl] when [outputUrl] starts with [//], [outputUrl] itself
    otherwise. *)
Theorem dev_server_client_url (env : NodeEnv) opts fs u wp fs' :
  prepareClientBuild env opts fs = (Normal (u, wp), fs') ->
  default true (opt_hot opts) = true ->
  let outputUrl := default "/static/" (opt_outputUrl opts) in
  exists client,
    require_resolve env "webpack-dev-server/client" = Normal client /\
    (forall name mods,
       wp_entrypoints wp !! name = Some mods ->
       head mods =
       Some (client ++ "?" ++
             (if starts_with "//" outputUrl then "http:" ++ outputUrl
              else outputUrl))%string) /\
    (forall t, t ∈ route_format_pairs (opt_routes opts) ->
               is_Some (wp_entrypoints wp !! pair_entry_name t)).
Proof.
  intros Hrun Hhot. cbv zeta.
  destruct (prepareClientBuild_inv env _ _ _ _ _ Hrun)
    as (_ & _ & _ & _ & base & entries & Hbase & Hall & HE).
  pose proof (entrypointBase_inv env _ _ _ fs fs (Hbase fs)) as [_ Hshape].
  rewrite Hhot in Hshape. destruct Hshape as (client & onlyDev & Hc & _ & ->).
  exists client. split; [exact Hc|]. split.
  - intros name mods Hlookup. rewrite HE in Hlookup.
    apply assign_all_sound in Hlookup as [Hin | Hempty]; [|discriminate].
    destruct (entries_origin _ _ _ _ Hall Hin) as (t & _ & Hkv).
    unfold entry_of in Hkv.
    destruct (require_resolve env (path_resolve env _ _)); [|discriminate].
    injection Hkv as _ <-. reflexivity.
  - intros t Ht. rewrite HE.
    destruct (entries_image _ _ _ _ Hall Ht) as ([k v] & Hin & Hkv).
    apply entry_of_name in Hkv. simpl in Hkv. subst k.
    eapply assign_all_complete. exact Hin.
Qed.

Lemma dev_server_client_url_witness :
  exists u wp fs',
    prepareClientBuild demo_env
      (opts_of demo_routes true (Some "//cdn.example.com/")) empty_fs =
      (Normal (u, wp), fs') /\
    forall name mods,
      wp_entrypoints wp !! name = Some mods ->
      head mods =
      Some "/node_modules/webpack-dev-server/client?http://cdn.example.com/".
Proof.
  destruct (prepareClientBuild demo_env
              (opts_of demo_routes true (Some "//cdn.example.com/")) empty_fs)
    as [[[u wp]|e] fs'] eqn:Hrun.
  - exists u, wp, fs'. split; [reflexivity|].
    destruct (dev_server_client_url demo_env _ _ _ _ _ Hrun eq_refl)
      as (client & Hclient & Hhead & _).
    injection Hclient as <-. exact Hhead.
  - vm_compute in Hrun. discriminate.
Defined.

(** ** The routes-file synthesizer *)

Section SynthesizerFacts.

Context (env : NodeEnv).

Lemma method_is_empty_pure {S : Type} (method : value) (s : S) :
  method_is_empty env method s = (Normal (method_empty method), s).
Proof.
  unfold method_is_empty, method_empty, get_prop.
  destruct method; reflexivity.
Qed.

(** The normalization reads no state, changes none and never throws. *)
Lemma normalize_method_pure {S : Type} (method : value) (s : S) :
  normalize_method env method s =
  (Normal (if method_empty method then VUndefined else method), s).
Proof.
  unfold normalize_method.
  rewrite (bind_normal _ _ _ _ _ (method_is_empty_pure method s)). reflexivity.
Qed.

Lemma format_output_fold routesDir wd isClient formats out :
  fold_left (format_output env routesDir wd isClient) formats out =
  out ++ flat_map (format_lines env routesDir wd isClient) formats.
Proof.
  revert out. induction formats as [|fm formats IH]; intros out; simpl.
  - rewrite app_nil_r. reflexivity.
  - rewrite IH. unfold format_output, format_lines.
    rewrite <- app_assoc. reflexivity.
Qed.

Lemma route_output_pure {S : Type} routesDir wd isClient out nr (s : S) :
  route_output env routesDir wd isClient out nr s =
  (Normal (out ++ route_lines env routesDir wd isClient nr), s).
Proof.
  unfold route_output.
  rewrite (bind_normal _ _ _ _ _ (normalize_method_pure _ s)).
  unfold ret. rewrite format_output_fold. unfold route_lines.
  repeat rewrite <- app_assoc. reflexivity.
Qed.

Lemma routes_loop_pure {S : Type} routesDir wd isClient rs out (s : S) :
  for_each (route_output env routesDir wd isClient) rs out s =
  (Normal (out ++ flat_map (route_lines env routesDir wd isClient) rs), s).
Proof.
  revert out. induction rs as [|nr rs IH]; intros out; simpl.
  - rewrite app_nil_r. reflexivity.
  - rewrite (bind_normal _ _ _ _ _ (route_output_pure _ _ _ _ _ s)).
    rewrite IH, <- app_assoc. reflexivity.
Qed.

(** The content is a function of the arguments and of the resolution of the
    core middleware; the state is not read and not changed. *)
Lemma routes_content_closed {S : Type} routes routesDir wd staticUrl isClient
    manifest (s : S) :
  routes_content env routes routesDir wd staticUrl isClient manifest s =
  match require_resolve env "react-server-core-middleware" with
  | Normal core =>
      (Normal (routes_text env core routes routesDir wd staticUrl isClient
                 manifest), s)
  | Throw e => (Throw e, s)
  end.
Proof.
  unfold routes_content, bind at 1, lift.
  destruct (require_resolve env "react-server-core-middleware") as [core|e];
    [|reflexivity].
  rewrite (bind_normal _ _ _ _ _ (routes_loop_pure _ _ _ _ _ s)).
  unfold ret, routes_text. rewrite <- app_assoc. reflexivity.
Qed.

Lemma write_routes_closed routes routesDir wd staticUrl isClient manifest fs :
  writeWebpackCompatibleRoutesFile env routes routesDir wd staticUrl isClient
    manifest fs =
  match require_resolve env "react-server-core-middleware" with
  | Normal core =>
      (Normal (routes_file_path wd isClient),
       mkFS (fs_dirs fs)
         (<[routes_file_path wd isClient :=
              routes_text env core routes routesDir wd staticUrl isClient
                manifest]> (fs_files fs)))
  | Throw e => (Throw e, fs)
  end.
Proof.
  unfold writeWebpackCompatibleRoutesFile, bind at 1.
  rewrite routes_content_closed.
  destruct (require_resolve env "react-server-core-middleware"); reflexivity.
Qed.

End SynthesizerFacts.

(** ** Claims on the routes file *)

(** C4, at the values the claim lists.  [undefined], [null], the empty string
    and the empty array are replaced by [undefined], which the template
    prints as the bare word; ["GET"] is kept and printed as a JSON string.
    The empty object is kept as well: it is not identical to the fresh
    object of the comparison and it has no [length], so the file says
    [method: {},] for it. *)
Theorem method_normalization_at_listed_values (env : NodeEnv) {S : Type} (s : S) :
  normalize_method env VUndefined s = (Normal VUndefined, s) /\
  normalize_method env VNull s = (Normal VUndefined, s) /\
  normalize_method env (VStr EmptyString) s = (Normal VUndefined, s) /\
  normalize_method env (VArr []) s = (Normal VUndefined, s) /\
  normalize_method env (VStr "GET") s = (Normal (VStr "GET"), s) /\
  normalize_method env (VObj []) s = (Normal (VObj []), s) /\
  route_open "R" (VStr "/") VUndefined =
    (nl ++ tabs 2 ++ "R: {" ++
     nl ++ tabs 3 ++ "path: " ++ dquote ++ "/" ++ dquote ++ "," ++
     nl ++ tabs 3 ++ "method: undefined,")%string /\
  route_open "R" (VStr "/") (VStr "GET") =
    (nl ++ tabs 2 ++ "R: {" ++
     nl ++ tabs 3 ++ "path: " ++ dquote ++ "/" ++ dquote ++ "," ++
     nl ++ tabs 3 ++ "method: " ++ dquote ++ "GET" ++ dquote ++ ",")%string /\
  route_lines env "." "/w" false
    ("R", mkRoute (VStr "/") (VObj []) (PageObj [])) =
    [ (nl ++ tabs 2 ++ "R: {" ++
       nl ++ tabs 3 ++ "path: " ++ dquote ++ "/" ++ dquote ++ "," ++
       nl ++ tabs 3 ++ "method: {},")%string;
      page_open; route_close ].
Proof.
  repeat rewrite normalize_method_pure.
  repeat split; reflexivity.
Qed.

(** The normalization in general: a method is replaced exactly when it is
    [undefined], [null], or a value whose [length] is the number 0. *)
Lemma normalize_method_spec (env : NodeEnv) {S : Type} (method : value) (s : S) :
  normalize_method env method s =
  (Normal (if nullish method || strict_eq_num (read_prop method "length") 0
           then VUndefined else method), s).
Proof. apply normalize_method_pure. Qed.

(** C8.  Two runs of the synthesizer on the same arguments write the same
    bytes to the same path, whatever the state of the file system they start
    from; a second run right after the first leaves the file system as the
    first left it; and when the core middleware is not found every run
    throws what [require.resolve] threw and writes nothing. *)
Theorem routes_file_deterministic (env : NodeEnv) routes routesDir wd staticUrl
    isClient manifest :
  let run :=
    writeWebpackCompatibleRoutesFile env routes routesDir wd staticUrl isClient
      manifest in
  let file := routes_file_path wd isClient in
  (forall fs1 fs2 p1 p2 fs1' fs2',
     run fs1 = (Normal p1, fs1') ->
     run fs2 = (Normal p2, fs2') ->
     p1 = file /\ p2 = file /\
     is_Some (fs_files fs1' !! file) /\
     fs_files fs1' !! file = fs_files fs2' !! file) /\
  (forall fs p fs', run fs = (Normal p, fs') -> run fs' = (Normal p, fs')) /\
  (forall e,
     require_resolve env "react-server-core-middleware" = Throw e ->
     forall fs, run fs = (Throw e, fs)).
Proof.
  cbv zeta. split; [|split].
  - intros fs1 fs2 p1 p2 fs1' fs2'. rewrite !write_routes_closed.
    destruct (require_resolve env "react-server-core-middleware") as [core|e];
      [|discriminate].
    intros [= <- <-] [= <- <-]. simpl.
    rewrite !lookup_insert_eq. eauto.
  - intros fs p fs'. rewrite !write_routes_closed.
    destruct (require_resolve env "react-server-core-middleware") as [core|e];
      [|discriminate].
    intros [= <- <-]. simpl. rewrite insert_insert_eq. reflexivity.
  - intros e He fs. rewrite write_routes_closed, He. reflexivity.
Qed.

Lemma routes_file_deterministic_witness :
  exists fs',
    writeWebpackCompatibleRoutesFile demo_env demo_routes "." "/app/tmp"
      (VStr "/static/") false VUndefined empty_fs =
      (Normal "/app/tmp/routes_server.js", fs') /\
    writeWebpackCompatibleRoutesFile demo_env demo_routes "." "/app/tmp"
      (VStr "/static/") false VUndefined fs' =
      (Normal "/app/tmp/routes_server.js", fs').
Proof.
  destruct (writeWebpackCompatibleRoutesFile demo_env demo_routes "." "/app/tmp"
              (VStr "/static/") false VUndefined empty_fs)
    as [[p|e] fs'] eqn:Hrun.
  - exists fs'.
    destruct (routes_file_deterministic demo_env demo_routes "." "/app/tmp"
                (VStr "/static/") false VUndefined) as (Hsame & Hagain & _).
    destruct (Hsame _ _ _ _ _ _ Hrun Hrun) as (-> & _).
    split; [reflexivity | exact (Hagain _ _ _ Hrun)].
  - vm_compute in Hrun. discriminate.
Defined.

(** ** When entry names cannot collide *)

Lemma no_dash_before_dash R x : no_dash (R ++ "-" ++ x)%string = false.
Proof.
  induction R as [|a R IH]; [reflexivity|].
  change (negb (Ascii.eqb a "-"%char) && no_dash (R ++ "-" ++ x)%string = false).
  rewrite IH. apply andb_false_r.
Qed.

(** A name without a dash is cut off at the first dash. *)
Lemma first_dash_split R R' x y :
  no_dash R = true -> no_dash R' = true ->
  (R ++ "-" ++ x)%string = (R' ++ "-" ++ y)%string ->
  R = R' /\ x = y.
Proof.
  revert R'. induction R as [|a R IH]; intros [|a' R'] HR HR' Heq.
  - change (String "-" x = String "-" y) in Heq.
    injection Heq as ->. split; reflexivity.
  - change (String "-" x = String a' (R' ++ "-" ++ y)%string) in Heq.
    injection Heq as <- _. discriminate.
  - change (String a (R ++ "-" ++ x)%string = String "-" y) in Heq.
    injection Heq as -> _. discriminate.
  - change (String a (R ++ "-" ++ x)%string = String a' (R' ++ "-" ++ y)%string) in Heq.
    injection Heq as -> Heq.
    change (negb (Ascii.eqb a' "-"%char) && no_dash R = true) in HR.
    change (negb (Ascii.eqb a' "-"%char) && no_dash R' = true) in HR'.
    apply andb_true_iff in HR as [_ HR]. apply andb_true_iff in HR' as [_ HR'].
    destruct (IH R' HR HR' Heq) as [-> ->]. split; reflexivity.
Qed.

Lemma entry_name_inj R f R' f' :
  no_dash R = true -> no_dash R' = true ->
  entry_name R f = entry_name R' f' -> R = R' /\ f = f'.
Proof.
  intros HR HR'. unfold entry_name.
  destruct (String.eqb_spec f "default") as [->|Hf];
    destruct (String.eqb_spec f' "default") as [->|Hf']; simpl.
  - rewrite !append_empty_r. intros ->. split; reflexivity.
  - rewrite append_empty_r. intros ->.
    rewrite no_dash_before_dash in HR. discriminate.
  - rewrite append_empty_r. intros <-.
    rewrite no_dash_before_dash in HR'. discriminate.
  - apply first_dash_split; assumption.
Qed.

Lemma pairs_of_route_names rs t :
  t ∈ route_format_pairs (mkRoutes None rs) -> fst (fst t) ∈ rs.*1.
Proof.
  unfold route_format_pairs. simpl.
  induction rs as [|nr rs IH]; simpl; [intros H; inversion H|].
  intros [Hin | Hin]%elem_of_app.
  - apply list_elem_of_fmap in Hin as (fm & -> & _). left.
  - right. apply IH. exact Hin.
Qed.

(** X20.  Route names being distinct (they are the keys of one object),
    format names being distinct within a route (likewise), and no route name
    holding a dash, no two pairs compose the same entry name. *)
Lemma entry_names_distinct (routes : Routes) :
  NoDup (routes_routes routes).*1 ->
  (forall nr, nr ∈ routes_routes routes ->
              NoDup (normalizeRoutesPage (route_page (snd nr))).*1) ->
  (forall nr, nr ∈ routes_routes routes -> no_dash (fst nr) = true) ->
  NoDup (List.map pair_entry_name (route_format_pairs routes)).
Proof.
  destruct routes as [mw rs]. unfold route_format_pairs. simpl.
  induction rs as [|[R route] rs IH]; intros Hnames Hformats Hdash; simpl.
  - constructor.
  - apply NoDup_cons in Hnames as [HR Hnames].
    rewrite map_app. apply NoDup_app. split; [|split].
    + rewrite map_map. simpl.
      change (NoDup ((fun fm : string * string => entry_name R (fst fm)) <$>
                     normalizeRoutesPage (route_page route))).
      assert (HndR := Hformats (R, route) ltac:(left)). simpl in HndR.
      assert (HdashR := Hdash (R, route) ltac:(left)). simpl in HdashR.
      revert HndR. generalize (normalizeRoutesPage (route_page route)).
      intros fms. induction fms as [|[f m] fms IHf]; intros Hnd; [constructor|].
      simpl in Hnd. apply NoDup_cons in Hnd as [Hf Hnd]. simpl.
      apply NoDup_cons. split; [|apply IHf; exact Hnd].
      intros ([f' m'] & Heq & Hin)%list_elem_of_fmap. simpl in Heq.
      apply entry_name_inj in Heq as [_ ->]; [|assumption..].
      apply Hf. apply list_elem_of_fmap. exists (f', m'). split; [reflexivity | exact Hin].
    + intros name Hin1 Hin2.
      apply list_elem_of_fmap in Hin1 as (t1 & -> & Ht1).
      apply list_elem_of_fmap in Ht1 as (fm & -> & _).
      apply list_elem_of_fmap in Hin2 as (t2 & Heq & Ht2).
      pose proof (pairs_of_route_names rs t2 Ht2) as Hname2.
      destruct t2 as [[R2 f2] m2]. unfold pair_entry_name in Heq. simpl in *.
      apply list_elem_of_fmap in Hname2 as ([R2' route2] & HR2 & Hin2). simpl in HR2.
      subst R2'.
      apply entry_name_inj in Heq as [-> _].
      * apply HR. apply list_elem_of_fmap. exists (R2, route2).
        split; [reflexivity | exact Hin2].
      * apply (Hdash (R, route)). left.
      * apply (Hdash (R2, route2)). right. exact Hin2.
    + apply IH; [exact Hnames | |].
      * intros nr Hnr. apply Hformats. right. exact Hnr.
      * intros nr Hnr. apply Hdash. right. exact Hnr.
Qed.

(** ** The entrypoint derivation returns *)

Section Returns.

Context (env : NodeEnv).

Lemma formats_loop_returns {S : Type} dir base boot R fms
    (E : gmap string (list string)) (s : S) :
  (forall fm, fm ∈ fms ->
     exists p, require_resolve env (path_resolve env dir (snd fm)) = Normal p) ->
  exists E', for_each (format_entry env dir base boot R) fms E s = (Normal E', s).
Proof.
  revert E. induction fms as [|fm fms IH]; intros E Hall; simpl.
  - eexists. reflexivity.
  - destruct (Hall fm ltac:(left)) as [p Hp].
    destruct (IH (<[entry_name R (fst fm) := base ++ [boot; p]]> E)) as [E' HE'].
    { intros fm' Hin. apply Hall. right. exact Hin. }
    exists E'. unfold bind at 1, format_entry, bind, lift. rewrite Hp. exact HE'.
Qed.

Lemma routes_loop_returns {S : Type} dir base boot rs
    (E : gmap string (list string)) (s : S) :
  (forall t, t ∈ route_format_pairs (mkRoutes None rs) ->
     exists p, require_resolve env (path_resolve env dir (snd t)) = Normal p) ->
  exists E', for_each (route_entries env dir base boot) rs E s = (Normal E', s).
Proof.
  revert E. induction rs as [|nr rs IH]; intros E Hall; simpl.
  - eexists. reflexivity.
  - destruct (formats_loop_returns dir base boot (fst nr)
                (normalizeRoutesPage (route_page (snd nr))) E s) as [E1 HE1].
    { intros fm Hfm. apply (Hall (fst nr, fst fm, snd fm)).
      unfold route_format_pairs. simpl. apply elem_of_app. left.
      apply list_elem_of_fmap. exists fm. split; [reflexivity | exact Hfm]. }
    destruct (IH E1) as [E' HE'].
    { intros t Ht. apply Hall. unfold route_format_pairs in *. simpl.
      apply elem_of_app. right. exact Ht. }
    exists E'. unfold bind at 1, route_entries. rewrite HE1. exact HE'.
Qed.

End Returns.

(** X21.  The entrypoint derivation (the two loops over routes and formats)
    returns when every page module of the table is found, resolved against
    the routes directory; it leaves the state as it was. *)
Theorem derive_entrypoints_returns (env : NodeEnv) {S : Type} routes dir base
    boot (s : S) :
  (forall t, t ∈ route_format_pairs routes ->
     exists p, require_resolve env (path_resolve env dir (snd t)) = Normal p) ->
  exists E, derive_entrypoints env routes dir base boot s = (Normal E, s).
Proof.
  intros Hall. destruct routes as [mw rs]. unfold derive_entrypoints.
  apply routes_loop_returns. exact Hall.
Qed.

Lemma derive_entrypoints_returns_witness :
  exists E,
    derive_entrypoints demo_env demo_routes "/app/." [] "/app/tmp/entry.js" tt =
    (Normal E, tt).
Proof.
  apply derive_entrypoints_returns. intros t _. eexists. reflexivity.
Defined.


(** * Further properties *)

(** ** The manifest: where its entries come from *)

Section ManifestOrigin.

Implicit Types (c : Chunk) (chunks : list Chunk).

Lemma manifest_tables_snoc chunks c :
  manifest_tables (chunks ++ [c]) = manifest_step (manifest_tables chunks) c.
Proof. unfold manifest_tables. rewrite fold_left_app. reflexivity. Qed.

(** Every entry of the three tables was written for some chunk. *)
Lemma manifest_tables_sound chunks :
  (forall n v, t_jsByName (manifest_tables chunks) !! n = Some v ->
     exists c, c ∈ chunks /\ truthy_name c = Some n /\
               v = file_at (chunk_files c) 0) /\
  (forall k v, t_jsById (manifest_tables chunks) !! k = Some v ->
     exists c, c ∈ chunks /\ property_key (chunk_id c) = k /\
               v = file_at (chunk_files c) 0) /\
  (forall n v, t_cssByName (manifest_tables chunks) !! n = Some v ->
     exists c f, c ∈ chunks /\ truthy_name c = Some n /\
                 css_scan (drop 1 (chunk_files c)) = Some f /\ v = VStr f).
Proof.
  induction chunks as [|c chunks (IHn & IHi & IHc)] using rev_ind.
  - split; [|split]; intros ? ? H; discriminate.
  - rewrite manifest_tables_snoc. split; [|split].
    + intros n v H. destruct (decide (truthy_name c = Some n)) as [Hn|Hn].
      * rewrite (step_jsByName_named _ _ _ Hn), lookup_insert_eq in H.
        injection H as <-. exists c. split; [|split; [exact Hn | reflexivity]].
        apply elem_of_app. right. left.
      * rewrite (step_jsByName_other _ _ _ Hn) in H.
        destruct (IHn n v H) as (c' & Hin & Hrest). exists c'.
        split; [apply elem_of_app; left; exact Hin | exact Hrest].
    + intros k v H. rewrite step_jsById in H.
      destruct (decide (property_key (chunk_id c) = k)) as [Hk|Hk].
      * rewrite Hk, lookup_insert_eq in H. injection H as <-.
        exists c. split; [|split; [exact Hk | reflexivity]].
        apply elem_of_app. right. left.
      * rewrite lookup_insert_ne in H by exact Hk.
        destruct (IHi k v H) as (c' & Hin & Hrest). exists c'.
        split; [apply elem_of_app; left; exact Hin | exact Hrest].
    + intros n v H.
      assert (Hold : t_cssByName (manifest_tables chunks) !! n = Some v ->
                     exists c' f, c' ∈ chunks ++ [c] /\ truthy_name c' = Some n /\
                       css_scan (drop 1 (chunk_files c')) = Some f /\ v = VStr f).
      { intros H'. destruct (IHc n v H') as (c' & f & Hin & Hrest).
        exists c', f. split; [apply elem_of_app; left; exact Hin | exact Hrest]. }
      destruct (decide (truthy_name c = Some n)) as [Hn|Hn].
      * rewrite (step_css_named _ _ _ Hn) in H.
        destruct (css_scan (drop 1 (chunk_files c))) as [f|] eqn:Hscan;
          [|exact (Hold H)].
        injection H as <-. exists c, f.
        split; [|split; [exact Hn | split; [exact Hscan | reflexivity]]].
        apply elem_of_app. right. left.
      * rewrite (step_css_other _ _ _ Hn) in H. exact (Hold H).
Qed.

(** Every chunk leaves its keys in the tables. *)
Lemma manifest_tables_complete chunks c :
  c ∈ chunks ->
  is_Some (t_jsById (manifest_tables chunks) !! property_key (chunk_id c)) /\
  (forall n, truthy_name c = Some n ->
     is_Some (t_jsByName (manifest_tables chunks) !! n) /\
     (is_Some (css_scan (drop 1 (chunk_files c))) ->
      is_Some (t_cssByName (manifest_tables chunks) !! n))).
Proof.
  induction chunks as [|c' chunks IH] using rev_ind; [intros H; inversion H|].
  rewrite manifest_tables_snoc.
  intros [Hin | Hin%list_elem_of_singleton]%elem_of_app.
  - destruct (IH Hin) as (Hid & Hname). split.
    + rewrite step_jsById.
      destruct (decide (property_key (chunk_id c') = property_key (chunk_id c)))
        as [->|Hne]; [rewrite lookup_insert_eq; eauto|].
      rewrite lookup_insert_ne by exact Hne. exact Hid.
    + intros n Hn. destruct (Hname n Hn) as (Hjs & Hcss). split.
      * destruct (decide (truthy_name c' = Some n)) as [Hn'|Hn'].
        -- rewrite (step_jsByName_named _ _ _ Hn'), lookup_insert_eq. eauto.
        -- rewrite (step_jsByName_other _ _ _ Hn'). exact Hjs.
      * intros Hscan. destruct (decide (truthy_name c' = Some n)) as [Hn'|Hn'].
        -- rewrite (step_css_named _ _ _ Hn').
           destruct (css_scan (drop 1 (chunk_files c'))); [eauto | exact (Hcss Hscan)].
        -- rewrite (step_css_other _ _ _ Hn'). exact (Hcss Hscan).
  - subst c'. split.
    + rewrite step_jsById, lookup_insert_eq. eauto.
    + intros n Hn. split.
      * rewrite (step_jsByName_named _ _ _ Hn), lookup_insert_eq. eauto.
      * intros [f Hf]. rewrite (step_css_named _ _ _ Hn), Hf. eauto.
Qed.

End ManifestOrigin.

(** X1.  A name that has a CSS entry has a JS entry as well: the keys of
    [cssChunksByName] are among the keys of [jsChunksByName]. *)
Theorem manifest_css_names_have_js (stats : Stats) n v :
  cssChunksByName (statsToManifest stats) !! n = Some v ->
  is_Some (jsChunksByName (statsToManifest stats) !! n).
Proof.
  unfold statsToManifest. cbn [cssChunksByName jsChunksByName]. intros H.
  destruct (manifest_tables_sound (stats_chunks stats)) as (_ & _ & Hcss).
  destruct (Hcss n v H) as (c & f & Hin & Hn & _).
  destruct (manifest_tables_complete _ _ Hin) as (_ & Hname).
  exact (proj1 (Hname n Hn)).
Qed.

Lemma manifest_css_names_have_js_witness :
  is_Some (jsChunksByName (statsToManifest home_stats) !! "home").
Proof.
  apply (manifest_css_names_have_js home_stats "home" (VStr "home.css")).
  vm_compute. reflexivity.
Defined.

(** X2.  Every CSS entry is a file name ending in [.css] that stands at an
    index >= 1 in the files of a chunk carrying that name; the file at index
    0 of a chunk is never taken as its CSS file. *)
Theorem manifest_css_entries_are_css_files (stats : Stats) n v :
  cssChunksByName (statsToManifest stats) !! n = Some v ->
  exists c k f,
    c ∈ stats_chunks stats /\ truthy_name c = Some n /\
    1 <= k /\ chunk_files c !! k = Some f /\
    is_css f = true /\ v = VStr f.
Proof.
  unfold statsToManifest. cbn [cssChunksByName]. intros H.
  destruct (manifest_tables_sound (stats_chunks stats)) as (_ & _ & Hcss).
  destruct (Hcss n v H) as (c & f & Hin & Hn & Hscan & ->).
  apply css_scan_some_is_css in Hscan as [Hf Hisc].
  apply list_elem_of_lookup in Hf as [j Hj]. rewrite lookup_drop in Hj.
  exists c, (1 + j), f. repeat split; try assumption. lia.
Qed.

Lemma manifest_css_entries_are_css_files_witness :
  exists c k f,
    c ∈ stats_chunks hot_update_stats /\ truthy_name c = Some "x" /\
    1 <= k /\ chunk_files c !! k = Some f /\
    is_css f = true /\ VStr "x.css" = VStr f.
Proof.
  apply (manifest_css_entries_are_css_files hot_update_stats "x" (VStr "x.css")).
  vm_compute. reflexivity.
Defined.

(** X3.  Nothing is made up: an entry of [jsChunksByName] is [files[0]] of a
    chunk with that name and an entry of [jsChunksById] is [files[0]] of a
    chunk with that id. *)
Theorem manifest_js_entries_come_from_chunks (stats : Stats) :
  (forall n v,
     jsChunksByName (statsToManifest stats) !! n = Some v ->
     exists c, c ∈ stats_chunks stats /\ truthy_name c = Some n /\
               v = file_at (chunk_files c) 0) /\
  (forall k v,
     jsChunksById (statsToManifest stats) !! k = Some v ->
     exists c, c ∈ stats_chunks stats /\ property_key (chunk_id c) = k /\
               v = file_at (chunk_files c) 0).
Proof.
  unfold statsToManifest. cbn [jsChunksByName jsChunksById].
  destruct (manifest_tables_sound (stats_chunks stats)) as (Hn & Hi & _).
  split; assumption.
Qed.

Lemma manifest_js_entries_come_from_chunks_witness :
  exists c, c ∈ stats_chunks home_stats /\
            property_key (chunk_id c) = "2" /\
            VStr "vendor.js" = file_at (chunk_files c) 0.
Proof.
  apply (proj2 (manifest_js_entries_come_from_chunks home_stats) "2"
           (VStr "vendor.js")).
  vm_compute. reflexivity.
Defined.

(** X4.  The keys of the manifest are the keys of the chunks: [jsChunksById]
    has a property exactly for the ids that occur, [jsChunksByName] exactly
    for the truthy names that occur, and [cssChunksByName] exactly for the
    names of chunks in which the scan finds a CSS file. *)
Theorem manifest_keys_are_chunk_keys (stats : Stats) (k : string) :
  (is_Some (jsChunksById (statsToManifest stats) !! k) <->
   exists c, c ∈ stats_chunks stats /\ property_key (chunk_id c) = k) /\
  (is_Some (jsChunksByName (statsToManifest stats) !! k) <->
   exists c, c ∈ stats_chunks stats /\ truthy_name c = Some k) /\
  (is_Some (cssChunksByName (statsToManifest stats) !! k) <->
   exists c, c ∈ stats_chunks stats /\ truthy_name c = Some k /\
             is_Some (css_scan (drop 1 (chunk_files c)))).
Proof.
  unfold statsToManifest. cbn [jsChunksByName jsChunksById cssChunksByName].
  destruct (manifest_tables_sound (stats_chunks stats)) as (Hn & Hi & Hc).
  split; [|split]; split.
  - intros [v Hv]. destruct (Hi k v Hv) as (c & Hin & Hk & _). eauto.
  - intros (c & Hin & <-). exact (proj1 (manifest_tables_complete _ _ Hin)).
  - intros [v Hv]. destruct (Hn k v Hv) as (c & Hin & Hk & _). eauto.
  - intros (c & Hin & Hk).
    exact (proj1 (proj2 (manifest_tables_complete _ _ Hin) k Hk)).
  - intros [v Hv]. destruct (Hc k v Hv) as (c & f & Hin & Hk & Hscan & _).
    exists c. rewrite Hscan. eauto.
  - intros (c & Hin & Hk & Hscan).
    exact (proj2 (proj2 (manifest_tables_complete _ _ Hin) k Hk) Hscan).
Qed.

Lemma manifest_keys_are_chunk_keys_witness :
  is_Some (jsChunksById (statsToManifest home_stats) !! "2").
Proof.
  apply (proj1 (manifest_keys_are_chunk_keys home_stats "2")).
  exists (mkChunk (IdNum 2) None ["vendor.js"]).
  split; [right; left | reflexivity].
Defined.

(** ** The set-up phase and the file system *)

Section SetupFacts.

Context (env : NodeEnv).

Lemma bind_inv {S A B : Type} (m : Eff S A) (k : A -> Eff S B) s r s' :
  bind m k s = (r, s') ->
  (exists a s1, m s = (Normal a, s1) /\ k a s1 = (r, s')) \/
  (exists e, m s = (Throw e, s') /\ r = Throw e).
Proof.
  unfold bind. destruct (m s) as [[a|e] s1]; intros H.
  - left. eauto.
  - injection H as <- <-. right. eauto.
Qed.

(** A loop whose body leaves the state alone leaves the state alone,
    however it ends. *)
Lemma for_each_keeps_state {S A B : Type} (body : B -> A -> Eff S B) xs :
  (forall acc x s, snd (body acc x s) = s) ->
  forall acc s, snd (for_each body xs acc s) = s.
Proof.
  intros Hbody. induction xs as [|x xs IH]; intros acc s; [reflexivity|].
  simpl. unfold bind. specialize (Hbody acc x s).
  destruct (body acc x s) as [[acc'|e] s1]; simpl in Hbody; subst s1.
  - apply IH.
  - reflexivity.
Qed.

Lemma format_entry_keeps_state {S : Type} dir base boot R
    (E : gmap string (list string)) fm (s : S) :
  snd (format_entry env dir base boot R E fm s) = s.
Proof.
  unfold format_entry, bind, lift. destruct (require_resolve env _); reflexivity.
Qed.

Lemma derive_entrypoints_keeps_state {S : Type} routes dir base boot (s : S) :
  snd (derive_entrypoints env routes dir base boot s) = s.
Proof.
  unfold derive_entrypoints. apply for_each_keeps_state.
  intros E nr s0. unfold route_entries. apply for_each_keeps_state.
  intros E' fm s1. apply format_entry_keeps_state.
Qed.

Lemma entrypointBase_keeps_state {S : Type} hot url (s : S) :
  snd (entrypointBase env hot url s) = s.
Proof.
  unfold entrypointBase. destruct hot; [|reflexivity].
  unfold bind, lift.
  destruct (require_resolve env "webpack-dev-server/client"); [|reflexivity].
  destruct (require_resolve env "webpack/hot/only-dev-server"); reflexivity.
Qed.

(** The set-up phase after the check, step by step: each of the three
    resolutions either stops it, with the file system as the bootstrap
    emitter left it, or lets it go on. *)
Lemma prepareClientBuild_steps opts fs :
  default false (opt_longTermCaching opts) && default true (opt_hot opts) = false ->
  prepareClientBuild env opts fs =
  match entrypointBase env (default true (opt_hot opts))
          (default "/static/" (opt_outputUrl opts)) (after_bootstrap env opts fs) with
  | (Throw e, _) => (Throw e, after_bootstrap env opts fs)
  | (Normal base, _) =>
      match derive_entrypoints env (opt_routes opts)
              (path_resolve env (cwd env) (default "." (opt_routesDir opts)))
              base (working_dir_absolute env opts ++ "/entry.js")%string
              (after_bootstrap env opts fs) with
      | (Throw e, _) => (Throw e, after_bootstrap env opts fs)
      | (Normal entrypoints, _) =>
          match require_resolve env "react-server-core-middleware" with
          | Throw e => (Throw e, after_bootstrap env opts fs)
          | Normal core =>
              (Normal
                 (js_or (opt_webpackConfig opts) (opt_webpack_config opts),
                  mkWpAffectingOpts false (output_dir_absolute env opts)
                    entrypoints (default "/static/" (opt_outputUrl opts))
                    (default true (opt_hot opts))
                    (default false (opt_minify opts))
                    (default false (opt_longTermCaching opts))
                    (default false (opt_stats opts))),
               mkFS (fs_dirs (after_bootstrap env opts fs))
                 (<[routes_file_path (working_dir_absolute env opts) true :=
                      client_routes_text env core opts]>
                    (fs_files (after_bootstrap env opts fs))))
          end
      end
  end.
Proof.
  intros Hguard. unfold prepareClientBuild. cbv zeta. rewrite Hguard.
  unfold bind at 1, mkdirp_sync at 1, modify.
  unfold bind at 1, mkdirp_sync at 1, modify.
  unfold bind at 1, writeClientBootstrapFile, bind at 1, writeFileSync at 1,
    modify, ret at 1.
  unfold after_bootstrap, client_routes_text, working_dir_absolute,
    output_dir_absolute.
  cbn [fs_dirs fs_files].
  match goal with |- bind _ _ ?s0 = _ => set (st := s0) end.
  unfold bind at 1.
  pose proof (entrypointBase_keeps_state (default true (opt_hot opts))
                (default "/static/" (opt_outputUrl opts)) st) as Hb.
  destruct (entrypointBase env _ _ st) as [[base|e] s1];
    simpl in Hb; subst s1; [|reflexivity].
  unfold bind at 1.
  pose proof (derive_entrypoints_keeps_state (opt_routes opts)
                (path_resolve env (cwd env) (default "." (opt_routesDir opts)))
                base
                (path_resolve env (cwd env)
                   (default "./__clientTemp" (opt_workingDir opts)) ++
                 "/entry.js")%string st) as Hd.
  destruct (derive_entrypoints env _ _ _ _ st)
    as [[E|e] s1]; simpl in Hd; subst s1; [|reflexivity].
  unfold bind at 1. rewrite write_routes_closed.
  destruct (require_resolve env "react-server-core-middleware"); reflexivity.
Qed.

End SetupFacts.

Lemma append_inj_l (s a b : string) :
  (s ++ a)%string = (s ++ b)%string -> a = b.
Proof.
  induction s as [|c s IH]; intros H; [exact H|].
  change (String c (s ++ a)%string = String c (s ++ b)%string) in H.
  injection H as H. exact (IH H).
Qed.

Lemma entry_is_not_routes_file wd isClient :
  (wd ++ "/entry.js")%string ≠ routes_file_path wd isClient.
Proof.
  unfold routes_file_path. intros H. apply append_inj_l in H.
  destruct isClient; discriminate.
Qed.

Lemma client_routes_is_not_server_routes wd :
  routes_file_path wd true ≠ routes_file_path wd false.
Proof.
  unfold routes_file_path. intros H. apply append_inj_l in H. discriminate.
Qed.

(** X5.  After a set-up that has returned, the working and the output
    directory are there, next to every directory that was there before, and
    two files have been written, the bootstrap [entry.js] and the client
    routes file (without manifest and with a [null] static URL), both in the
    working directory; every other file is as it was. *)
Theorem setup_writes_bootstrap_and_client_routes (env : NodeEnv) opts fs u wp fs' :
  prepareClientBuild env opts fs = (Normal (u, wp), fs') ->
  exists core,
    require_resolve env "react-server-core-middleware" = Normal core /\
    (working_dir_absolute env opts ∈ fs_dirs fs' /\
     output_dir_absolute env opts ∈ fs_dirs fs' /\
     fs_dirs fs ⊆ fs_dirs fs') /\
    fs_files fs' !! (working_dir_absolute env opts ++ "/entry.js")%string =
      Some (bootstrap_content opts) /\
    fs_files fs' !! routes_file_path (working_dir_absolute env opts) true =
      Some (client_routes_text env core opts) /\
    (forall p,
       p ≠ (working_dir_absolute env opts ++ "/entry.js")%string ->
       p ≠ routes_file_path (working_dir_absolute env opts) true ->
       fs_files fs' !! p = fs_files fs !! p).
Proof.
  intros Hrun.
  destruct (default false (opt_longTermCaching opts) && default true (opt_hot opts))
    eqn:Hguard.
  { unfold prepareClientBuild in Hrun. cbv zeta in Hrun. rewrite Hguard in Hrun.
    discriminate. }
  rewrite (prepareClientBuild_steps env opts fs Hguard) in Hrun.
  destruct (entrypointBase env _ _ _) as [[base|e] s1]; [|discriminate].
  destruct (derive_entrypoints env _ _ _ _ _) as [[E|e] s2]; [|discriminate].
  destruct (require_resolve env "react-server-core-middleware") as [core|e];
    [|discriminate].
  injection Hrun as _ _ <-. exists core. cbn [fs_dirs fs_files after_bootstrap].
  split; [reflexivity|]. split; [set_solver|]. split; [|split].
  - rewrite lookup_insert_ne by (apply not_eq_sym, entry_is_not_routes_file).
    apply lookup_insert_eq.
  - apply lookup_insert_eq.
  - intros p Hp1 Hp2.
    rewrite lookup_insert_ne by (apply not_eq_sym; exact Hp2).
    apply lookup_insert_ne. apply not_eq_sym. exact Hp1.
Qed.

Lemma setup_writes_bootstrap_and_client_routes_witness :
  exists u wp fs',
    prepareClientBuild demo_env (opts_of demo_routes false None) empty_fs =
      (Normal (u, wp), fs') /\
    fs_files fs' !! "/app/./__clientTemp/entry.js" =
      Some (bootstrap_content (opts_of demo_routes false None)) /\
    fs_files fs' !! "/elsewhere.js" = None.
Proof.
  destruct (prepareClientBuild demo_env (opts_of demo_routes false None) empty_fs)
    as [[[u wp]|e] fs'] eqn:Hrun.
  - exists u, wp, fs'. split; [reflexivity|].
    destruct (setup_writes_bootstrap_and_client_routes demo_env _ _ _ _ _ Hrun)
      as (core & _ & _ & Hentry & _ & Hframe).
    split; [exact Hentry|].
    rewrite (Hframe "/elsewhere.js"); [reflexivity | discriminate | discriminate].
  - vm_compute in Hrun. discriminate.
Defined.

Section DerivationFailure.

Context (env : NodeEnv).

(** A loop that throws throws from its body, at one of its elements. *)
Lemma for_each_throw_at {S A B : Type} (body : B -> A -> Eff S B) xs :
  forall acc s e s',
    for_each body xs acc s = (Throw e, s') ->
    exists x acc0 s0, x ∈ xs /\ body acc0 x s0 = (Throw e, s').
Proof.
  induction xs as [|x xs IH]; intros acc s e s'; simpl; [discriminate|].
  intros [(acc' & s1 & _ & Hrest) | (e' & Hstep & [= ->])]%bind_inv.
  - destruct (IH _ _ _ _ Hrest) as (x' & acc0 & s0 & Hin & Hbody).
    exists x', acc0, s0. split; [right; exact Hin | exact Hbody].
  - exists x, acc, s. split; [left | exact Hstep].
Qed.

Lemma derive_entrypoints_throw_at {S : Type} routes dir base boot e (s s' : S) :
  derive_entrypoints env routes dir base boot s = (Throw e, s') ->
  exists t, t ∈ route_format_pairs routes /\
            require_resolve env (path_resolve env dir (snd t)) = Throw e.
Proof.
  unfold derive_entrypoints. intros H.
  apply for_each_throw_at in H as (nr & E & s0 & Hnr & H).
  unfold route_entries in H.
  apply for_each_throw_at in H as (fm & E' & s1 & Hfm & H).
  exists (fst nr, fst fm, snd fm). split.
  - unfold route_format_pairs. apply list_elem_of_In, in_flat_map.
    exists nr. split; [apply list_elem_of_In; exact Hnr|].
    apply list_elem_of_In, list_elem_of_fmap. exists fm.
    split; [reflexivity | exact Hfm].
  - unfold format_entry, bind, lift in H. cbn [snd].
    destruct (require_resolve env (path_resolve env dir (snd fm)));
      [discriminate|].
    injection H as <- _. reflexivity.
Qed.

End DerivationFailure.

(** X6.  The entrypoint derivation fails in one way only: when it throws,
    the thrown value is the one [require.resolve] raised for a page module
    of the table, resolved against the routes directory, and the state is
    as it was. *)
Theorem derive_entrypoints_fails_by_resolution (env : NodeEnv) {S : Type}
    routes dir base boot e (s s' : S) :
  derive_entrypoints env routes dir base boot s = (Throw e, s') ->
  s' = s /\
  exists t, t ∈ route_format_pairs routes /\
            require_resolve env (path_resolve env dir (snd t)) = Throw e.
Proof.
  intros H. split.
  - pose proof (derive_entrypoints_keeps_state env routes dir base boot s) as Hs.
    rewrite H in Hs. exact Hs.
  - exact (derive_entrypoints_throw_at env _ _ _ _ _ _ _ H).
Qed.

Lemma derive_entrypoints_fails_by_resolution_witness :
  derive_entrypoints missing_about_env demo_routes "/app/." []
    "/app/tmp/entry.js" tt =
    (Throw (VError "Cannot find module" "Error: Cannot find module"), tt) /\
  exists t, t ∈ route_format_pairs demo_routes /\
            require_resolve missing_about_env
              (path_resolve missing_about_env "/app/." (snd t)) =
            Throw (VError "Cannot find module" "Error: Cannot find module").
Proof.
  split; [reflexivity|].
  exact (proj2 (derive_entrypoints_fails_by_resolution missing_about_env
                  demo_routes "/app/." [] "/app/tmp/entry.js"
                  (VError "Cannot find module" "Error: Cannot find module")
                  tt tt eq_refl)).
Defined.

(** X7.  What the default export returns once the set-up has returned:
    without a user configuration (none given, or an empty path) the bundler
    is built from the base configuration as it is; with one, the module's
    [default] export transforms the base configuration first; and when that
    module cannot be loaded its exception is thrown, after the set-up has
    written its files. *)
Theorem compileClient_outcome (env : NodeEnv) opts fs u wp fs' :
  prepareClientBuild env opts fs = (Normal (u, wp), fs') ->
  (truthy_str u = false ->
   compileClient env opts fs = (Normal (webpack env (base_config env wp)), fs')) /\
  (forall p, u = Some p -> p ≠ EmptyString ->
     compileClient env opts fs =
     match require_default env (path_resolve env (cwd env) p) with
     | Normal extend =>
         (Normal (webpack env (extend (base_config env wp))), fs')
     | Throw e => (Throw e, fs')
     end).
Proof.
  intros Hrun. unfold compileClient.
  rewrite (bind_normal _ _ _ _ _ Hrun). cbn [fst snd].
  unfold getWebpackConfig. split.
  - intros Hu. destruct u as [p|]; [|reflexivity].
    unfold truthy_str in Hu. rewrite Hu. reflexivity.
  - intros p -> Hp. simpl.
    destruct (String.eqb_spec p EmptyString) as [Heq|_]; [contradiction|].
    simpl. unfold bind, lift.
    destruct (require_default env _); reflexivity.
Qed.

Lemma compileClient_outcome_witness :
  exists wp fs',
    compileClient missing_about_env
      (mkOpts (mkRoutes None []) (Some "webpack.config.js") None None None None
         None (Some false) None None None VUndefined VUndefined VUndefined)
      empty_fs = (Throw (VStr "bad config"), fs') /\
    prepareClientBuild missing_about_env
      (mkOpts (mkRoutes None []) (Some "webpack.config.js") None None None None
         None (Some false) None None None VUndefined VUndefined VUndefined)
      empty_fs = (Normal (Some "webpack.config.js", wp), fs').
Proof.
  destruct (prepareClientBuild missing_about_env
      (mkOpts (mkRoutes None []) (Some "webpack.config.js") None None None None
         None (Some false) None None None VUndefined VUndefined VUndefined)
      empty_fs) as [[[u wp]|e] fs'] eqn:Hrun.
  - assert (Hu : u = Some "webpack.config.js")
      by (vm_compute in Hrun; congruence).
    subst u. exists wp, fs'. split; [|reflexivity].
    destruct (compileClient_outcome missing_about_env _ _ _ _ _ Hrun)
      as (_ & Huser).
    rewrite (Huser "webpack.config.js" eq_refl); [reflexivity | discriminate].
  - vm_compute in Hrun. discriminate.
Defined.

(** X8.  The URL given to the dev-server client never starts with [//]: a
    protocol-relative [outputUrl] gets [http:] in front, any other one is
    passed on unchanged, and applying the rewriting twice changes nothing
    more. *)
Theorem dev_server_url_not_protocol_relative (outputUrl : string) :
  starts_with "//" (webpackDevServerClientUrl outputUrl) = false /\
  (starts_with "//" outputUrl = true ->
   webpackDevServerClientUrl outputUrl = ("http:" ++ outputUrl)%string) /\
  (starts_with "//" outputUrl = false ->
   webpackDevServerClientUrl outputUrl = outputUrl) /\
  webpackDevServerClientUrl (webpackDevServerClientUrl outputUrl) =
    webpackDevServerClientUrl outputUrl.
Proof.
  assert (H1 : starts_with "//" (webpackDevServerClientUrl outputUrl) = false).
  { unfold webpackDevServerClientUrl.
    destruct (starts_with "//" outputUrl) eqn:E; [reflexivity | exact E]. }
  split; [exact H1|]. split; [|split].
  - intros E. unfold webpackDevServerClientUrl. rewrite E. reflexivity.
  - intros E. unfold webpackDevServerClientUrl. rewrite E. reflexivity.
  - unfold webpackDevServerClientUrl at 1. rewrite H1. reflexivity.
Qed.

Lemma dev_server_url_not_protocol_relative_witness :
  webpackDevServerClientUrl "//cdn.example/" = "http://cdn.example/" /\
  webpackDevServerClientUrl "/static/" = "/static/".
Proof.
  split.
  - exact (proj1 (proj2 (dev_server_url_not_protocol_relative "//cdn.example/"))
             eq_refl).
  - exact (proj1 (proj2 (proj2 (dev_server_url_not_protocol_relative "/static/")))
             eq_refl).
Defined.

Lemma assign_all_size (entries : list (string * list string)) :
  size (assign_all entries ∅) <= length entries.
Proof.
  induction entries as [|[k v] entries IH] using rev_ind; [reflexivity|].
  assert (Hsnoc : assign_all (entries ++ [(k, v)]) ∅ =
                  <[k := v]> (assign_all entries ∅)).
  { unfold assign_all. rewrite fold_left_app. reflexivity. }
  rewrite Hsnoc, length_app. simpl.
  destruct (assign_all entries ∅ !! k) eqn:Hk.
  - rewrite map_size_insert_Some by eauto. lia.
  - rewrite map_size_insert_None by exact Hk. lia.
Qed.

(** X9.  With or without colliding names, the keys of the entrypoints
    object are exactly the names composed from the (route, format) pairs,
    there are at most as many entries as pairs, and every entry belongs to a
    pair of its name: it ends with the bootstrap file and that pair's
    resolved page module, after two transport modules in hot mode and
    nothing otherwise. *)
Theorem entrypoints_keys_and_shape (env : NodeEnv) opts fs u wp fs' :
  prepareClientBuild env opts fs = (Normal (u, wp), fs') ->
  (forall name,
     is_Some (wp_entrypoints wp !! name) <->
     exists t, t ∈ route_format_pairs (opt_routes opts) /\
               name = pair_entry_name t) /\
  size (wp_entrypoints wp) <= length (route_format_pairs (opt_routes opts)) /\
  (forall name mods,
     wp_entrypoints wp !! name = Some mods ->
     exists t page,
       t ∈ route_format_pairs (opt_routes opts) /\
       name = pair_entry_name t /\
       require_resolve env
         (path_resolve env
            (path_resolve env (cwd env) (default "." (opt_routesDir opts)))
            (snd t)) = Normal page /\
       length mods = (if default true (opt_hot opts) then 4 else 2) /\
       drop (length mods - 2) mods =
         [(working_dir_absolute env opts ++ "/entry.js")%string; page]).
Proof.
  intros Hrun.
  destruct (prepareClientBuild_inv env _ _ _ _ _ Hrun)
    as (_ & _ & _ & _ & base & entries & Hbase & Hall & HE).
  pose proof (entrypointBase_inv env _ _ _ fs fs (Hbase fs)) as [_ Hshape].
  rewrite HE. split; [|split].
  - intros name. split.
    + intros [v Hv]. apply assign_all_sound in Hv as [Hin | Hv]; [|discriminate].
      destruct (entries_origin _ _ _ _ Hall Hin) as (t & Ht & Hkv).
      exists t. split; [exact Ht|]. apply entry_of_name in Hkv. exact Hkv.
    + intros (t & Ht & ->).
      destruct (entries_image _ _ _ _ Hall Ht) as ([k v] & Hin & Hkv).
      apply entry_of_name in Hkv. simpl in Hkv. subst k.
      eapply assign_all_complete. exact Hin.
  - rewrite (Forall2_length _ _ _ Hall). apply assign_all_size.
  - intros name mods Hlookup.
    apply assign_all_sound in Hlookup as [Hin | Hv]; [|discriminate].
    destruct (entries_origin _ _ _ _ Hall Hin) as (t & Ht & Hkv).
    unfold entry_of in Hkv.
    destruct (require_resolve env (path_resolve env _ (snd t))) as [page|] eqn:Hpage;
      [|discriminate].
    injection Hkv as <- <-. exists t, page.
    split; [exact Ht|]. split; [reflexivity|]. split; [exact Hpage|].
    unfold working_dir_absolute.
    destruct (default true (opt_hot opts)).
    + destruct Hshape as (client & onlyDev & _ & _ & ->). split; reflexivity.
    + subst base. split; reflexivity.
Qed.

Lemma entrypoints_keys_and_shape_witness :
  exists u wp fs',
    prepareClientBuild demo_env (opts_of colliding_routes true None) empty_fs =
      (Normal (u, wp), fs') /\
    size (wp_entrypoints wp) <= 2 /\
    is_Some (wp_entrypoints wp !! "a-b").
Proof.
  destruct (prepareClientBuild demo_env (opts_of colliding_routes true None)
              empty_fs) as [[[u wp]|e] fs'] eqn:Hrun.
  - exists u, wp, fs'. split; [reflexivity|].
    destruct (entrypoints_keys_and_shape demo_env _ _ _ _ _ Hrun)
      as (Hkeys & Hsize & _).
    split; [exact Hsize|]. apply Hkeys.
    exists ("a", "b", "q.js"). split; [right; left | reflexivity].
  - vm_compute in Hrun. discriminate.
Defined.

Lemma entry_names_distinct_witness :
  NoDup (List.map pair_entry_name (route_format_pairs demo_routes)).
Proof.
  apply entry_names_distinct.
  - apply (bool_decide_unpack _). vm_compute. reflexivity.
  - intros nr Hnr. repeat (apply elem_of_cons in Hnr as [-> | Hnr]);
      [| | inversion Hnr]; apply (bool_decide_unpack _); vm_compute; reflexivity.
  - intros nr Hnr. repeat (apply elem_of_cons in Hnr as [-> | Hnr]);
      [| | inversion Hnr]; reflexivity.
Defined.

(** ** The two variants of the routes file *)

(** X10.  The client and the server variant are written to different paths
    of the working directory, so synthesizing the server variant after the
    client variant keeps the client file as it was written; neither run
    touches a directory or any other file. *)
Theorem routes_variants_side_by_side (env : NodeEnv) routes routesDir wd
    urlC manifestC urlS manifestS fs pc fs1 ps fs2 :
  writeWebpackCompatibleRoutesFile env routes routesDir wd urlC true manifestC fs =
    (Normal pc, fs1) ->
  writeWebpackCompatibleRoutesFile env routes routesDir wd urlS false manifestS fs1 =
    (Normal ps, fs2) ->
  pc ≠ ps /\
  (exists core,
     require_resolve env "react-server-core-middleware" = Normal core /\
     fs_files fs2 !! pc =
       Some (routes_text env core routes routesDir wd urlC true manifestC) /\
     fs_files fs2 !! ps =
       Some (routes_text env core routes routesDir wd urlS false manifestS)) /\
  fs_dirs fs2 = fs_dirs fs /\
  (forall q, q ≠ pc -> q ≠ ps -> fs_files fs2 !! q = fs_files fs !! q).
Proof.
  rewrite !write_routes_closed.
  destruct (require_resolve env "react-server-core-middleware") as [core|e];
    [|discriminate].
  intros [= <- <-] [= <- <-]. cbn [fs_dirs fs_files].
  split; [apply client_routes_is_not_server_routes|].
  split; [|split; [reflexivity|]].
  - exists core. split; [reflexivity|]. split.
    + rewrite lookup_insert_ne
        by (apply not_eq_sym, client_routes_is_not_server_routes).
      apply lookup_insert_eq.
    + apply lookup_insert_eq.
  - intros q Hc Hs.
    rewrite lookup_insert_ne by (apply not_eq_sym; exact Hs).
    apply lookup_insert_ne. apply not_eq_sym. exact Hc.
Qed.

Lemma routes_variants_side_by_side_witness :
  exists fs1 fs2,
    writeWebpackCompatibleRoutesFile demo_env demo_routes "." "/app/tmp" VNull
      true VUndefined empty_fs = (Normal "/app/tmp/routes_client.js", fs1) /\
    writeWebpackCompatibleRoutesFile demo_env demo_routes "." "/app/tmp"
      (VStr "/static/") false (manifest_object home_stats) fs1 =
      (Normal "/app/tmp/routes_server.js", fs2) /\
    is_Some (fs_files fs2 !! "/app/tmp/routes_client.js") /\
    fs_dirs fs2 = ∅.
Proof.
  destruct (writeWebpackCompatibleRoutesFile demo_env demo_routes "." "/app/tmp"
              VNull true VUndefined empty_fs) as [[pc|e] fs1] eqn:H1;
    [|vm_compute in H1; discriminate].
  destruct (writeWebpackCompatibleRoutesFile demo_env demo_routes "." "/app/tmp"
              (VStr "/static/") false (manifest_object home_stats) fs1)
    as [[ps|e] fs2] eqn:H2;
    [|rewrite write_routes_closed in H2; discriminate].
  destruct (routes_variants_side_by_side demo_env _ _ _ _ _ _ _ _ _ _ _ _ H1 H2)
    as (_ & (core & _ & Hc & _) & Hdirs & _).
  assert (Hpc : pc = "/app/tmp/routes_client.js")
    by (rewrite write_routes_closed in H1; injection H1 as <- _; reflexivity).
  assert (Hps : ps = "/app/tmp/routes_server.js")
    by (rewrite write_routes_closed in H2; injection H2 as <- _; reflexivity).
  subst pc ps. exists fs1, fs2.
  split; [reflexivity|]. split; [exact H2|].
  split; [rewrite Hc; eauto | exact Hdirs].
Defined.

(** X11.  Method normalization never throws and leaves the state alone; its
    result is [undefined] or the method itself, it is never [null], the
    empty string or the empty array, and normalizing it again changes
    nothing. *)
Theorem normalize_method_result (env : NodeEnv) {S : Type} (method : value) (s : S) :
  exists v,
    normalize_method env method s = (Normal v, s) /\
    (v = VUndefined \/ v = method) /\
    v ≠ VNull /\ v ≠ VStr EmptyString /\ v ≠ VArr [] /\
    normalize_method env v s = (Normal v, s).
Proof.
  rewrite normalize_method_pure. eexists. split; [reflexivity|].
  rewrite normalize_method_pure. unfold method_empty.
  destruct method as [| |b|n|str|elems|props|m st]; simpl;
    try (repeat split; (left + right + discriminate + idtac); reflexivity).
  - destruct str; simpl; repeat split;
      (left + right + discriminate + idtac); reflexivity.
  - destruct elems; simpl; repeat split;
      (left + right + discriminate + idtac); reflexivity.
  - destruct (strict_eq_num (own_property props "length") 0) eqn:E; simpl;
      [|rewrite E]; repeat split; (left + right + discriminate + idtac);
      reflexivity.
Qed.

(** ** Objects in property order *)

Section ObjectFacts.

Implicit Types (props : list (string * value)) (k : string) (v : value).

Lemma obj_lookup_None props k : obj_lookup props k = None <-> k ∉ props.*1.
Proof.
  induction props as [|[k0 x] props IH]; simpl.
  - split; [intros _ H; inversion H | reflexivity].
  - destruct (String.eqb_spec k0 k) as [->|Hne].
    + split; [discriminate | intros H; exfalso; apply H; left].
    + rewrite IH. split.
      * intros H [Heq | Hin]%elem_of_cons; [congruence | exact (H Hin)].
      * intros H Hin. apply H. right. exact Hin.
Qed.

Lemma obj_lookup_replace props k v k' :
  is_Some (obj_lookup props k) ->
  obj_lookup (obj_replace props k v) k' =
  if decide (k = k') then Some v else obj_lookup props k'.
Proof.
  induction props as [|[k0 x] props IH]; simpl; [intros [? H]; discriminate|].
  destruct (String.eqb_spec k0 k) as [->|Hne]; simpl.
  - intros _. destruct (String.eqb_spec k k') as [->|Hne'].
    + rewrite decide_True by reflexivity. reflexivity.
    + rewrite decide_False by exact Hne'. reflexivity.
  - intros Hk. destruct (String.eqb_spec k0 k') as [->|Hne'].
    + rewrite decide_False by congruence. reflexivity.
    + apply IH. exact Hk.
Qed.

Lemma obj_replace_keys props k v : (obj_replace props k v).*1 = props.*1.
Proof.
  induction props as [|[k0 x] props IH]; [reflexivity|].
  cbn [obj_replace]. destruct (String.eqb k0 k); [reflexivity|].
  rewrite !fmap_cons, IH. reflexivity.
Qed.

Lemma obj_insert_index_keys props n k v k' :
  k' ∈ (obj_insert_index props n k v).*1 <-> k' = k \/ k' ∈ props.*1.
Proof.
  induction props as [|[k0 x] props IH]; simpl.
  - rewrite list_elem_of_singleton. split; [left; assumption|].
    intros [H | H]; [exact H | inversion H].
  - destruct (array_index k0) as [n'|]; [destruct (n <? n')%N|]; csimpl;
      rewrite ?elem_of_cons, ?IH; tauto.
Qed.

Lemma obj_lookup_insert_index props n k v k' :
  obj_lookup props k = None ->
  obj_lookup (obj_insert_index props n k v) k' =
  if decide (k = k') then Some v else obj_lookup props k'.
Proof.
  assert (Hhead : forall rest,
    obj_lookup ((k, v) :: rest) k' =
    if decide (k = k') then Some v else obj_lookup rest k').
  { intros rest. simpl. destruct (String.eqb_spec k k') as [->|Hne'].
    - rewrite decide_True by reflexivity. reflexivity.
    - rewrite decide_False by exact Hne'. reflexivity. }
  induction props as [|[k0 x] props IH]; intros Hk; [apply Hhead|].
  simpl in Hk. destruct (String.eqb_spec k0 k) as [->|Hne]; [discriminate|].
  cbn [obj_insert_index].
  destruct (array_index k0) as [n'|]; [destruct (n <? n')%N|];
    try apply Hhead.
  simpl. destruct (String.eqb_spec k0 k') as [->|Hne'].
  - rewrite decide_False by congruence. reflexivity.
  - apply IH. exact Hk.
Qed.

Lemma obj_lookup_append props k v k' :
  obj_lookup props k = None ->
  obj_lookup (props ++ [(k, v)]) k' =
  if decide (k = k') then Some v else obj_lookup props k'.
Proof.
  induction props as [|[k0 x] props IH]; simpl.
  - intros _. destruct (String.eqb_spec k k') as [->|Hne'].
    + rewrite decide_True by reflexivity. reflexivity.
    + rewrite decide_False by exact Hne'. reflexivity.
  - destruct (String.eqb_spec k0 k) as [->|Hne]; [discriminate|].
    intros Hk. destruct (String.eqb_spec k0 k') as [->|Hne'].
    + rewrite decide_False by congruence. reflexivity.
    + apply IH. exact Hk.
Qed.

(** Reading after writing: the written key gives the written value, every
    other key what it gave before. *)
Lemma obj_lookup_set props k v k' :
  obj_lookup (obj_set props k v) k' =
  if decide (k = k') then Some v else obj_lookup props k'.
Proof.
  unfold obj_set. destruct (obj_lookup props k) as [x|] eqn:Hk.
  - apply obj_lookup_replace. rewrite Hk. eauto.
  - destruct (array_index k).
    + apply obj_lookup_insert_index. exact Hk.
    + apply obj_lookup_append. exact Hk.
Qed.

Lemma obj_insert_index_NoDup props n k v :
  k ∉ props.*1 -> NoDup props.*1 -> NoDup (obj_insert_index props n k v).*1.
Proof.
  induction props as [|[k0 x] props IH]; simpl; intros Hk Hnd.
  - apply NoDup_singleton.
  - assert (Hcons : NoDup (k :: k0 :: props.*1))
      by (apply NoDup_cons; split; assumption).
    destruct (array_index k0) as [n'|]; [destruct (n <? n')%N|]; simpl;
      try exact Hcons.
    apply NoDup_cons in Hnd as [Hk0 Hnd]. apply NoDup_cons. split.
    + rewrite obj_insert_index_keys. intros [-> | Hin]; [|exact (Hk0 Hin)].
      apply Hk. left.
    + apply IH; [|exact Hnd]. intros Hin. apply Hk. right. exact Hin.
Qed.

(** Writing keeps the keys of an object distinct. *)
Lemma obj_set_NoDup props k v : NoDup props.*1 -> NoDup (obj_set props k v).*1.
Proof.
  intros Hnd. unfold obj_set. destruct (obj_lookup props k) as [x|] eqn:Hk.
  - rewrite obj_replace_keys. exact Hnd.
  - apply obj_lookup_None in Hk. destruct (array_index k).
    + apply obj_insert_index_NoDup; assumption.
    + rewrite fmap_app. apply NoDup_app. split; [exact Hnd|]. split.
      * intros x Hx Hin. apply list_elem_of_singleton in Hin. simpl in Hin.
        subst x. exact (Hk Hx).
      * apply NoDup_singleton.
Qed.

End ObjectFacts.

(** ** The manifest object *)

Lemma manifest_objects_snoc chunks c :
  manifest_objects (chunks ++ [c]) =
  manifest_object_step (manifest_objects chunks) c.
Proof. unfold manifest_objects. rewrite fold_left_app. reflexivity. Qed.

(** The ordered objects and the lookup tables are filled alike. *)
Lemma manifest_objects_agree chunks k :
  obj_lookup (o_jsByName (manifest_objects chunks)) k =
    t_jsByName (manifest_tables chunks) !! k /\
  obj_lookup (o_jsById (manifest_objects chunks)) k =
    t_jsById (manifest_tables chunks) !! k /\
  obj_lookup (o_cssByName (manifest_objects chunks)) k =
    t_cssByName (manifest_tables chunks) !! k.
Proof.
  induction chunks as [|c chunks (IHn & IHi & IHc)] using rev_ind.
  - split; [|split]; reflexivity.
  - rewrite manifest_objects_snoc, manifest_tables_snoc.
    unfold manifest_object_step, manifest_step.
    destruct (truthy_name c) as [n|]; cbn [o_jsByName o_jsById o_cssByName
      t_jsByName t_jsById t_cssByName].
    + split; [|split].
      * rewrite obj_lookup_set, lookup_insert, IHn. reflexivity.
      * rewrite obj_lookup_set, lookup_insert, IHi. reflexivity.
      * destruct (css_scan (drop 1 (chunk_files c))); [|exact IHc].
        rewrite obj_lookup_set, lookup_insert, IHc. reflexivity.
    + split; [exact IHn|]. split; [|exact IHc].
      rewrite obj_lookup_set, lookup_insert, IHi. reflexivity.
Qed.

Lemma manifest_objects_NoDup chunks :
  NoDup (o_jsByName (manifest_objects chunks)).*1 /\
  NoDup (o_jsById (manifest_objects chunks)).*1 /\
  NoDup (o_cssByName (manifest_objects chunks)).*1.
Proof.
  induction chunks as [|c chunks (IHn & IHi & IHc)] using rev_ind.
  - split; [|split]; constructor.
  - rewrite manifest_objects_snoc. unfold manifest_object_step.
    destruct (truthy_name c) as [n|]; cbn [o_jsByName o_jsById o_cssByName].
    + split; [|split]; try (apply obj_set_NoDup; assumption).
      destruct (css_scan (drop 1 (chunk_files c)));
        [apply obj_set_NoDup|]; assumption.
    + split; [exact IHn|]. split; [apply obj_set_NoDup|]; assumption.
Qed.

(** X14.  The object that is serialized is the manifest of
    [statsToManifest]: its four properties are, in this order,
    [jsChunksByName], [jsChunksById], [cssChunksByName] and [hash]; each of
    the three objects has every key once and gives for every key what the
    lookup table of the same name gives. *)
Theorem manifest_object_is_the_manifest (stats : Stats) :
  exists byName byId css,
    manifest_object stats =
      VObj [ ("jsChunksByName", VObj byName); ("jsChunksById", VObj byId);
             ("cssChunksByName", VObj css);
             ("hash", VStr (manifest_hash (statsToManifest stats))) ] /\
    NoDup byName.*1 /\ NoDup byId.*1 /\ NoDup css.*1 /\
    forall k,
      obj_lookup byName k = jsChunksByName (statsToManifest stats) !! k /\
      obj_lookup byId k = jsChunksById (statsToManifest stats) !! k /\
      obj_lookup css k = cssChunksByName (statsToManifest stats) !! k.
Proof.
  destruct (manifest_objects_NoDup (stats_chunks stats)) as (Hn & Hi & Hc).
  eexists _, _, _. split; [reflexivity|].
  split; [exact Hn|]. split; [exact Hi|]. split; [exact Hc|].
  intros k. apply manifest_objects_agree.
Qed.

(** ** The [done] handler *)

Section DoneFacts.

Context (env : NodeEnv) (benv : BuildEnv).

(** The handler without hot reload, step by step. *)
Lemma on_done_without_hot opts stats fs :
  default true (opt_hot opts) = false ->
  on_done env benv opts stats fs =
  match fs_files (after_manifest benv opts stats fs) !! chunk_manifest_path benv opts with
  | None =>
      (Throw (new_Error env
                ("ENOENT: no such file or directory, unlink '" ++
                 chunk_manifest_path benv opts ++ "'")%string),
       after_manifest benv opts stats fs)
  | Some _ =>
      match require_resolve env "react-server-core-middleware" with
      | Throw e =>
          (Throw e,
           mkFS (fs_dirs fs)
             (delete (chunk_manifest_path benv opts)
                (fs_files (after_manifest benv opts stats fs))))
      | Normal core =>
          (Normal (routes_file_path (working_dir_absolute env opts) false),
           mkFS (fs_dirs fs)
             (<[routes_file_path (working_dir_absolute env opts) false :=
                  server_routes_text env core opts stats]>
                (delete (chunk_manifest_path benv opts)
                   (fs_files (after_manifest benv opts stats fs)))))
      end
  end.
Proof.
  intros Hhot. unfold on_done. cbv zeta. rewrite Hhot. cbn [negb].
  unfold bind at 1, writeFileSync at 1, modify.
  fold (output_dir opts). fold (manifest_json_path benv opts).
  fold (chunk_manifest_path benv opts). fold (manifest_json stats).
  fold (after_manifest benv opts stats fs).
  unfold bind at 1, unlinkSync.
  destruct (fs_files (after_manifest benv opts stats fs) !! chunk_manifest_path benv opts);
    [|reflexivity].
  unfold bind at 1. rewrite write_routes_closed.
  destruct (require_resolve env "react-server-core-middleware"); reflexivity.
Qed.

(** The handler with hot reload, step by step. *)
Lemma on_done_with_hot opts stats fs :
  default true (opt_hot opts) = true ->
  on_done env benv opts stats fs =
  match require_resolve env "react-server-core-middleware" with
  | Throw e => (Throw e, after_manifest benv opts stats fs)
  | Normal core =>
      match serverSideHotModuleReload benv stats
              (mkFS (fs_dirs fs)
                 (<[routes_file_path (working_dir_absolute env opts) false :=
                      server_routes_text env core opts stats]>
                    (fs_files (after_manifest benv opts stats fs)))) with
      | (Normal _, fs') =>
          (Normal (routes_file_path (working_dir_absolute env opts) false), fs')
      | (Throw e, fs') => (Throw e, fs')
      end
  end.
Proof.
  intros Hhot. unfold on_done. cbv zeta. rewrite Hhot. cbn [negb].
  unfold bind at 1, writeFileSync at 1, modify.
  fold (output_dir opts). fold (manifest_json_path benv opts).
  fold (manifest_json stats). fold (after_manifest benv opts stats fs).
  unfold bind at 1, ret at 1. unfold bind at 1. rewrite write_routes_closed.
  destruct (require_resolve env "react-server-core-middleware"); [|reflexivity].
  unfold bind at 1. cbn [fs_dirs after_manifest].
  fold (after_manifest benv opts stats fs).
  destruct (serverSideHotModuleReload benv stats _) as [[[]|e] fs']; reflexivity.
Qed.

End DoneFacts.

(** X15.  Without hot reload, when the bundler has left its
    [chunk-manifest.json] and the core middleware is found, the handler
    resolves the promise with the path of the server routes file; then
    [manifest.json] holds the serialized manifest, [chunk-manifest.json] is
    gone, the server routes file is written, nothing else has changed, and
    the hot-reload coordinator played no part. *)
Theorem done_without_hot_reload (env : NodeEnv) (benv : BuildEnv) opts stats fs core :
  default true (opt_hot opts) = false ->
  is_Some (fs_files fs !! chunk_manifest_path benv opts) ->
  require_resolve env "react-server-core-middleware" = Normal core ->
  chunk_manifest_path benv opts ≠ manifest_json_path benv opts ->
  routes_file_path (working_dir_absolute env opts) false ≠ manifest_json_path benv opts ->
  routes_file_path (working_dir_absolute env opts) false ≠ chunk_manifest_path benv opts ->
  exists fs',
    on_done env benv opts stats fs =
      (Normal (routes_file_path (working_dir_absolute env opts) false), fs') /\
    fs_files fs' !! manifest_json_path benv opts = Some (manifest_json stats) /\
    fs_files fs' !! chunk_manifest_path benv opts = None /\
    fs_files fs' !! routes_file_path (working_dir_absolute env opts) false =
      Some (server_routes_text env core opts stats) /\
    fs_dirs fs' = fs_dirs fs /\
    (forall q,
       q ≠ manifest_json_path benv opts ->
       q ≠ chunk_manifest_path benv opts ->
       q ≠ routes_file_path (working_dir_absolute env opts) false ->
       fs_files fs' !! q = fs_files fs !! q) /\
    (forall coordinator,
       on_done env (mkBuildEnv (path_join benv) coordinator) opts stats fs =
       on_done env benv opts stats fs).
Proof.
  intros Hhot [old Hold] Hcore Hcm Hrm Hrc.
  eexists. split; [|split; [|split; [|split; [|split; [|split]]]]].
  - rewrite (on_done_without_hot env benv opts stats fs Hhot).
    cbn [fs_files after_manifest].
    rewrite lookup_insert_ne by (apply not_eq_sym; exact Hcm).
    rewrite Hold, Hcore. reflexivity.
  - cbn [fs_files]. rewrite lookup_insert_ne by exact Hrm.
    rewrite lookup_delete_ne by exact Hcm. apply lookup_insert_eq.
  - cbn [fs_files]. rewrite lookup_insert_ne by exact Hrc.
    apply lookup_delete_eq.
  - cbn [fs_files]. apply lookup_insert_eq.
  - reflexivity.
  - intros q Hq1 Hq2 Hq3. cbn [fs_files].
    rewrite lookup_insert_ne by (apply not_eq_sym; exact Hq3).
    rewrite lookup_delete_ne by (apply not_eq_sym; exact Hq2).
    apply lookup_insert_ne. apply not_eq_sym. exact Hq1.
  - intros coordinator.
    rewrite (on_done_without_hot env benv opts stats fs Hhot).
    rewrite (on_done_without_hot env (mkBuildEnv (path_join benv) coordinator)
               opts stats fs Hhot).
    reflexivity.
Qed.

Lemma done_without_hot_reload_witness :
  exists fs',
    on_done demo_env demo_benv (opts_of demo_routes false None) home_stats built_fs =
      (Normal "/app/./__clientTemp/routes_server.js", fs') /\
    fs_files fs' !! "./__clientTemp/build/manifest.json" =
      Some (manifest_json home_stats) /\
    fs_files fs' !! "./__clientTemp/build/chunk-manifest.json" = None.
Proof.
  destruct (done_without_hot_reload demo_env demo_benv
              (opts_of demo_routes false None) home_stats built_fs
              "/node_modules/react-server-core-middleware")
    as (fs' & Hrun & Hmanifest & Hchunk & _).
  - reflexivity.
  - vm_compute. eauto.
  - reflexivity.
  - discriminate.
  - discriminate.
  - discriminate.
  - exists fs'. split; [exact Hrun|]. split; [exact Hmanifest | exact Hchunk].
Defined.

(** X16.  Without hot reload and without a [chunk-manifest.json] to remove,
    the handler throws the error of [unlinkSync]: the promise is not
    resolved, [manifest.json] has already been written and no server routes
    file is written. *)
Theorem done_missing_chunk_manifest (env : NodeEnv) (benv : BuildEnv) opts stats fs :
  default true (opt_hot opts) = false ->
  fs_files fs !! chunk_manifest_path benv opts = None ->
  chunk_manifest_path benv opts ≠ manifest_json_path benv opts ->
  routes_file_path (working_dir_absolute env opts) false ≠ manifest_json_path benv opts ->
  exists e fs',
    on_done env benv opts stats fs = (Throw e, fs') /\
    e = new_Error env
          ("ENOENT: no such file or directory, unlink '" ++
           chunk_manifest_path benv opts ++ "'")%string /\
    fs_files fs' !! manifest_json_path benv opts = Some (manifest_json stats) /\
    fs_files fs' !! routes_file_path (working_dir_absolute env opts) false =
      fs_files fs !! routes_file_path (working_dir_absolute env opts) false.
Proof.
  intros Hhot Hnone Hcm Hrm. eexists _, _. split; [|split; [reflexivity|split]].
  - rewrite (on_done_without_hot env benv opts stats fs Hhot).
    cbn [fs_files after_manifest].
    rewrite lookup_insert_ne by (apply not_eq_sym; exact Hcm).
    rewrite Hnone. reflexivity.
  - cbn [fs_files after_manifest]. apply lookup_insert_eq.
  - cbn [fs_files after_manifest]. apply lookup_insert_ne.
    apply not_eq_sym. exact Hrm.
Qed.

Lemma done_missing_chunk_manifest_witness :
  exists e fs',
    on_done demo_env demo_benv (opts_of demo_routes false None) home_stats empty_fs =
      (Throw e, fs') /\
    fs_files fs' !! "/app/./__clientTemp/routes_server.js" = None.
Proof.
  destruct (done_missing_chunk_manifest demo_env demo_benv
              (opts_of demo_routes false None) home_stats empty_fs)
    as (e & fs' & Hrun & _ & _ & Hroutes).
  - reflexivity.
  - reflexivity.
  - discriminate.
  - discriminate.
  - exists e, fs'. split; [exact Hrun | exact Hroutes].
Defined.

(** X17.  With hot reload the handler removes nothing: it writes
    [manifest.json] and the server routes file, leaves [chunk-manifest.json]
    as it found it, and only then calls the hot-reload coordinator with the
    stats; the promise is resolved when the coordinator returns, and not
    when it throws. *)
Theorem done_with_hot_reload (env : NodeEnv) (benv : BuildEnv) opts stats fs core :
  default true (opt_hot opts) = true ->
  require_resolve env "react-server-core-middleware" = Normal core ->
  chunk_manifest_path benv opts ≠ manifest_json_path benv opts ->
  routes_file_path (working_dir_absolute env opts) false ≠ manifest_json_path benv opts ->
  routes_file_path (working_dir_absolute env opts) false ≠ chunk_manifest_path benv opts ->
  exists written,
    fs_files written !! manifest_json_path benv opts = Some (manifest_json stats) /\
    fs_files written !! routes_file_path (working_dir_absolute env opts) false =
      Some (server_routes_text env core opts stats) /\
    fs_files written !! chunk_manifest_path benv opts =
      fs_files fs !! chunk_manifest_path benv opts /\
    on_done env benv opts stats fs =
      match serverSideHotModuleReload benv stats written with
      | (Normal _, fs') =>
          (Normal (routes_file_path (working_dir_absolute env opts) false), fs')
      | (Throw e, fs') => (Throw e, fs')
      end.
Proof.
  intros Hhot Hcore Hcm Hrm Hrc.
  eexists. split; [|split; [|split]].
  4: { rewrite (on_done_with_hot env benv opts stats fs Hhot), Hcore.
       reflexivity. }
  - cbn [fs_files after_manifest]. rewrite lookup_insert_ne by exact Hrm.
    apply lookup_insert_eq.
  - cbn [fs_files]. apply lookup_insert_eq.
  - cbn [fs_files after_manifest]. rewrite lookup_insert_ne by exact Hrc.
    apply lookup_insert_ne. apply not_eq_sym. exact Hcm.
Qed.

Lemma done_with_hot_reload_witness :
  (exists fs',
     on_done demo_env demo_benv (opts_of demo_routes true None) home_stats built_fs =
       (Normal "/app/./__clientTemp/routes_server.js", fs') /\
     fs_files fs' !! "/hmr.log" = Some "abc" /\
     fs_files fs' !! "./__clientTemp/build/chunk-manifest.json" = Some "{}") /\
  (exists fs',
     on_done demo_env failing_benv (opts_of demo_routes true None) home_stats built_fs =
       (Throw (VStr "hmr failed"), fs')).
Proof.
  split.
  - destruct (done_with_hot_reload demo_env demo_benv
                (opts_of demo_routes true None) home_stats built_fs
                "/node_modules/react-server-core-middleware")
      as (written & _ & _ & Hchunk & Hrun);
      [reflexivity | reflexivity | discriminate | discriminate | discriminate |].
    eexists. split; [exact Hrun|]. cbn [fs_files].
    split; [apply lookup_insert_eq|].
    rewrite lookup_insert_ne by discriminate. exact Hchunk.
  - destruct (done_with_hot_reload demo_env failing_benv
                (opts_of demo_routes true None) home_stats built_fs
                "/node_modules/react-server-core-middleware")
      as (written & _ & _ & _ & Hrun);
      [reflexivity | reflexivity | discriminate | discriminate | discriminate |].
    eexists. exact Hrun.
Defined.

Lemma append_assoc (a b c : string) :
  ((a ++ b) ++ c)%string = (a ++ (b ++ c))%string.
Proof.
  induction a as [|x a IH]; [reflexivity|].
  change (String x ((a ++ b) ++ c)%string = String x (a ++ (b ++ c))%string).
  rewrite IH. reflexivity.
Qed.

Lemma concat_empty_cons (h : string) (l : list string) :
  l ≠ [] ->
  String.concat EmptyString (h :: l) = (h ++ String.concat EmptyString l)%string.
Proof. destruct l as [|x l]; [contradiction | reflexivity]. Qed.

(** X18.  The server routes file starts with the manifest as a literal, and
    the literal is character for character the text written to
    [manifest.json]. *)
Theorem server_routes_embed_manifest_json (env : NodeEnv) core opts stats :
  exists rest,
    server_routes_text env core opts stats =
    (nl ++ "var manifest = " ++ manifest_json stats ++ ";" ++ rest)%string.
Proof.
  unfold server_routes_text, routes_text.
  rewrite <- app_comm_cons.
  rewrite concat_empty_cons
    by (destruct (flat_map _ _); discriminate).
  unfold routes_head at 1.
  change (truthy (manifest_object stats)) with true. cbv iota.
  fold (manifest_json stats).
  eexists. rewrite !append_assoc. reflexivity.
Qed.

(** ** The loader of the server variant *)

(** *** The literals of the emitted loader *)

Lemma strip_prefix_app (pre s : string) :
  strip_prefix pre (pre ++ s)%string = Some s.
Proof.
  induction pre as [|a pre IH].
  - reflexivity.
  - change (strip_prefix (String a pre) (String a (pre ++ s)%string) = Some s).
    cbn [strip_prefix]. rewrite Ascii.eqb_refl. exact IH.
Qed.

(** [JSON.stringify] writes a byte above 127 as it is, and starts what it
    writes for any character with the character or with a backslash. *)
Lemma json_escape_high (c : ascii) :
  is_high c = true -> json_escape c = String c EmptyString.
Proof.
  destruct c as [b0 b1 b2 b3 b4 b5 b6 b7]. cbn [is_high]. intros ->.
  destruct b0, b1, b2, b3, b4, b5, b6; reflexivity.
Qed.

Lemma json_escape_head (c : ascii) (W : string) :
  exists h T,
    (json_escape c ++ W)%string = String h T /\ (h = c \/ h = "092"%char).
Proof.
  destruct c as [[] [] [] [] [] [] [] []];
    (eexists _, _; split; [reflexivity | (left; reflexivity) || (right; reflexivity)]).
Qed.

Lemma high_neq_low (b x : ascii) :
  is_high b = true -> is_high x = false -> Ascii.eqb b x = false.
Proof.
  intros Hb Hx. apply Ascii.eqb_neq. intros ->. congruence.
Qed.

(** A sequence of bytes above 127 that is not at the start of a string is
    not at the start of its escaped form either. *)
Lemma strip_high_escaped (p s X : string) :
  p <> EmptyString -> all_high p = true -> head_is_low X = true ->
  strip_prefix p s = None ->
  strip_prefix p (json_escape_all s ++ X)%string = None.
Proof.
  revert s. induction p as [|b p IH]; intros s Hne Hp HX Hs; [congruence|].
  cbn [all_high] in Hp. apply andb_prop in Hp as [Hb Hp].
  destruct s as [|a s].
  - cbn [json_escape_all]. change (strip_prefix (String b p) X = None).
    destruct X as [|x X]; [reflexivity|].
    cbn [strip_prefix]. cbn [head_is_low] in HX.
    rewrite (high_neq_low b x Hb); [reflexivity|].
    destruct (is_high x); [discriminate | reflexivity].
  - cbn [strip_prefix] in Hs. cbn [json_escape_all].
    rewrite append_assoc.
    destruct (Ascii.eqb b a) eqn:Hba.
    + apply Ascii.eqb_eq in Hba. subst a.
      rewrite (json_escape_high b Hb).
      change (strip_prefix (String b p) (String b (json_escape_all s ++ X)%string) = None).
      cbn [strip_prefix]. rewrite Ascii.eqb_refl.
      destruct p as [|b' p']; [discriminate|].
      apply IH; [discriminate | exact Hp | exact HX | exact Hs].
    + destruct (json_escape_head a (json_escape_all s ++ X)%string)
        as (h & T & -> & [-> | ->]).
      * cbn [strip_prefix]. rewrite Hba. reflexivity.
      * cbn [strip_prefix].
        rewrite (high_neq_low b "092" Hb eq_refl). reflexivity.
Qed.

(** What [JSON.stringify] writes for one character reads back as that
    character, between quotes of either kind. *)
Lemma string_literal_escape (q c : ascii) (Z : string) :
  q = "034"%char \/ q = "039"%char ->
  c <> "039"%char -> c <> "226"%char ->
  string_literal q (json_escape c ++ Z)%string = push c (string_literal q Z).
Proof.
  intros [-> | ->] H1 H2;
    destruct c as [[] [] [] [] [] [] [] []];
    try reflexivity; contradiction.
Qed.

Lemma push_prepend (c : ascii) (s : string) (r : option (string * string)) :
  push c (prepend s r) = prepend (String c s) r.
Proof. destruct r as [[v rest]|]; reflexivity. Qed.

Lemma string_literal_escaped (q : ascii) (s X : string) :
  q = "034"%char \/ q = "039"%char ->
  literal_safe s = true -> head_is_low X = true ->
  string_literal q (json_escape_all s ++ X)%string =
  prepend s (string_literal q X).
Proof.
  intros Hq Hs HX. induction s as [|c s IH].
  - cbn [json_escape_all]. change (string_literal q X = prepend EmptyString (string_literal q X)).
    destruct (string_literal q X) as [[v rest]|]; reflexivity.
  - cbn [literal_safe] in Hs.
    apply andb_prop in Hs as [Hs Hs'].
    apply andb_prop in Hs as [Hs Hps].
    apply andb_prop in Hs as [Hc Hls].
    apply negb_true_iff in Hc, Hls, Hps.
    apply Ascii.eqb_neq in Hc.
    cbn [json_escape_all]. rewrite append_assoc.
    rewrite <- push_prepend, <- (IH Hs').
    destruct (Ascii.eqb c "226") eqn:He.
    + apply Ascii.eqb_eq in He. subst c.
      set (Z := (json_escape_all s ++ X)%string).
      assert (H1 : strip_prefix (String "128" (String "168" EmptyString)) Z = None).
      { apply strip_high_escaped; [discriminate | reflexivity | exact HX |].
        change (has_prefix (String "128" (String "168" EmptyString)) s = false) in Hls.
        unfold has_prefix in Hls.
        destruct (strip_prefix _ s); [discriminate | reflexivity]. }
      assert (H2 : strip_prefix (String "128" (String "169" EmptyString)) Z = None).
      { apply strip_high_escaped; [discriminate | reflexivity | exact HX |].
        change (has_prefix (String "128" (String "169" EmptyString)) s = false) in Hps.
        unfold has_prefix in Hps.
        destruct (strip_prefix _ s); [discriminate | reflexivity]. }
      change (json_escape "226" ++ Z)%string with (String "226" Z).
      cbn [string_literal].
      replace (Ascii.eqb "226" q) with false
        by (destruct Hq as [-> | ->]; reflexivity).
      replace (line_terminator_at (String "226" Z)) with false; [reflexivity|].
      change (line_terminator_at (String "226" Z))
        with (false || false ||
              has_prefix (String "128" (String "168" EmptyString)) Z ||
              has_prefix (String "128" (String "169" EmptyString)) Z).
      unfold has_prefix. rewrite H1, H2. reflexivity.
    + apply Ascii.eqb_neq in He.
      apply string_literal_escape; assumption.
Qed.

(** The emitted loader, with the two places of the path in view. *)
Lemma loader_server_shape (E : string) :
  loader_server (dquote ++ E ++ dquote)%string =
  ((nl ++ tabs 7 ++ "try {" ++
    nl ++ tabs 8 ++ "cb(unwrapEs6Module(require(" ++ dquote) ++
   (E ++ String "034"
      ((")));" ++
        nl ++ tabs 7 ++ "} catch (e) {" ++
        nl ++ tabs 8 ++ "console.error('") ++
       ("Failed to load page at " ++
        String "034" (E ++ String "034" (String "039"
          ("," ++ " e.stack);" ++ nl ++ tabs 7 ++ "}")))))))%string.
Proof.
  unfold loader_server. rewrite !append_assoc. reflexivity.
Qed.

Lemma string_literal_closed (q : ascii) (Y : string) :
  q = "034"%char \/ q = "039"%char ->
  string_literal q (String q Y) = Some (EmptyString, Y).
Proof. intros [-> | ->]; reflexivity. Qed.

Lemma string_literal_dquote (X : string) :
  string_literal "039" (String "034" X) = push "034" (string_literal "039" X).
Proof. reflexivity. Qed.

(** Reading back the loader emitted for a path that can be spliced gives
    the path and the message with the path. *)
Lemma parse_emitted_loader (rel : string) :
  literal_safe rel = true ->
  parse_server_loader (loader_server (json_quote rel)) =
  Some (rel, failure_message rel).
Proof.
  intros Hsafe. unfold json_quote. rewrite loader_server_shape.
  unfold parse_server_loader. rewrite strip_prefix_app.
  rewrite (string_literal_escaped "034" rel);
    [| left; reflexivity | exact Hsafe | reflexivity].
  rewrite (string_literal_closed "034"); [| left; reflexivity].
  cbn [prepend]. rewrite append_empty_r, strip_prefix_app.
  change "Failed to load page at "
    with (json_escape_all "Failed to load page at ") at 1.
  rewrite (string_literal_escaped "039");
    [| right; reflexivity | reflexivity | reflexivity].
  rewrite string_literal_dquote.
  rewrite (string_literal_escaped "039" rel);
    [| right; reflexivity | exact Hsafe | reflexivity].
  rewrite string_literal_dquote.
  rewrite (string_literal_closed "039"); [| right; reflexivity].
  cbn [prepend push].
  reflexivity.
Qed.

(** *** The loader in the file *)




(** *** Claims on the loader *)

(** The two outcomes of [unwrapEs6Module]. *)
Lemma unwrapEs6Module_value (env : NodeEnv) {S : Type} (m : value) (s : S) :
  nullish m = false ->
  unwrapEs6Module env m s =
  (Normal (if truthy (read_prop m "__esModule")
           then read_prop m "default" else m), s).
Proof.
  intros Hm. unfold unwrapEs6Module, get_prop, bind. rewrite Hm. simpl.
  destruct (truthy (read_prop m "__esModule")); reflexivity.
Qed.

Lemma unwrapEs6Module_nullish (env : NodeEnv) {S : Type} (m : value) (s : S) :
  nullish m = true ->
  unwrapEs6Module env m s = (Throw (type_error env m "__esModule"), s).
Proof.
  intros Hm. unfold unwrapEs6Module, get_prop, bind. rewrite Hm. reflexivity.
Qed.

(** The loader emitted for a path that can be spliced reads back as the
    statement that requires this path and logs the message with it. *)
Lemma server_done_emitted (env : NodeEnv) {U : Type} (rel : string) :
  literal_safe rel = true ->
  server_done (U := U) env (loader_server (json_quote rel)) =
  Some (run_server_loader env (rel, failure_message rel)).
Proof.
  intros Hsafe. unfold server_done. rewrite (parse_emitted_loader rel Hsafe).
  reflexivity.
Qed.




(** ** The loader of the server variant, further cases *)

(** X12.  For a page path that can be spliced: when the page loads to a
    module that is not [undefined] or [null] and the callback throws [e],
    itself not [undefined] or [null], the loader handles it like a load
    failure: [done] returns normally and one line is logged, the message
    with the page path and [e.stack]; what the callback did before it threw
    stays. *)
Theorem server_done_swallows_callback_exception (env : NodeEnv) {U : Type}
    (rel : string) :
  literal_safe rel = true ->
  exists done,
    server_done (U := U) env (loader_server (json_quote rel)) = Some done /\
    forall require cb rt m rt1 e rt2,
      require rel rt = (Normal m, rt1) ->
      nullish m = false ->
      cb (if truthy (read_prop m "__esModule")
          then read_prop m "default" else m) rt1 = (Throw e, rt2) ->
      nullish e = false ->
      done require cb rt =
      (Normal VUndefined,
       mkRuntime
         (console_errors rt2 ++
          [[VStr (failure_message rel); read_prop e "stack"]])
         (user_state rt2)).
Proof.
  intros Hsafe. eexists. split; [exact (server_done_emitted env rel Hsafe)|].
  intros require cb rt m rt1 e rt2 Hreq Hm Hcb He.
  unfold run_server_loader, bind at 1, try_catch. cbn [fst snd].
  rewrite (bind_normal _ _ _ _ _ Hreq).
  rewrite (bind_normal _ _ _ _ _ (unwrapEs6Module_value env m rt1 Hm)).
  rewrite (bind_throw _ _ _ _ _ Hcb).
  unfold get_prop. rewrite He. reflexivity.
Qed.

Lemma server_done_swallows_callback_exception_witness :
  exists done,
    server_done (U := nat) demo_env (loader_server (json_quote "../pages/home.js")) =
      Some done /\
    done (fun _ => ret (es_module (VStr "page"))) throwing_cb (mkRuntime [] 0) =
    (Normal VUndefined,
     mkRuntime
       [[VStr (failure_message "../pages/home.js"); VStr "Error: render failed"]] 0).
Proof.
  destruct (server_done_swallows_callback_exception demo_env (U := nat)
              "../pages/home.js" eq_refl) as (done & Hdone & Hcb).
  exists done. split; [exact Hdone|].
  exact (Hcb (fun _ => ret (es_module (VStr "page"))) throwing_cb
           (mkRuntime [] 0) (es_module (VStr "page")) (mkRuntime [] 0)
           (VError "render failed" "Error: render failed") (mkRuntime [] 0)
           eq_refl eq_refl eq_refl eq_refl).
Defined.

(** X13.  For a page path that can be spliced: when requiring the page
    gives [undefined] or [null], reading [__esModule] from it throws the
    engine's [TypeError]; the loader handles it like a load failure: the
    callback does not run, one line is logged, the message with the page
    path and the stack of that [TypeError], and [done] returns normally. *)
Theorem server_done_null_module (env : NodeEnv) {U : Type} (rel : string) :
  literal_safe rel = true ->
  exists done,
    server_done (U := U) env (loader_server (json_quote rel)) = Some done /\
    forall require cb rt m rt1,
      require rel rt = (Normal m, rt1) ->
      nullish m = true ->
      done require cb rt =
      (Normal VUndefined,
       mkRuntime
         (console_errors rt1 ++
          [[VStr (failure_message rel);
            VStr (snd (type_error_text env m "__esModule"))]])
         (user_state rt1)).
Proof.
  intros Hsafe. eexists. split; [exact (server_done_emitted env rel Hsafe)|].
  intros require cb rt m rt1 Hreq Hm.
  unfold run_server_loader, bind at 1, try_catch. cbn [fst snd].
  rewrite (bind_normal _ _ _ _ _ Hreq).
  rewrite (bind_throw _ _ _ _ _ (unwrapEs6Module_nullish env m rt1 Hm)).
  reflexivity.
Qed.

Lemma server_done_null_module_witness :
  exists done,
    server_done (U := nat) demo_env (loader_server (json_quote "../pages/home.js")) =
      Some done /\
    done (fun _ => ret VNull) counting_cb (mkRuntime [] 0) =
    (Normal VUndefined,
     mkRuntime
       [[VStr (failure_message "../pages/home.js");
         VStr (snd (demo_type_error_text VNull "__esModule"))]] 0).
Proof.
  destruct (server_done_null_module demo_env (U := nat)
              "../pages/home.js" eq_refl) as (done & Hdone & Hnull).
  exists done. split; [exact Hdone|].
  exact (Hnull (fun _ => ret VNull) counting_cb (mkRuntime [] 0) VNull
           (mkRuntime [] 0) eq_refl eq_refl).
Defined.

(** X22.  For a page path that can be spliced: when requiring the page
    throws [undefined] or [null], the handler itself fails: reading
    [e.stack] throws the engine's [TypeError], nothing is logged, the
    callback does not run, and that error leaves [done]. *)
Theorem server_done_nullish_exception (env : NodeEnv) {U : Type} (rel : string) :
  literal_safe rel = true ->
  exists done,
    server_done (U := U) env (loader_server (json_quote rel)) = Some done /\
    forall require cb rt e rt1,
      require rel rt = (Throw e, rt1) ->
      nullish e = true ->
      done require cb rt = (Throw (type_error env e "stack"), rt1).
Proof.
  intros Hsafe. eexists. split; [exact (server_done_emitted env rel Hsafe)|].
  intros require cb rt e rt1 Hreq He.
  unfold run_server_loader, bind at 1, try_catch. cbn [fst snd].
  rewrite (bind_throw _ _ _ _ _ Hreq).
  unfold get_prop. rewrite He. reflexivity.
Qed.

Lemma server_done_nullish_exception_witness :
  exists done,
    server_done (U := nat) demo_env (loader_server (json_quote "../pages/home.js")) =
      Some done /\
    done (fun _ => throw VUndefined) counting_cb (mkRuntime [] 0) =
    (Throw (type_error demo_env VUndefined "stack"), mkRuntime [] 0).
Proof.
  destruct (server_done_nullish_exception demo_env (U := nat)
              "../pages/home.js" eq_refl) as (done & Hdone & Hthrow).
  exists done. split; [exact Hdone|].
  exact (Hthrow (fun _ => throw VUndefined) counting_cb (mkRuntime [] 0)
           VUndefined (mkRuntime [] 0) eq_refl eq_refl).
Defined.

(** *** A path with an apostrophe *)

Lemma strip_prefix_inv (pre s r : string) :
  strip_prefix pre s = Some r -> s = (pre ++ r)%string.
Proof.
  revert s. induction pre as [|a pre IH]; intros s H.
  - injection H as ->. reflexivity.
  - destruct s as [|b s]; [discriminate|]. cbn [strip_prefix] in H.
    destruct (Ascii.eqb_spec a b) as [->|_]; [|discriminate].
    change (String b s = String b (pre ++ r)%string).
    rewrite (IH s H). reflexivity.
Qed.

Lemma length_append (a b : string) :
  String.length (a ++ b)%string = String.length a + String.length b.
Proof.
  induction a as [|c a IH]; [reflexivity|].
  change (S (String.length (a ++ b)%string) = S (String.length a + String.length b)).
  rewrite IH. reflexivity.
Qed.

(** One character of the path in a literal: it reads back or the literal
    stops at a line separator. *)
Lemma string_literal_char (q c : ascii) (Z : string) :
  q = "034"%char \/ q = "039"%char -> c <> "039"%char ->
  string_literal q (json_escape c ++ Z)%string = push c (string_literal q Z) \/
  string_literal q (json_escape c ++ Z)%string = None.
Proof.
  intros Hq Hc. destruct (Ascii.eqb_spec c "226") as [->|He].
  - change (json_escape "226" ++ Z)%string with (String "226" Z).
    cbn [string_literal].
    replace (Ascii.eqb "226" q) with false
      by (destruct Hq as [-> | ->]; reflexivity).
    destruct (line_terminator_at (String "226" Z)); [right | left]; reflexivity.
  - left. apply string_literal_escape; assumption.
Qed.

Lemma string_literal_to_apostrophe (rel X : string) :
  has_apostrophe rel = true ->
  string_literal "039" (json_escape_all rel ++ X)%string = None \/
  exists a b,
    rel = (a ++ String "039" b)%string /\
    string_literal "039" (json_escape_all rel ++ X)%string =
    Some (a, (json_escape_all b ++ X)%string).
Proof.
  induction rel as [|c rel IH]; [discriminate|].
  intros H. cbn [has_apostrophe] in H. cbn [json_escape_all].
  rewrite append_assoc.
  destruct (Ascii.eqb_spec c "039") as [->|Hc].
  - right. exists EmptyString, rel. split; reflexivity.
  - cbn [orb] in H.
    destruct (string_literal_char "039" c (json_escape_all rel ++ X)%string
                (or_intror eq_refl) Hc) as [-> | ->]; [|left; reflexivity].
    destruct (IH H) as [-> | (a & b & -> & ->)]; [left; reflexivity|].
    right. exists (String c a), b. split; reflexivity.
Qed.

Lemma string_literal_required (s R : string) :
  string_literal "034" (json_escape_all s ++ String "034" R)%string = None \/
  string_literal "034" (json_escape_all s ++ String "034" R)%string = Some (s, R).
Proof.
  induction s as [|c s IH]; [right; reflexivity|].
  cbn [json_escape_all]. rewrite append_assoc.
  assert (Hc :
    string_literal "034" (json_escape c ++ json_escape_all s ++ String "034" R)%string =
      push c (string_literal "034" (json_escape_all s ++ String "034" R)%string) \/
    string_literal "034" (json_escape c ++ json_escape_all s ++ String "034" R)%string =
      None).
  { destruct (Ascii.eqb_spec c "039") as [->|Hc]; [left; reflexivity|].
    apply string_literal_char; [left; reflexivity | exact Hc]. }
  destruct Hc as [-> | ->]; [|left; reflexivity].
  destruct IH as [-> | ->]; [left | right]; reflexivity.
Qed.

(** X25.  A page path with an apostrophe changes the statement: the
    literal of the message ends at the first apostrophe of the path, and
    the text no longer reads as the loader with the path in its message. *)
Theorem apostrophe_breaks_loader (env : NodeEnv) {U : Type}
    (routesDir wd module : string) :
  has_apostrophe (path_relative env wd (path_resolve env routesDir module)) = true ->
  parse_server_loader
    (loader_server (relative_path_json env routesDir wd module)) = None /\
  server_done (U := U) env
    (loader_server (relative_path_json env routesDir wd module)) = None.
Proof.
  intros Hap.
  change (relative_path_json env routesDir wd module)
    with (json_quote (path_relative env wd (path_resolve env routesDir module))).
  set (rel := path_relative env wd (path_resolve env routesDir module)) in *.
  enough (Hparse : parse_server_loader (loader_server (json_quote rel)) = None)
    by (split; [exact Hparse | unfold server_done; rewrite Hparse; reflexivity]).
  unfold json_quote. rewrite loader_server_shape.
  unfold parse_server_loader. rewrite strip_prefix_app.
  destruct (string_literal_required rel
              ((")));" ++ nl ++ tabs 7 ++ "} catch (e) {" ++
                nl ++ tabs 8 ++ "console.error('") ++
               "Failed to load page at " ++
               String "034" (json_escape_all rel ++
                 String "034" (String "039"
                   ("," ++ " e.stack);" ++ nl ++ tabs 7 ++ "}"))))%string)
    as [-> | ->]; [reflexivity|].
  rewrite strip_prefix_app.
  change "Failed to load page at "
    with (json_escape_all "Failed to load page at ") at 1.
  rewrite (string_literal_escaped "039");
    [| right; reflexivity | reflexivity | reflexivity].
  rewrite string_literal_dquote.
  destruct (string_literal_to_apostrophe rel
              (String "034" (String "039"
                 ("," ++ " e.stack);" ++ nl ++ tabs 7 ++ "}")))%string Hap)
    as [-> | (a & b & _ & ->)]; [reflexivity|].
  cbn [push prepend].
  destruct (strip_prefix _ _) as [[|x r]|] eqn:Hstrip; try reflexivity.
  exfalso. apply strip_prefix_inv in Hstrip.
  apply (f_equal String.length) in Hstrip.
  rewrite !length_append in Hstrip. cbn [String.length] in Hstrip.
  rewrite !length_append in Hstrip. cbn in Hstrip. lia.
Qed.

Lemma apostrophe_breaks_loader_witness :
  server_done (U := nat) demo_env
    (loader_server (relative_path_json demo_env "." "/app/tmp" "pages/it's.js")) =
  None.
Proof.
  exact (proj2 (apostrophe_breaks_loader demo_env (U := nat) "." "/app/tmp"
                  "pages/it's.js" eq_refl)).
Defined.

(** X24.  The loader emitted for a (route, format) pair whose page path
    holds no apostrophe and no line separator reads back as the statement
    that requires exactly this path and logs the words [Failed to load page
    at] followed by the path between double quotes: what [JSON.stringify]
    wrote is read back to the path in both literals. *)
Theorem emitted_loader_reads_back (env : NodeEnv) (routesDir wd module : string) :
  literal_safe (path_relative env wd (path_resolve env routesDir module)) = true ->
  parse_server_loader
    (loader_server (relative_path_json env routesDir wd module)) =
  Some (path_relative env wd (path_resolve env routesDir module),
        ("Failed to load page at " ++ dquote ++
         path_relative env wd (path_resolve env routesDir module) ++ dquote)%string).
Proof.
  intros Hsafe. exact (parse_emitted_loader _ Hsafe).
Qed.

Lemma emitted_loader_reads_back_witness :
  parse_server_loader
    (loader_server
       (relative_path_json demo_env "." "/app/tmp"
          ("pages" ++ backslash ++ "home" ++ dquote ++ ".js"))) =
  Some (("./pages" ++ backslash ++ "home" ++ dquote ++ ".js")%string,
        ("Failed to load page at " ++ dquote ++
         "./pages" ++ backslash ++ "home" ++ dquote ++ ".js" ++ dquote)%string).
Proof.
  exact (emitted_loader_reads_back demo_env "." "/app/tmp"
           ("pages" ++ backslash ++ "home" ++ dquote ++ ".js")%string eq_refl).
Defined.
